(** * report_comparator.py: a shallow embedding and its properties

    The development follows [src/report_comparator.py]:

    - [PyStr]: the [str] methods the program calls ([lower], [upper],
      [replace], [strip]); a [str] is held as its UTF-8 bytes;
    - [PyFloat]: binary64 arithmetic (primitive floats), the [.2f] format,
      [round(_, 0)], [int], numpy's [round(_, 2)] and [float(str)];
    - [Frame]: the pandas operations the program uses on [object],
      [float64] and [int64] columns: column lookup, the [.str] accessor,
      boolean-mask row selection, column selection, the outer [merge],
      row-wise [apply], [astype(float)];
    - [ReportComparator]: [compare_reports], [load_report],
      [compare_all_reports], [validate_required_files];
    - the properties. *)

From Stdlib Require Import ZArith Bool List String Ascii Floats Lia.
From Stdlib Require Import Permutation DecimalString.
Import ListNotations.

Set Warnings "-inexact-float".

Local Open Scope string_scope.

(** ** Python strings (ASCII case mapping) *)

Module PyStr.

(** [str.lower] and [str.upper] on the ASCII letters. Bytes outside
    [A-Za-z] are kept: metric labels and country codes are ASCII. *)
Definition lower_char (c : ascii) : ascii :=
  let n := nat_of_ascii c in
  if (Nat.leb 65 n && Nat.leb n 90)%bool then ascii_of_nat (n + 32) else c.

Definition upper_char (c : ascii) : ascii :=
  let n := nat_of_ascii c in
  if (Nat.leb 97 n && Nat.leb n 122)%bool then ascii_of_nat (n - 32) else c.

Fixpoint lower (s : string) : string :=
  match s with
  | EmptyString => EmptyString
  | String c s' => String (lower_char c) (lower s')
  end.

Fixpoint upper (s : string) : string :=
  match s with
  | EmptyString => EmptyString
  | String c s' => String (upper_char c) (upper s')
  end.

(** [s.startswith(p)] *)
Fixpoint startswith (p s : string) : bool :=
  match p, s with
  | EmptyString, _ => true
  | String a p', String b s' => (Ascii.eqb a b && startswith p' s')%bool
  | String _ _, EmptyString => false
  end.

(** [s.replace(old, new)] for a non-empty [old]: the occurrences of [old]
    are found from the left and do not overlap. [skip] counts the bytes
    of a found occurrence that are still to be dropped. *)
Fixpoint replace_from (old new : string) (skip : nat) (s : string) : string :=
  match s with
  | EmptyString => EmptyString
  | String c s' =>
      match skip with
      | S k => replace_from old new k s'
      | O =>
          if startswith old s
          then new ++ replace_from old new (String.length old - 1) s'
          else String c (replace_from old new 0 s')
      end
  end.

(** With an empty [old], Python puts [new] before every byte and at the
    end. *)
Fixpoint intersperse (new s : string) : string :=
  match s with
  | EmptyString => new
  | String c s' => new ++ String c (intersperse new s')
  end.

Definition replace (old new s : string) : string :=
  match old with
  | EmptyString => intersperse new s
  | String _ _ => replace_from old new 0 s
  end.

(** [sub in s] *)
Fixpoint contains (sub s : string) : bool :=
  (startswith sub s ||
   match s with
   | EmptyString => false
   | String _ s' => contains sub s'
   end)%bool.

(** [str.isspace] on an ASCII character: tab to carriage return, the four
    separators [\x1c] to [\x1f], and the space. *)
Definition is_space (c : ascii) : bool :=
  let n := nat_of_ascii c in
  ((Nat.leb 9 n && Nat.leb n 13) || (Nat.leb 28 n && Nat.leb n 32))%bool.

Fixpoint lstrip (l : list ascii) : list ascii :=
  match l with
  | (c :: l')%list => if is_space c then lstrip l' else l
  | nil => nil
  end.

(** [s.strip()] on an ASCII string *)
Definition strip (s : string) : string :=
  string_of_list_ascii (rev (lstrip (rev (lstrip (list_ascii_of_string s))))).

End PyStr.

(** ** Python and numpy floats *)

Module PyFloat.

Local Open Scope Z_scope.

(** Round-half-even of the rational [k * m * 2^e] to an integer, for
    [k, m >= 0]. This is the exact rounding Python's [dtoa]-based
    formatting and [round] perform on the binary value. *)
Definition round_half_even_scaled (k m e : Z) : Z :=
  let n := k * m in
  if 0 <=? e then n * 2 ^ e
  else
    let d := 2 ^ (- e) in
    let q := n / d in
    let r := n mod d in
    match 2 * r ?= d with
    | Lt => q
    | Gt => q + 1
    | Eq => if Z.even q then q else q + 1
    end.

(** What Python does with a float it cannot turn into digits. *)
Inductive magnitude : Type :=
| MagNan
| MagInf (neg : bool)
| MagFinite (neg : bool) (m e : Z).   (* (-1)^neg * m * 2^e *)

Definition magnitude_of (x : float) : magnitude :=
  match Prim2SF x with
  | S754_nan => MagNan
  | S754_infinity s => MagInf s
  | S754_zero s => MagFinite s 0 0
  | S754_finite s m e => MagFinite s (Zpos m) e
  end.

Definition digits_of_Z (n : Z) : string := NilZero.string_of_int (Z.to_int n).

Definition digit_char (d : Z) : ascii := ascii_of_nat (48 + Z.to_nat d)%nat.

(** [format(x, '.2f')] *)
Definition format_2f (x : float) : string :=
  match magnitude_of x with
  | MagNan => "nan"
  | MagInf s => if s then "-inf" else "inf"
  | MagFinite s m e =>
      let n := round_half_even_scaled 100 m e in
      let body :=
        digits_of_Z (n / 100) ++ "."
        ++ String (digit_char ((n / 10) mod 10))
             (String (digit_char (n mod 10)) EmptyString) in
      if s then "-" ++ body else body
  end.

(** [int(round(x, 0))]: [round] with [ndigits = 0] keeps a float (ties to
    even, nan and the infinities unchanged); [int] then raises
    [ValueError] on nan and [OverflowError] on an infinity. *)
Inductive int_of_round : Type :=
| IntValue (n : Z)
| IntNan
| IntInf.

Definition int_round0 (x : float) : int_of_round :=
  match magnitude_of x with
  | MagNan => IntNan
  | MagInf _ => IntInf
  | MagFinite s m e =>
      let n := round_half_even_scaled 1 m e in
      IntValue (if s then - n else n)
  end.

(** [str(n)] for a Python [int] *)
Definition str_of_int (n : Z) : string := digits_of_Z n.

(** [numpy.rint]: nearest integer, ties to even, as a float; the sign of
    the argument is kept. Floats of magnitude [2^52] or more are
    integers already. *)
Definition two52 : float := 4503599627370496%float.

Definition rint (x : float) : float :=
  match magnitude_of x with
  | MagNan | MagInf _ => x
  | MagFinite s m e =>
      if PrimFloat.leb two52 (PrimFloat.abs x) then x
      else
        let n := round_half_even_scaled 1 m e in
        let r := PrimFloat.of_uint63 (Uint63.of_Z n) in
        if s then PrimFloat.opp r else r
  end.

(** [numpy.round(x, 2)]: multiply by 100, [rint], divide by 100. *)
Definition np_round2 (x : float) : float :=
  PrimFloat.div (rint (PrimFloat.mul x 100%float)) 100%float.

(** *** [float(s)] for a string

    A [str] is held as its UTF-8 bytes. As CPython does, a string with a
    character outside ASCII is first rewritten: a Unicode space becomes a
    space, a Unicode decimal digit the ASCII digit of its value, and at
    any other character from [\x7f] on the text ends with a question mark.
    Then underscores may stand between two digits, the whitespace of C
    ([\t] to [\r] and the space) is dropped at both ends, and what is left
    is an optional sign and either [inf], [infinity] or [nan] in any case,
    or a decimal numeral with an optional exponent. The decimal value is
    rounded to the nearest binary64. [None] stands for
    [ValueError: could not convert string to float]. *)

Definition is_continuation (b : Z) : bool := ((128 <=? b) && (b <=? 191))%bool.

(** The code points of a UTF-8 text (shortest form, no surrogates). *)
Fixpoint code_points (l : list Z) : option (list Z) :=
  match l with
  | [] => Some []
  | b0 :: l1 =>
      if b0 <? 128 then option_map (cons b0) (code_points l1)
      else if ((194 <=? b0) && (b0 <=? 223))%bool then
        match l1 with
        | b1 :: l2 =>
            if is_continuation b1
            then option_map (cons ((b0 - 192) * 64 + (b1 - 128)))
                   (code_points l2)
            else None
        | _ => None
        end
      else if ((224 <=? b0) && (b0 <=? 239))%bool then
        match l1 with
        | b1 :: b2 :: l3 =>
            let c := (b0 - 224) * 4096 + (b1 - 128) * 64 + (b2 - 128) in
            if (is_continuation b1 && is_continuation b2 && (2048 <=? c)
                && negb ((55296 <=? c) && (c <=? 57343)))%bool
            then option_map (cons c) (code_points l3)
            else None
        | _ => None
        end
      else if ((240 <=? b0) && (b0 <=? 244))%bool then
        match l1 with
        | b1 :: b2 :: b3 :: l4 =>
            let c := (b0 - 240) * 262144 + (b1 - 128) * 4096
                     + (b2 - 128) * 64 + (b3 - 128) in
            if (is_continuation b1 && is_continuation b2 && is_continuation b3
                && (65536 <=? c) && (c <=? 1114111))%bool
            then option_map (cons c) (code_points l4)
            else None
        | _ => None
        end
      else None
  end.

(** [str.isspace] outside ASCII *)
Definition unicode_space (c : Z) : bool :=
  ((c =? 133) || (c =? 160) || (c =? 5760)
   || ((8192 <=? c) && (c <=? 8202))
   || (c =? 8232) || (c =? 8233) || (c =? 8239) || (c =? 8287)
   || (c =? 12288))%bool.

(** The digit zero of every decimal number system outside ASCII (Unicode
    14, the version of CPython 3.11); the nine other digits follow it. *)
Definition decimal_zeros : list Z :=
  [1632; 1776; 1984; 2406; 2534; 2662; 2790; 2918; 3046; 3174; 3302; 3430;
   3558; 3664; 3792; 3872; 4160; 4240; 6112; 6160; 6470; 6608; 6784; 6800;
   6992; 7088; 7232; 7248; 42528; 43216; 43264; 43472; 43504; 43600; 44016;
   65296; 66720; 68912; 69734; 69872; 69942; 70096; 70384; 70736; 70864;
   71248; 71360; 71472; 71904; 72016; 72784; 73040; 73120; 92768; 92864;
   93008; 120782; 120792; 120802; 120812; 120822; 123200; 123632; 125264;
   130032].

Definition unicode_decimal (c : Z) : option Z :=
  match find (fun z => ((z <=? c) && (c <? z + 10))%bool) decimal_zeros with
  | Some z => Some (c - z)
  | None => None
  end.

Definition ascii_of_Z (c : Z) : ascii := ascii_of_nat (Z.to_nat c).

Fixpoint transform (cs : list Z) : list ascii :=
  match cs with
  | [] => []
  | c :: cs' =>
      if c <? 127 then ascii_of_Z c :: transform cs'
      else if unicode_space c then " "%char :: transform cs'
      else match unicode_decimal c with
           | Some d => ascii_of_Z (48 + d) :: transform cs'
           | None => ["?"%char]
           end
  end.

Definition to_ascii (s : string) : list ascii :=
  let bytes := list_ascii_of_string s in
  if forallb (fun b => Nat.ltb (nat_of_ascii b) 128) bytes then bytes
  else
    match code_points (map (fun b => Z.of_nat (nat_of_ascii b)) bytes) with
    | Some cs => transform cs
    | None => ["?"%char]
    end.

(** C's [isspace] *)
Definition is_space (c : ascii) : bool :=
  let n := nat_of_ascii c in
  ((Nat.leb 9 n && Nat.leb n 13) || Nat.eqb n 32)%bool.

Definition is_digit (c : ascii) : bool :=
  let n := nat_of_ascii c in (Nat.leb 48 n && Nat.leb n 57)%bool.

Definition digit_value (c : ascii) : Z := Z.of_nat (nat_of_ascii c - 48)%nat.

Fixpoint lstrip (l : list ascii) : list ascii :=
  match l with
  | c :: l' => if is_space c then lstrip l' else l
  | [] => []
  end.

Definition strip (l : list ascii) : list ascii :=
  rev (lstrip (rev (lstrip l))).

(** Underscores go away when each has a digit on both sides. *)
Fixpoint drop_underscores (prev_digit : bool) (l : list ascii)
  : option (list ascii) :=
  match l with
  | [] => Some []
  | c :: l' =>
      if Ascii.eqb c "_" then
        match l' with
        | d :: _ =>
            if (prev_digit && is_digit d)%bool
            then drop_underscores false l' else None
        | [] => None
        end
      else option_map (cons c) (drop_underscores (is_digit c) l')
  end.

Fixpoint span_digits (l : list ascii) : list ascii * list ascii :=
  match l with
  | c :: l' =>
      if is_digit c
      then let '(ds, rest) := span_digits l' in (c :: ds, rest)
      else ([], l)
  | [] => ([], [])
  end.

Definition Z_of_digits (ds : list ascii) : Z :=
  fold_left (fun acc c => 10 * acc + digit_value c) ds 0.

Definition read_sign (l : list ascii) : bool * list ascii :=
  match l with
  | c :: l' =>
      if Ascii.eqb c "-" then (true, l')
      else if Ascii.eqb c "+" then (false, l')
      else (false, l)
  | [] => (false, [])
  end.

(** [(-1)^neg * m * 10^e10], correctly rounded. *)
Definition float_of_decimal (neg : bool) (m e10 : Z) : float :=
  SF2Prim
    match m with
    | Zpos p =>
        if 0 <=? e10
        then binary_round prec emax neg (Z.to_pos (Zpos p * 10 ^ e10)) 0
        else SFdiv prec emax (S754_finite neg p 0)
               (S754_finite false (Z.to_pos (10 ^ (- e10))) 0)
    | _ => S754_zero neg
    end.

(** The exponent part: empty, or [e]/[E], a sign, one digit or more. *)
Definition read_exponent (l : list ascii) : option Z :=
  match l with
  | [] => Some 0
  | c :: l' =>
      if (Ascii.eqb c "e" || Ascii.eqb c "E")%bool then
        let '(neg, l'') := read_sign l' in
        match span_digits l'' with
        | ((_ :: _) as ds, []) =>
            Some (if neg then - Z_of_digits ds else Z_of_digits ds)
        | _ => None
        end
      else None
  end.

Definition read_decimal (neg : bool) (l : list ascii) : option float :=
  let '(ip, rest) := span_digits l in
  let '(fp, rest') :=
    match rest with
    | c :: r => if Ascii.eqb c "." then span_digits r else ([], rest)
    | [] => ([], [])
    end in
  match (ip ++ fp)%list with
  | [] => None
  | ds =>
      match read_exponent rest' with
      | Some ex =>
          Some (float_of_decimal neg (Z_of_digits ds)
                  (ex - Z.of_nat (List.length fp)))
      | None => None
      end
  end.

Definition float_of_string (s : string) : option float :=
  match drop_underscores false (to_ascii s) with
  | None => None
  | Some l =>
      let '(neg, body) := read_sign (strip l) in
      let word := PyStr.lower (string_of_list_ascii body) in
      if (String.eqb word "inf" || String.eqb word "infinity")%bool
      then Some (if neg then neg_infinity else infinity)
      else if String.eqb word "nan" then Some nan
      else read_decimal neg body
  end.

End PyFloat.

(** ** Exceptions *)

(** What [pd.read_csv] raises on a path that exists but holds no table. *)
Inductive read_error : Type :=
| EmptyDataError
| ParserError
| UnicodeDecodeError
| IsADirectoryError
| PermissionError.

Inductive exn : Type :=
| KeyError
| AttributeError
| ValueError
| TypeError
| OverflowError
| FileNotFoundError
| ReadError (kind : read_error).

Inductive result (A : Type) : Type :=
| Ok (a : A)
| Raise (e : exn).

Arguments Ok {A} a.
Arguments Raise {A} e.

Definition bind {A B : Type} (m : result A) (k : A -> result B) : result B :=
  match m with
  | Ok a => k a
  | Raise e => Raise e
  end.

Notation "x <- m ;; k" := (bind m (fun x => k))
  (at level 61, m at next level, right associativity).

Fixpoint mapM {A B : Type} (f : A -> result B) (l : list A) : result (list B) :=
  match l with
  | [] => Ok []
  | a :: l' => b <- f a ;; bs <- mapM f l' ;; Ok (b :: bs)
  end.

(** ** The pandas operations the program uses *)

Module Frame.

Local Open Scope list_scope.

(** The tables are those [read_csv] builds: column names are unique, a
    column is [float64] (numbers and nan) or [object] (strings and nan).
    Integer columns are taken as floats, which agrees with pandas as long
    as the integers are below [2^53]; boolean columns are left out.

    A cell is [None], a [str] or a float; the missing value of
    [read_csv] is the float nan. *)
Inductive cell : Type :=
| CNone
| CStr (s : string)
| CNum (x : float).

Definition NaN : cell := CNum nan.

(** [pd.notnull] *)
Definition notnull (c : cell) : bool :=
  match c with
  | CNone => false
  | CStr _ => true
  | CNum x => negb (is_nan x)
  end.

Definition is_str (c : cell) : bool :=
  match c with CStr _ => true | _ => false end.

(** [read_csv] gives a column the dtype [int64] when every field is an
    integer, [float64] when every field is a number or missing, and
    [object] (strings and nan) otherwise. The integers of an [int64]
    column are held as the floats of the same value (exact up to 2^53). *)
Inductive dtype : Type := object | float64 | int64.

Definition row : Type := list cell.

Record DataFrame : Type := mkFrame {
  columns : list (string * dtype);
  rows : list row
}.

Record Series : Type := mkSeries {
  s_dtype : dtype;
  values : list cell
}.

Definition cell_at (i : nat) (r : row) : cell := nth i r NaN.

Fixpoint find_column (name : string) (cols : list (string * dtype))
  : option (nat * dtype) :=
  match cols with
  | [] => None
  | (n, d) :: cols' =>
      if String.eqb n name then Some (O, d)
      else match find_column name cols' with
           | Some (i, d') => Some (S i, d')
           | None => None
           end
  end.

Definition lookup_column (name : string) (cols : list (string * dtype))
  : result (nat * dtype) :=
  match find_column name cols with
  | Some p => Ok p
  | None => Raise KeyError
  end.

(** [df[name]] *)
Definition getitem (df : DataFrame) (name : string) : result Series :=
  p <- lookup_column name (columns df) ;;
  Ok (mkSeries (snd p) (map (cell_at (fst p)) (rows df))).

(** [series.str]: refused unless the values are inferred as strings
    (nulls apart). *)
Definition str_accessor (s : Series) : result unit :=
  match s_dtype s with
  | float64 | int64 => Raise AttributeError
  | object =>
      match filter notnull (values s) with
      | [] => Ok tt
      | present =>
          if existsb is_str present then Ok tt else Raise AttributeError
      end
  end.

(** A [.str] method on one value: anything but a string gives nan. *)
Definition str_cell (f : string -> string) (c : cell) : cell :=
  match c with CStr x => CStr (f x) | _ => NaN end.

Definition str_map (f : string -> string) (s : Series) : result Series :=
  _ <- str_accessor s ;;
  Ok (mkSeries object (map (str_cell f) (values s))).

(** [series.str.lower()], [series.str.upper()] *)
Definition str_lower : Series -> result Series := str_map PyStr.lower.
Definition str_upper : Series -> result Series := str_map PyStr.upper.

(** [series == x] for a string [x] *)
Definition eq_str (s : Series) (x : string) : list bool :=
  map (fun c => match c with CStr y => String.eqb y x | _ => false end)
      (values s).

(** [df[mask]] *)
Fixpoint mask_rows (mask : list bool) (rs : list row) : list row :=
  match mask, rs with
  | b :: mask', r :: rs' =>
      if b then r :: mask_rows mask' rs' else mask_rows mask' rs'
  | _, _ => []
  end.

Definition getitem_mask (df : DataFrame) (mask : list bool) : DataFrame :=
  mkFrame (columns df) (mask_rows mask (rows df)).

(** [df[[n1, ..., nk]]] *)
Definition select (df : DataFrame) (names : list string) : result DataFrame :=
  ps <- mapM (fun n => lookup_column n (columns df)) names ;;
  Ok (mkFrame (combine names (map snd ps))
        (map (fun r => map (fun p => cell_at (fst p) r) ps) (rows df))).

Fixpoint set_nth (i : nat) (v : cell) (r : row) : row :=
  match i, r with
  | O, _ :: r' => v :: r'
  | S i', c :: r' => c :: set_nth i' v r'
  | _, [] => []
  end.

Fixpoint set_dtype (i : nat) (d : dtype) (cols : list (string * dtype))
  : list (string * dtype) :=
  match i, cols with
  | O, (n, _) :: cols' => (n, d) :: cols'
  | S i', c :: cols' => c :: set_dtype i' d cols'
  | _, [] => []
  end.

Fixpoint zip_with {A B C : Type} (f : A -> B -> C) (la : list A) (lb : list B)
  : list C :=
  match la, lb with
  | a :: la', b :: lb' => f a b :: zip_with f la' lb'
  | _, _ => []
  end.

(** [df[name] = series]: the column is replaced, or added at the end. *)
Definition setitem (df : DataFrame) (name : string) (s : Series) : DataFrame :=
  match find_column name (columns df) with
  | Some (i, _) =>
      mkFrame (set_dtype i (s_dtype s) (columns df))
              (zip_with (fun r v => set_nth i v r) (rows df) (values s))
  | None =>
      mkFrame (columns df ++ [(name, s_dtype s)])
              (zip_with (fun r v => r ++ [v]) (rows df) (values s))
  end.

(** [df.rename(columns = mapping)] *)
Fixpoint renamed (mapping : list (string * string)) (n : string) : string :=
  match mapping with
  | [] => n
  | (old, new) :: mapping' =>
      if String.eqb old n then new else renamed mapping' n
  end.

Definition rename (df : DataFrame) (mapping : list (string * string))
  : DataFrame :=
  mkFrame (map (fun c => (renamed mapping (fst c), snd c)) (columns df))
          (rows df).

(** [series.astype(float)] *)
Definition float_of_cell (c : cell) : result float :=
  match c with
  | CNum x => Ok x
  | CNone => Ok nan
  | CStr s =>
      match PyFloat.float_of_string s with
      | Some x => Ok x
      | None => Raise ValueError
      end
  end.

Definition astype_float (s : Series) : result (list float) :=
  mapM float_of_cell (values s).

Definition float_series (xs : list float) : Series :=
  mkSeries float64 (map CNum xs).

(** [df.apply(f, axis=1)]: [f] reads the row by column name and returns
    a value. On a frame without rows pandas calls [f] once, on a row of
    nan, to see what it returns: when [f] returns its value the result is
    an empty [float64] Series, and when [f] fails the result is a copy of
    the frame. *)
Definition row_getitem (cols : list (string * dtype)) (r : row)
           (name : string) : result cell :=
  p <- lookup_column name cols ;; Ok (cell_at (fst p) r).

Inductive applied : Type :=
| AsSeries (s : Series)
| AsFrame (df : DataFrame).

Definition apply_rows (f : (string -> result cell) -> result cell)
           (df : DataFrame) : result applied :=
  match rows df with
  | [] =>
      match f (row_getitem (columns df)
                 (repeat NaN (List.length (columns df)))) with
      | Ok _ => Ok (AsSeries (mkSeries float64 []))
      | Raise _ => Ok (AsFrame df)
      end
  | _ =>
      vs <- mapM (fun r => f (row_getitem (columns df) r)) (rows df) ;;
      Ok (AsSeries (mkSeries object vs))
  end.

(** [df[name] = value] for what [apply] returned: a frame is assigned
    through its only column, and refused with [ValueError] when it has
    none or several. *)
Definition setitem_applied (df : DataFrame) (name : string) (value : applied)
  : result DataFrame :=
  match value with
  | AsSeries s => Ok (setitem df name s)
  | AsFrame v =>
      match columns v with
      | [(_, d)] => Ok (setitem df name (mkSeries d (map (cell_at 0) (rows v))))
      | _ => Raise ValueError
      end
  end.

(** *** [pd.merge(left, right, on=[key], how='outer', suffixes=(sl, sr))] *)

(** Join keys: nulls match nulls. *)
Definition key_eqb (a b : cell) : bool :=
  if notnull a then
    match a, b with
    | CStr x, CStr y => String.eqb x y
    | CNum x, CNum y => PrimFloat.eqb x y
    | _, _ => false
    end
  else negb (notnull b).

(** The outer join sorts the keys, as documented for [how='outer']:
    numbers, then strings by code point, then the null key. The rows of
    one key keep the order of the left rows, then of the right rows. The
    properties below are stated on membership and on permutations, so
    they hold for any order of the keys. *)
Definition key_rank (a : cell) : nat :=
  if notnull a then match a with CNum _ => 0 | _ => 1 end else 2.

Definition key_leb (a b : cell) : bool :=
  match Nat.compare (key_rank a) (key_rank b) with
  | Lt => true
  | Gt => false
  | Eq =>
      match a, b with
      | CStr x, CStr y => String.leb x y
      | CNum x, CNum y => if notnull a then PrimFloat.leb x y else true
      | _, _ => true
      end
  end.

Fixpoint insert_key (k : cell) (l : list cell) : list cell :=
  match l with
  | [] => [k]
  | x :: l' => if key_leb k x then k :: l else x :: insert_key k l'
  end.

Fixpoint sort_keys (l : list cell) : list cell :=
  match l with
  | [] => []
  | k :: l' => insert_key k (sort_keys l')
  end.

Fixpoint distinct_keys (l : list cell) : list cell :=
  match l with
  | [] => []
  | k :: l' => k :: filter (fun x => negb (key_eqb k x)) (distinct_keys l')
  end.

Definition drop_nth (i : nat) (r : row) : row := firstn i r ++ skipn (S i) r.

(** The rows of one key: the pairs of a left and a right row with that
    key; a row without partner is completed with nan. *)
Definition merge_group (ki kj wl wr : nat) (L R : list row) (k : cell)
  : list row :=
  let ls := filter (fun l => key_eqb (cell_at ki l) k) L in
  let rs := filter (fun r => key_eqb (cell_at kj r) k) R in
  match ls, rs with
  | [], _ =>
      map (fun r => set_nth ki (cell_at kj r) (repeat NaN wl) ++ drop_nth kj r) rs
  | _, [] => map (fun l => l ++ repeat NaN (wr - 1)) ls
  | _, _ => flat_map (fun l => map (fun r => l ++ drop_nth kj r) rs) ls
  end.

Definition merge_rows (ki kj wl wr : nat) (L R : list row) : list row :=
  flat_map (merge_group ki kj wl wr L R)
    (sort_keys (distinct_keys (map (cell_at ki) L ++ map (cell_at kj) R))).

Definition has_column (n : string) (cols : list (string * dtype)) : bool :=
  existsb (fun c => String.eqb (fst c) n) cols.

(** A side has missing rows when a key of the other side is not among
    its keys: its columns are then filled with nan, and an [int64] column
    becomes [float64]. *)
Definition unmatched (ks others : list cell) : bool :=
  existsb (fun k => negb (existsb (fun k' => key_eqb k' k) others)) ks.

Definition promote (missing : bool) (d : dtype) : dtype :=
  match d with
  | int64 => if missing then float64 else int64
  | _ => d
  end.

Definition common_dtype (a b : dtype) : dtype :=
  match a, b with
  | object, _ | _, object => object
  | float64, _ | _, float64 => float64
  | int64, int64 => int64
  end.

Definition is_nil {A : Type} (l : list A) : bool :=
  match l with [] => true | _ => false end.

(** The dtype of the key column: the left one while every row has a left
    part, the right one when no row has, the common one otherwise. *)
Definition key_dtype (dl dr : dtype) (lk rk : list cell) : dtype :=
  if unmatched rk lk then
    if is_nil lk then dr
    else common_dtype (promote true dl) (promote (unmatched lk rk) dr)
  else dl.

(** Column names: a name other than the key that both sides have gets
    the side's suffix. *)
Definition merged_columns (lc rc : list (string * dtype)) (key sl sr : string)
           (dk : dtype) (left_missing right_missing : bool)
  : list (string * dtype) :=
  map (fun c =>
         if String.eqb (fst c) key then (fst c, dk)
         else if has_column (fst c) rc
              then ((fst c ++ sl)%string, promote left_missing (snd c))
              else (fst c, promote left_missing (snd c))) lc
  ++ map (fun c =>
            if has_column (fst c) lc
            then ((fst c ++ sr)%string, promote right_missing (snd c))
            else (fst c, promote right_missing (snd c)))
       (filter (fun c => negb (String.eqb (fst c) key)) rc).

(** pandas refuses to join a text key with a numeric one ([ValueError:
    You are trying to merge on object and float64 columns]); it does not
    look when exactly one side has no rows, and it lets an [object] key
    without rows meet an [int64] key without rows. *)
Definition string_like (ks : list cell) : bool :=
  match ks with [] => true | _ => existsb is_str ks end.

Definition merge_keys_ok (dl dr : dtype) (lk rk : list cell) : bool :=
  if xorb (is_nil lk) (is_nil rk) then true
  else
    match dl, dr with
    | object, float64 => negb (string_like lk)
    | float64, object => negb (string_like rk)
    | object, int64 => (is_nil lk || negb (string_like lk))%bool
    | int64, object => (is_nil rk || negb (string_like rk))%bool
    | _, _ => true
    end.

Definition merge (left right : DataFrame) (key sl sr : string)
  : result DataFrame :=
  pl <- lookup_column key (columns left) ;;
  pr <- lookup_column key (columns right) ;;
  let lk := map (cell_at (fst pl)) (rows left) in
  let rk := map (cell_at (fst pr)) (rows right) in
  if merge_keys_ok (snd pl) (snd pr) lk rk then
    Ok (mkFrame (merged_columns (columns left) (columns right) key sl sr
                   (key_dtype (snd pl) (snd pr) lk rk)
                   (unmatched rk lk) (unmatched lk rk))
          (merge_rows (fst pl) (fst pr)
             (List.length (columns left)) (List.length (columns right))
             (rows left) (rows right)))
  else Raise ValueError.

End Frame.

(** ** report_comparator.py *)

Module ReportComparator.

Import Frame.
Local Open Scope list_scope.

(** The lambda of [compare_reports] once both values are known to be
    non-null:
    [f"{match*100:.2f} ({int(round(match*100 - metric_value, 0))})"].
    A [str] cannot be formatted with [.2f] ([ValueError]) nor subtracted
    from a float ([TypeError]); [int] refuses nan ([ValueError]) and the
    infinities ([OverflowError]). *)
Definition format_comparison (m v : cell) : result string :=
  match m with
  | CNum x =>
      let scaled := PrimFloat.mul x 100%float in
      let shown := PyFloat.format_2f scaled in
      match v with
      | CNum y =>
          match PyFloat.int_round0 (PrimFloat.sub scaled y) with
          | PyFloat.IntValue n =>
              Ok (shown ++ " (" ++ PyFloat.str_of_int n ++ ")")%string
          | PyFloat.IntNan => Raise ValueError
          | PyFloat.IntInf => Raise OverflowError
          end
      | _ => Raise TypeError
      end
  | CStr _ => Raise ValueError
  | CNone => Raise TypeError
  end.

Definition comparison_lambda (x : string -> result cell) : result cell :=
  m <- x "match" ;;
  if notnull m then
    v <- x "metric_value" ;;
    if notnull v then s <- format_comparison m v ;; Ok (CStr s)
    else Ok CNone
  else Ok CNone.

Definition existing_columns : list string :=
  ["run_id"; "metric"; "country"; "provider"; "product"; "sampling_run_id";
   "metric_value"; "metric_value_lower"; "metric_value_upper"].

Definition metric_columns : list string :=
  ["provider_release_version"; "metric"; "sample_size"; "match"; "lower";
   "upper"; "matching_run_id"; "provider_id"; "country"; "sampling_run_id"].

Definition interesting_columns : list string :=
  ["metric_existing"; "country"; "provider"; "product"; "sample_size";
   "metric_value"; "match"; "matching_run_id"; "comparison_metric_value"].

(** Lines 71-82 and 88-100, the same steps on either table: the rows whose
    metric label is the filter, whatever the case, then the wanted
    columns. *)
Definition filter_project (table : DataFrame) (filter : string)
           (wanted : list string) : result DataFrame :=
  labels <- getitem table "metric" ;;
  lowered <- str_lower labels ;;
  let filtered := getitem_mask table (eq_str lowered (PyStr.lower filter)) in
  select filtered wanted.

(** Lines 71-84: the baseline side, with the country in upper case and the
    metric label in lower case. *)
Definition process_existing (existing_sample : DataFrame) (filter : string)
  : result DataFrame :=
  existing_processed <- filter_project existing_sample filter existing_columns ;;
  country <- getitem existing_processed "country" ;;
  country <- str_upper country ;;
  let existing_processed := setitem existing_processed "country" country in
  label <- getitem existing_processed "metric" ;;
  label <- str_lower label ;;
  Ok (setitem existing_processed "metric" label).

(** Lines 88-100: the side of the new report. *)
Definition process_metric (metric : DataFrame) (filter : string)
  : result DataFrame :=
  filter_project metric filter metric_columns.

(** Lines 102-110: the outer join and the derived column. *)
Definition join_and_derive (existing_processed metric_processed : DataFrame)
  : result DataFrame :=
  comparison <- merge existing_processed metric_processed
                  "country" "_existing" "_metric" ;;
  derived <- apply_rows comparison_lambda comparison ;;
  setitem_applied comparison "comparison_metric_value" derived.

(** Lines 111-117: the output columns, the coercion and rounding, the
    renaming. *)
Definition finish (comparison : DataFrame) : result DataFrame :=
  comparison <- select comparison interesting_columns ;;
  new <- getitem comparison "match" ;;
  new <- astype_float new ;;
  let comparison :=
    setitem comparison "match"
      (float_series
         (map (fun x => PyFloat.np_round2 (PrimFloat.mul x 100%float)) new)) in
  old <- getitem comparison "metric_value" ;;
  old <- astype_float old ;;
  let comparison :=
    setitem comparison "metric_value"
      (float_series (map PyFloat.np_round2 old)) in
  Ok (rename comparison
        [("match", "metric_new"); ("metric_value", "metric_existing")]).

Definition compare_reports (existing_sample metric : DataFrame)
           (filter : string) : result DataFrame :=
  existing_processed <- process_existing existing_sample filter ;;
  metric_processed <- process_metric metric filter ;;
  comparison <- join_and_derive existing_processed metric_processed ;;
  finish comparison.

(** *** Files

    A file system gives, for a path, what is there: nothing, a file with
    the table [read_csv] builds from it, or something [read_csv] fails
    on. The program only reads; every question it asks the file system is
    logged. [Path(s)] is taken as [s]. *)

Inductive fs_event : Type :=
| PathExists (p : string)
| ReadCsv (p : string).

(** What is at a path that exists: a file [read_csv] turns into a table,
    or something it fails on (an empty file, a directory, ...). *)
Inductive file : Type :=
| Table (df : DataFrame)
| Unreadable (kind : read_error).

Definition filesystem : Type := string -> option file.

Definition io (A : Type) : Type := filesystem -> list fs_event * result A.

Definition io_ret {A : Type} (a : A) : io A := fun _ => ([], Ok a).

Definition io_raise {A : Type} (e : exn) : io A := fun _ => ([], Raise e).

Definition io_lift {A : Type} (r : result A) : io A := fun _ => ([], r).

Definition io_bind {A B : Type} (m : io A) (k : A -> io B) : io B :=
  fun fs =>
    match m fs with
    | (t, Ok a) => let '(t', r) := k a fs in (t ++ t', r)
    | (t, Raise e) => (t, Raise e)
    end.

Notation "x <~ m ;; k" := (io_bind m (fun x => k))
  (at level 61, m at next level, right associativity).

Definition path_exists (p : string) : io bool :=
  fun fs => ([PathExists p],
             Ok (match fs p with Some _ => true | None => false end)).

Definition read_csv (p : string) : io DataFrame :=
  fun fs => ([ReadCsv p],
             match fs p with
             | Some (Table df) => Ok df
             | Some (Unreadable kind) => Raise (ReadError kind)
             | None => Raise FileNotFoundError
             end).

Definition load_report (file_path : string) : io DataFrame :=
  present <~ path_exists file_path ;;
  if present then read_csv file_path else io_raise FileNotFoundError.

(** The configuration: [config['metrics'][name]['path']]. *)
Definition config : Type := list (string * string).

Fixpoint metrics_path (cfg : config) (name : string) : result string :=
  match cfg with
  | [] => Raise KeyError
  | (n, p) :: cfg' => if String.eqb n name then Ok p else metrics_path cfg' name
  end.

(** [comparisons[key] = value] on a [dict] that keeps insertion order *)
Fixpoint dict_set (d : list (string * DataFrame)) (k : string) (v : DataFrame)
  : list (string * DataFrame) :=
  match d with
  | [] => [(k, v)]
  | (k', v') :: d' =>
      if String.eqb k' k then (k, v) :: d' else (k', v') :: dict_set d' k v
  end.

Definition one_comparison (cfg : config) (existing_sample : DataFrame)
           (source key filter : string)
           (comparisons : list (string * DataFrame))
  : io (list (string * DataFrame)) :=
  metric_path <~ io_lift (metrics_path cfg source) ;;
  report <~ load_report metric_path ;;
  comparison <~ io_lift (compare_reports existing_sample report filter) ;;
  io_ret (dict_set comparisons key comparison).

Definition compare_all_reports (cfg : config) (metric_type : string)
  : io (list (string * DataFrame)) :=
  configured <~ io_lift (metrics_path cfg "existing_sample") ;;
  let existing_sample_path := PyStr.replace "../" "" configured in
  present <~ path_exists existing_sample_path ;;
  if negb present then io_raise FileNotFoundError
  else
    existing_sample <~ load_report existing_sample_path ;;
    let comparisons := [] in
    if String.eqb metric_type "all" then
      asf_path <~ io_lift (metrics_path cfg "asf_apa_new") ;;
      asf_report <~ load_report asf_path ;;
      asf <~ io_lift (compare_reports existing_sample asf_report "asf") ;;
      let comparisons := dict_set comparisons "asf" asf in
      apa_report <~ load_report asf_path ;;
      apa <~ io_lift (compare_reports existing_sample apa_report "apa") ;;
      let comparisons := dict_set comparisons "apa" apa in
      comparisons <~ one_comparison cfg existing_sample
                       "psf_new" "psf" "psf" comparisons ;;
      one_comparison cfg existing_sample "ssf_new" "ssf" "ssf" comparisons
    else if (String.eqb metric_type "asf" || String.eqb metric_type "apa")%bool
    then one_comparison cfg existing_sample
           "asf_apa_new" metric_type metric_type comparisons
    else if String.eqb metric_type "psf" then
      one_comparison cfg existing_sample "psf_new" metric_type "psf" comparisons
    else if String.eqb metric_type "ssf" then
      one_comparison cfg existing_sample "ssf_new" metric_type "ssf" comparisons
    else io_raise ValueError.

(** [validate_required_files] (the messages it prints are left out). *)
Definition metric_file_exists (cfg : config) (name : string) : io bool :=
  metric_path <~ io_lift (metrics_path cfg name) ;;
  path_exists metric_path.

Fixpoint all_metric_files_exist (cfg : config) (names : list string) : io bool :=
  match names with
  | [] => io_ret true
  | name :: names' =>
      present <~ metric_file_exists cfg name ;;
      if present then all_metric_files_exist cfg names' else io_ret false
  end.

Definition validate_required_files (metric_choice : string) (cfg : config)
  : io bool :=
  configured <~ io_lift (metrics_path cfg "existing_sample") ;;
  let existing_sample_path := PyStr.replace "../" "" configured in
  present <~ path_exists existing_sample_path ;;
  if negb present then io_ret false
  else if (String.eqb metric_choice "asf" || String.eqb metric_choice "apa")%bool
  then metric_file_exists cfg "asf_apa_new"
  else if String.eqb metric_choice "psf" then metric_file_exists cfg "psf_new"
  else if String.eqb metric_choice "ssf" then metric_file_exists cfg "ssf_new"
  else if String.eqb metric_choice "all" then
    all_metric_files_exist cfg ["asf_apa_new"; "psf_new"; "ssf_new"]
  else io_ret true.

End ReportComparator.

(** ** The menu *)

Module Menu.

Local Open Scope list_scope.

(** [valid_choices] of [get_user_choice] *)
Definition valid_choices : list (string * string) :=
  [("1", "asf"); ("2", "apa"); ("3", "psf"); ("4", "ssf"); ("5", "all")].

(** [d.get(k)] on a [dict] of strings *)
Fixpoint dict_get (d : list (string * string)) (k : string) : option string :=
  match d with
  | [] => None
  | (k', v) :: d' => if String.eqb k' k then Some v else dict_get d' k
  end.

(** [s.strip()] (ASCII whitespace) *)
Definition strip (s : string) : string := PyStr.strip s.

(** [get_user_choice]: [stdin] holds the lines [input()] will return, one
    per call; without a line left [input()] raises [EOFError], given here
    as [None]. The result is the number of times the message
    [Invalid choice. Please enter a number between 1 and 5.] was printed,
    the choice, and the lines not read. *)
Fixpoint get_user_choice (stdin : list string)
  : nat * option string * list string :=
  match stdin with
  | [] => (O, None, [])
  | line :: rest =>
      match dict_get valid_choices (strip line) with
      | Some metric_type => (O, Some metric_type, rest)
      | None =>
          let '(printed, choice, unread) := get_user_choice rest in
          (S printed, choice, unread)
      end
  end.

End Menu.

(** * Properties *)

Import Frame ReportComparator.
Local Open Scope list_scope.

(** ** Sample tables *)

Module Samples.

Definition baseline_schema : list (string * dtype) :=
  [("run_id", object); ("metric", object); ("country", object);
   ("provider", object); ("product", object); ("sampling_run_id", object);
   ("metric_value", float64); ("metric_value_lower", float64);
   ("metric_value_upper", float64)].

Definition metric_schema : list (string * dtype) :=
  [("provider_release_version", object); ("metric", object);
   ("sample_size", float64); ("match", float64); ("lower", float64);
   ("upper", float64); ("matching_run_id", object); ("provider_id", object);
   ("country", object); ("sampling_run_id", object)].

Definition baseline_row (label country : string) (value : cell) : row :=
  [CStr "run-7"; CStr label; CStr country; CStr "acme"; CStr "geocoder";
   CStr "s-1"; value; CNum 90%float; CNum 92%float].

Definition metric_row (label country : string) (matched : cell) : row :=
  [CStr "2024.06"; CStr label; CNum 1000%float; matched; CNum 0.92%float;
   CNum 0.95%float; CStr "m-3"; CStr "p-9"; CStr country; CStr "s-2"].

Definition baseline : DataFrame :=
  mkFrame baseline_schema
    [baseline_row "ASF" "us" (CNum 91.23%float);
     baseline_row "asf" "de" (CNum 80.5%float);
     baseline_row "APA" "fr" (CNum 70%float)].

Definition report : DataFrame :=
  mkFrame metric_schema
    [metric_row "asf" "US" (CNum 0.9350%float);
     metric_row "ASF" "AT" (CNum 0.5%float);
     metric_row "apa" "FR" (CNum 0.71%float)].

(** A baseline whose [metric_value] column holds text: [read_csv] then
    keeps every field of the column as a string. *)
Definition text_baseline : DataFrame :=
  mkFrame
    [("run_id", object); ("metric", object); ("country", object);
     ("provider", object); ("product", object); ("sampling_run_id", object);
     ("metric_value", object); ("metric_value_lower", float64);
     ("metric_value_upper", float64)]
    [baseline_row "asf" "de" (CStr "unknown");
     baseline_row "asf" "fr" (CStr "88.1")].

Definition empty_report : DataFrame := mkFrame metric_schema [].

Definition cfg : config :=
  [("existing_sample", "../data/existing_sample.csv");
   ("asf_apa_new", "../data/asf_apa.csv");
   ("psf_new", "data/psf.csv");
   ("ssf_new", "data/ssf.csv")].

(** The working directory holds [data/existing_sample.csv], [data/psf.csv]
    and [data/ssf.csv]; its parent holds [data/asf_apa.csv]. *)
Definition fs : filesystem :=
  fun p =>
    if String.eqb p "data/existing_sample.csv" then Some (Table baseline)
    else if String.eqb p "../data/asf_apa.csv" then Some (Table report)
    else if String.eqb p "data/psf.csv" then Some (Table empty_report)
    else if String.eqb p "data/ssf.csv" then Some (Table empty_report)
    else None.

End Samples.

(** ** The monads *)

Lemma bind_ok {A B : Type} (m : result A) (k : A -> result B) (b : B) :
  bind m k = Ok b <-> exists a, m = Ok a /\ k a = Ok b.
Proof.
  destruct m as [a|e]; simpl; split.
  - intros H. now exists a.
  - now intros [a' [[= ->] H]].
  - discriminate.
  - now intros [a' [[=] _]].
Qed.

Lemma bind_raise {A B : Type} (m : result A) (k : A -> result B) (e : exn) :
  bind m k = Raise e <-> m = Raise e \/ exists a, m = Ok a /\ k a = Raise e.
Proof.
  destruct m as [a|e0]; cbn; split.
  - intros H. right. now exists a.
  - intros [H | (a' & [= <-] & H)]; [discriminate | exact H].
  - intros [= <-]. now left.
  - intros [[= <-] | (a' & [=] & _)]. reflexivity.
Qed.

Lemma mapM_raise {A B : Type} (f : A -> result B) (l : list A) (e : exn) :
  mapM f l = Raise e -> exists a, In a l /\ f a = Raise e.
Proof.
  induction l as [|a l IH]; cbn [mapM]; [discriminate |].
  intros H. apply bind_raise in H. destruct H as [H | (b & Hb & H)].
  - exists a. split; [now left | exact H].
  - apply bind_raise in H. destruct H as [H | (bs & _ & H)]; [| discriminate H].
    destruct (IH H) as (a' & Ha' & Fa'). exists a'. split; [now right | exact Fa'].
Qed.

Ltac inv_bind H :=
  let a := fresh "a" in
  let Ha := fresh "Ha" in
  apply bind_ok in H; destruct H as [a [Ha H]].

(** ** The filter string only counts up to case (C7) *)

Definition metric_types : list string := ["asf"; "apa"; "psf"; "ssf"; "all"].

(** C7: [compare_reports] gives the same result for the filters ["asf"] and
    ["ASF"], and more generally for any two filters that are equal once in
    lower case: the filter is only used through [filter.lower()]. *)
Theorem compare_reports_filter_case_insensitive
        (existing_sample metric : DataFrame) :
  compare_reports existing_sample metric "asf"
  = compare_reports existing_sample metric "ASF"
  /\ forall f1 f2 : string,
      PyStr.lower f1 = PyStr.lower f2 ->
      compare_reports existing_sample metric f1
      = compare_reports existing_sample metric f2.
Proof.
  assert (G : forall f1 f2 : string,
             PyStr.lower f1 = PyStr.lower f2 ->
             compare_reports existing_sample metric f1
             = compare_reports existing_sample metric f2).
  { intros f1 f2 E.
    unfold compare_reports, process_existing, process_metric, filter_project.
    now rewrite E. }
  split; [apply G; reflexivity | exact G].
Qed.

Lemma compare_reports_filter_case_insensitive_witness :
  PyStr.lower "Psf" = PyStr.lower "pSF"
  /\ compare_reports Samples.baseline Samples.report "Psf"
     = compare_reports Samples.baseline Samples.report "pSF".
Proof.
  split; [reflexivity |].
  apply (compare_reports_filter_case_insensitive
           Samples.baseline Samples.report); reflexivity.
Defined.

(** ** The orchestrator and the file system (C4, C5, C10) *)

Definition event_path (e : fs_event) : string :=
  match e with PathExists p | ReadCsv p => p end.

Definition is_read_of (p : string) (e : fs_event) : bool :=
  match e with ReadCsv q => String.eqb q p | PathExists _ => false end.

(** How often [read_csv] ran on [p]. *)
Definition loads_of (p : string) (t : list fs_event) : nat :=
  List.length (filter (is_read_of p) t).

Lemma not_metric_type (metric_type : string) :
  ~ In metric_type metric_types ->
  String.eqb metric_type "all" = false
  /\ String.eqb metric_type "asf" = false
  /\ String.eqb metric_type "apa" = false
  /\ String.eqb metric_type "psf" = false
  /\ String.eqb metric_type "ssf" = false.
Proof.
  intros H. repeat split; apply String.eqb_neq; intros ->; apply H;
    simpl; tauto.
Qed.

(** C4, as the code has it: for a [metric_type] outside the five known
    ones, [compare_all_reports] first looks for the baseline file and loads
    it. Without the file it raises [FileNotFoundError]; with it, it raises
    [ValueError] once the file has been checked twice and read, or what
    [read_csv] raised on it. No metric file is touched. *)
Theorem compare_all_reports_unknown_type
        (cfg : config) (metric_type : string) (fs : filesystem)
        (configured : string) :
  ~ In metric_type metric_types ->
  metrics_path cfg "existing_sample" = Ok configured ->
  let p := PyStr.replace "../" "" configured in
  compare_all_reports cfg metric_type fs
  = match fs p with
    | None => ([PathExists p], Raise FileNotFoundError)
    | Some (Table _) =>
        ([PathExists p; PathExists p; ReadCsv p], Raise ValueError)
    | Some (Unreadable kind) =>
        ([PathExists p; PathExists p; ReadCsv p], Raise (ReadError kind))
    end.
Proof.
  intros Hmt Hcfg p.
  destruct (not_metric_type metric_type Hmt) as (E1 & E2 & E3 & E4 & E5).
  unfold compare_all_reports. rewrite Hcfg, E1, E2, E3, E4, E5.
  cbv [io_bind io_lift load_report path_exists read_csv io_raise orb negb].
  subst p. generalize (PyStr.replace "../" "" configured). intros p.
  destruct (fs p) as [[df|kind]|] eqn:Ep; cbn; rewrite ?Ep; reflexivity.
Qed.

Lemma compare_all_reports_unknown_type_witness :
  compare_all_reports Samples.cfg "xyz" Samples.fs
  = ([PathExists "data/existing_sample.csv";
      PathExists "data/existing_sample.csv";
      ReadCsv "data/existing_sample.csv"], Raise ValueError).
Proof.
  apply (compare_all_reports_unknown_type
           Samples.cfg "xyz" Samples.fs "../data/existing_sample.csv").
  - simpl. intros H. repeat (destruct H as [H|H]; [discriminate H|]). exact H.
  - reflexivity.
Defined.

(** C4 as stated fails: with ["xyz"] the file system is asked three times
    before [ValueError] is raised. *)
Lemma unknown_type_touches_filesystem :
  fst (compare_all_reports Samples.cfg "xyz" Samples.fs)
  = [PathExists "data/existing_sample.csv";
     PathExists "data/existing_sample.csv";
     ReadCsv "data/existing_sample.csv"]
  /\ fst (compare_all_reports Samples.cfg "xyz" Samples.fs) <> [].
Proof.
  split; [vm_compute; reflexivity | vm_compute; discriminate].
Qed.

Lemma io_bind_lift_ok {A B : Type} (a : A) (k : A -> io B) (fs : filesystem) :
  io_bind (io_lift (Ok a)) k fs = k a fs.
Proof.
  unfold io_bind, io_lift. destruct (k a fs) as [t r]. reflexivity.
Qed.

Lemma io_bind_ok {A B : Type} (m : io A) (k : A -> io B) (fs : filesystem)
      (t : list fs_event) (a : A) :
  m fs = (t, Ok a) -> io_bind m k fs = (t ++ fst (k a fs), snd (k a fs)).
Proof.
  intros Hm. unfold io_bind. rewrite Hm. now destruct (k a fs).
Qed.

Lemma load_report_present (p : string) (fs : filesystem) (df : DataFrame) :
  fs p = Some (Table df) ->
  load_report p fs = ([PathExists p; ReadCsv p], Ok df).
Proof.
  intros H. unfold load_report, io_bind, path_exists, read_csv.
  rewrite H. cbn. now rewrite H.
Qed.

Lemma load_report_unreadable (p : string) (fs : filesystem)
      (kind : read_error) :
  fs p = Some (Unreadable kind) ->
  load_report p fs = ([PathExists p; ReadCsv p], Raise (ReadError kind)).
Proof.
  intros H. unfold load_report, io_bind, path_exists, read_csv.
  rewrite H. cbn. now rewrite H.
Qed.

Lemma load_report_absent (p : string) (fs : filesystem) :
  fs p = None -> load_report p fs = ([PathExists p], Raise FileNotFoundError).
Proof.
  intros H. unfold load_report, io_bind, path_exists, io_raise.
  now rewrite H.
Qed.

Lemma one_comparison_present
      (cfg : config) (fs : filesystem) (existing_sample report out : DataFrame)
      (source key filter p : string) (comparisons : list (string * DataFrame)) :
  metrics_path cfg source = Ok p ->
  fs p = Some (Table report) ->
  compare_reports existing_sample report filter = Ok out ->
  one_comparison cfg existing_sample source key filter comparisons fs
  = ([PathExists p; ReadCsv p], Ok (dict_set comparisons key out)).
Proof.
  intros Hp Hfs Hc. unfold one_comparison.
  rewrite Hp, io_bind_lift_ok; cbv beta zeta.
  rewrite (io_bind_ok _ _ fs _ _ (load_report_present p fs report Hfs)); cbv beta zeta.
  rewrite Hc, io_bind_lift_ok; cbv beta zeta. reflexivity.
Qed.

(** C5, as the code has it: with ["all"], every file present and the four
    comparisons succeeding, the baseline file is read once, the shared
    ASF/APA file is read twice from the same path (before the asf and
    before the apa comparison), the PSF and SSF files once each, and the
    result holds one comparison per type under the keys asf, apa, psf,
    ssf; asf and apa compare the baseline with the table of the same
    file, under the filters ["asf"] and ["apa"]. *)
Theorem compare_all_reports_all
        (cfg : config) (fs : filesystem) (pe pa pp ps : string)
        (existing_sample asf_apa_report psf_report ssf_report : DataFrame)
        (asf apa psf ssf : DataFrame) :
  metrics_path cfg "existing_sample" = Ok pe ->
  metrics_path cfg "asf_apa_new" = Ok pa ->
  metrics_path cfg "psf_new" = Ok pp ->
  metrics_path cfg "ssf_new" = Ok ps ->
  fs (PyStr.replace "../" "" pe) = Some (Table existing_sample) ->
  fs pa = Some (Table asf_apa_report) ->
  fs pp = Some (Table psf_report) ->
  fs ps = Some (Table ssf_report) ->
  compare_reports existing_sample asf_apa_report "asf" = Ok asf ->
  compare_reports existing_sample asf_apa_report "apa" = Ok apa ->
  compare_reports existing_sample psf_report "psf" = Ok psf ->
  compare_reports existing_sample ssf_report "ssf" = Ok ssf ->
  let q := PyStr.replace "../" "" pe in
  compare_all_reports cfg "all" fs
  = ([PathExists q; PathExists q; ReadCsv q;
      PathExists pa; ReadCsv pa; PathExists pa; ReadCsv pa;
      PathExists pp; ReadCsv pp; PathExists ps; ReadCsv ps],
     Ok [("asf", asf); ("apa", apa); ("psf", psf); ("ssf", ssf)]).
Proof.
  intros He Ha Hp Hs Fe Fa Fp Fs Casf Capa Cpsf Cssf q. subst q.
  unfold compare_all_reports.
  rewrite He, io_bind_lift_ok; cbv beta zeta.
  revert Fe. generalize (PyStr.replace "../" "" pe). intros q Fe.
  assert (Pe : path_exists q fs = ([PathExists q], Ok true)).
  { unfold path_exists. now rewrite Fe. }
  rewrite (io_bind_ok _ _ fs _ _ Pe); cbv beta zeta; cbn [negb].
  rewrite (io_bind_ok _ _ fs _ _ (load_report_present q fs _ Fe)); cbv beta zeta.
  cbn [String.eqb Ascii.eqb Bool.eqb].
  rewrite Ha, io_bind_lift_ok; cbv beta zeta.
  rewrite (io_bind_ok _ _ fs _ _ (load_report_present pa fs _ Fa)); cbv beta zeta.
  rewrite Casf, io_bind_lift_ok; cbv beta zeta.
  rewrite (io_bind_ok _ _ fs _ _ (load_report_present pa fs _ Fa)); cbv beta zeta.
  rewrite Capa, io_bind_lift_ok; cbv beta zeta.
  rewrite (io_bind_ok _ _ fs _ _
             (one_comparison_present cfg fs existing_sample psf_report psf
                "psf_new" "psf" "psf" pp _ Hp Fp Cpsf)); cbv beta zeta.
  rewrite (one_comparison_present cfg fs existing_sample ssf_report ssf
             "ssf_new" "ssf" "ssf" ps _ Hs Fs Cssf).
  reflexivity.
Qed.

Lemma compare_all_reports_all_witness :
  exists asf apa psf ssf : DataFrame,
    compare_all_reports Samples.cfg "all" Samples.fs
    = ([PathExists "data/existing_sample.csv";
        PathExists "data/existing_sample.csv";
        ReadCsv "data/existing_sample.csv";
        PathExists "../data/asf_apa.csv"; ReadCsv "../data/asf_apa.csv";
        PathExists "../data/asf_apa.csv"; ReadCsv "../data/asf_apa.csv";
        PathExists "data/psf.csv"; ReadCsv "data/psf.csv";
        PathExists "data/ssf.csv"; ReadCsv "data/ssf.csv"],
       Ok [("asf", asf); ("apa", apa); ("psf", psf); ("ssf", ssf)]).
Proof.
  eexists _, _, _, _.
  apply (compare_all_reports_all Samples.cfg Samples.fs
           "../data/existing_sample.csv" "../data/asf_apa.csv"
           "data/psf.csv" "data/ssf.csv"
           Samples.baseline Samples.report
           Samples.empty_report Samples.empty_report);
    vm_compute; reflexivity.
Defined.

(** C5 as stated fails: the shared ASF/APA file is read twice, not once. *)
Lemma shared_report_loaded_twice :
  loads_of "../data/asf_apa.csv"
    (fst (compare_all_reports Samples.cfg "all" Samples.fs)) = 2
  /\ loads_of "../data/asf_apa.csv"
       (fst (compare_all_reports Samples.cfg "all" Samples.fs)) <> 1
  /\ (exists d, snd (compare_all_reports Samples.cfg "all" Samples.fs) = Ok d
                /\ map fst d = ["asf"; "apa"; "psf"; "ssf"]).
Proof.
  split; [vm_compute; reflexivity |].
  split; [vm_compute; discriminate |].
  eexists. split; vm_compute; reflexivity.
Qed.

(** *** Which paths are used (C10) *)

Definition metric_sources : list string := ["asf_apa_new"; "psf_new"; "ssf_new"].

(** The event is on the path configured for a metric source, as it is. *)
Definition verbatim (cfg : config) (e : fs_event) : Prop :=
  exists name, In name metric_sources /\ metrics_path cfg name = Ok (event_path e).

Lemma io_bind_trace {A B : Type} (P : fs_event -> Prop)
      (m : io A) (k : A -> io B) (fs : filesystem) :
  Forall P (fst (m fs)) ->
  (forall a, Forall P (fst (k a fs))) ->
  Forall P (fst (io_bind m k fs)).
Proof.
  intros Hm Hk. unfold io_bind.
  destruct (m fs) as [t [a|e]]; simpl in *.
  - specialize (Hk a). destruct (k a fs) as [t' r]. simpl in *.
    apply Forall_app. now split.
  - exact Hm.
Qed.

Lemma load_report_trace (p : string) (fs : filesystem) :
  Forall (fun e => event_path e = p) (fst (load_report p fs)).
Proof.
  destruct (fs p) as [[df|kind]|] eqn:E.
  - rewrite (load_report_present p fs df E). simpl. repeat constructor.
  - rewrite (load_report_unreadable p fs kind E). simpl. repeat constructor.
  - rewrite (load_report_absent p fs E). simpl. repeat constructor.
Qed.

Lemma one_comparison_trace
      (cfg : config) (fs : filesystem) (existing_sample : DataFrame)
      (source key filter : string) (comparisons : list (string * DataFrame)) :
  In source metric_sources ->
  Forall (verbatim cfg)
    (fst (one_comparison cfg existing_sample source key filter comparisons fs)).
Proof.
  intros Hs. unfold one_comparison.
  destruct (metrics_path cfg source) as [p|e] eqn:Hp.
  - rewrite io_bind_lift_ok. apply io_bind_trace.
    + eapply Forall_impl; [| apply load_report_trace].
      intros e He. exists source. rewrite He. now split.
    + intros report. apply io_bind_trace; [constructor |].
      intros out. constructor.
  - constructor.
Qed.

Lemma metric_file_exists_trace (cfg : config) (fs : filesystem) (name : string) :
  In name metric_sources ->
  Forall (verbatim cfg) (fst (metric_file_exists cfg name fs)).
Proof.
  intros Hs. unfold metric_file_exists.
  destruct (metrics_path cfg name) as [p|e] eqn:Hp.
  - rewrite io_bind_lift_ok. unfold path_exists. simpl.
    constructor; [| constructor]. exists name. now split.
  - constructor.
Qed.

Lemma all_metric_files_exist_trace
      (cfg : config) (fs : filesystem) (names : list string) :
  (forall n, In n names -> In n metric_sources) ->
  Forall (verbatim cfg) (fst (all_metric_files_exist cfg names fs)).
Proof.
  induction names as [|n names IH]; intros Hn; simpl.
  - constructor.
  - apply io_bind_trace.
    + apply metric_file_exists_trace, Hn. now left.
    + intros [|]; [apply IH; intros ? ?; apply Hn; now right | constructor].
Qed.

(** [replace] on ["../"] *)

Lemma replace_parent_prefix (s : string) :
  PyStr.replace "../" "" ("../" ++ s) = PyStr.replace "../" "" s.
Proof. reflexivity. Qed.

Lemma replace_parent_other (c : ascii) (s : string) :
  PyStr.startswith "../" (String c s) = false ->
  PyStr.replace "../" "" (String c s) = String c (PyStr.replace "../" "" s).
Proof.
  intros H. unfold PyStr.replace. cbn [PyStr.replace_from]. now rewrite H.
Qed.

Lemma replace_parent_absent (s : string) :
  PyStr.contains "../" s = false -> PyStr.replace "../" "" s = s.
Proof.
  induction s as [|c s IH]; intros H.
  - reflexivity.
  - cbn [PyStr.contains] in H. apply orb_false_iff in H. destruct H as [H1 H2].
    rewrite (replace_parent_other c s H1). now rewrite IH.
Qed.

Lemma startswith_split (p s : string) :
  PyStr.startswith p s = true -> exists t, s = (p ++ t)%string.
Proof.
  revert s. induction p as [|a p IH]; intros s H.
  - now exists s.
  - destruct s as [|b s]; [discriminate |].
    cbn [PyStr.startswith] in H. apply andb_true_iff in H. destruct H as [H1 H2].
    apply Ascii.eqb_eq in H1. subst b.
    destruct (IH s H2) as [t ->]. now exists t.
Qed.

Lemma startswith_append (p s t : string) :
  PyStr.startswith p s = true -> PyStr.startswith p (s ++ t) = true.
Proof.
  revert s. induction p as [|a p IH]; intros s H.
  - reflexivity.
  - destruct s as [|b s]; [discriminate |].
    cbn [PyStr.startswith String.append] in *.
    apply andb_true_iff in H. destruct H as [H1 H2].
    now rewrite H1, (IH s H2).
Qed.

Lemma concat_head_prefix (sep x : string) (rest : list string) :
  exists t, String.concat sep (x :: rest) = (x ++ t)%string.
Proof.
  destruct rest as [|y rest]; cbn [String.concat].
  - exists ""%string. revert x. induction x as [|c x IH]; [reflexivity |].
    cbn [String.append]. now rewrite <- IH.
  - now eexists.
Qed.

Lemma concat_cons_char (sep : string) (c : ascii) (x : string)
      (rest : list string) :
  String.concat sep (String c x :: rest)
  = String c (String.concat sep (x :: rest)).
Proof. destruct rest; reflexivity. Qed.

(** [path.replace('../', '')] deletes every occurrence of ["../"]: the
    path is a chain of pieces free of ["../"] with ["../"] between them,
    and the result is the chain of the pieces alone. *)
Lemma replace_parent_pieces (n : nat) (s : string) :
  String.length s <= n ->
  exists x pieces,
    s = String.concat "../" (x :: pieces)
    /\ PyStr.replace "../" "" s = String.concat "" (x :: pieces)
    /\ Forall (fun y => PyStr.contains "../" y = false) (x :: pieces).
Proof.
  revert s. induction n as [|n IH]; intros s Hlen.
  - destruct s; [| simpl in Hlen; lia].
    exists ""%string, []. repeat split. repeat constructor.
  - destruct s as [|c s].
    + exists ""%string, []. repeat split. repeat constructor.
    + destruct (PyStr.startswith "../" (String c s)) eqn:E.
      * destruct (startswith_split _ _ E) as [t Ht].
        assert (Lt : String.length t <= n).
        { apply (f_equal String.length) in Ht. simpl in Ht, Hlen. lia. }
        destruct (IH t Lt) as (x & pieces & H1 & H2 & H3).
        exists ""%string, (x :: pieces). rewrite Ht.
        rewrite replace_parent_prefix, H2. split; [| split].
        -- change (String.concat "../" (""%string :: x :: pieces))
             with ("../" ++ String.concat "../" (x :: pieces))%string.
           now rewrite <- H1.
        -- reflexivity.
        -- constructor; [reflexivity | exact H3].
      * assert (Lt : String.length s <= n) by (simpl in Hlen; lia).
        destruct (IH s Lt) as (x & pieces & H1 & H2 & H3).
        exists (String c x), pieces.
        rewrite (replace_parent_other c s E), H2, !concat_cons_char.
        split; [now rewrite <- H1 | split; [reflexivity |]].
        apply Forall_cons_iff in H3. destruct H3 as [Hx Hp].
        constructor; [| exact Hp].
        cbn [PyStr.contains]. rewrite Hx, orb_false_r.
        destruct (PyStr.startswith "../" (String c x)) eqn:E'; [| reflexivity].
        destruct (concat_head_prefix "../" x pieces) as [t Ht].
        rewrite H1, Ht in E.
        change (String c (x ++ t)) with (String c x ++ t)%string in E.
        now rewrite (startswith_append _ _ t E') in E.
Qed.

(** C10: the baseline path is used once [replace('../', '')] has deleted
    every ["../"] from it, for the existence check and for the load, in
    [compare_all_reports] and in [validate_required_files]; every other
    question to the file system is on a metric path exactly as configured.
    So ["../" ++ s] is looked up as [s] would be. *)
Theorem baseline_path_loses_parent_steps (cfg : config) (configured : string) :
  metrics_path cfg "existing_sample" = Ok configured ->
  let p := PyStr.replace "../" "" configured in
  (exists x pieces,
      configured = String.concat "../" (x :: pieces)
      /\ p = String.concat "" (x :: pieces)
      /\ Forall (fun y => PyStr.contains "../" y = false) (x :: pieces))
  /\ (forall s, PyStr.replace "../" "" ("../" ++ s) = PyStr.replace "../" "" s)
  /\ (forall metric_type fs,
         exists rest,
           fst (compare_all_reports cfg metric_type fs) = PathExists p :: rest
           /\ (rest = []
               \/ exists rest',
                   rest = PathExists p :: ReadCsv p :: rest'
                   /\ Forall (verbatim cfg) rest'))
  /\ (forall metric_choice fs,
         exists rest,
           fst (validate_required_files metric_choice cfg fs)
           = PathExists p :: rest
           /\ Forall (verbatim cfg) rest).
Proof.
  intros Hcfg p. split; [| split; [| split]].
  - apply (replace_parent_pieces (String.length configured)). lia.
  - intros s. apply replace_parent_prefix.
  - intros metric_type fs. unfold compare_all_reports.
    rewrite Hcfg, io_bind_lift_ok; cbv beta zeta. fold p.
    destruct (fs p) as [[df|kind]|] eqn:Ep.
    2:{ assert (Pe : path_exists p fs = ([PathExists p], Ok true)).
        { unfold path_exists. now rewrite Ep. }
        rewrite (io_bind_ok _ _ fs _ _ Pe); cbv beta zeta; cbn [negb].
        unfold io_bind at 1. rewrite (load_report_unreadable p fs kind Ep).
        eexists. split; [reflexivity |]. right. exists [].
        split; [reflexivity | constructor]. }
    + assert (Pe : path_exists p fs = ([PathExists p], Ok true)).
      { unfold path_exists. now rewrite Ep. }
      rewrite (io_bind_ok _ _ fs _ _ Pe); cbv beta zeta; cbn [negb].
      rewrite (io_bind_ok _ _ fs _ _ (load_report_present p fs df Ep));
        cbv beta zeta.
      eexists. split; [reflexivity |]. right. eexists. split; [reflexivity |].
      cbn [fst].
      destruct (String.eqb metric_type "all").
      { destruct (metrics_path cfg "asf_apa_new") as [pa|e] eqn:Ha;
          [| constructor].
        rewrite io_bind_lift_ok; cbv beta zeta.
        assert (V : forall fs', Forall (verbatim cfg) (fst (load_report pa fs'))).
        { intros fs'. eapply Forall_impl; [| apply load_report_trace].
          intros e He. exists "asf_apa_new"%string. rewrite He.
          split; [simpl; tauto | exact Ha]. }
        apply io_bind_trace; [apply V |]. intros r1.
        apply io_bind_trace; [constructor |]. intros c1.
        apply io_bind_trace; [apply V |]. intros r2.
        apply io_bind_trace; [constructor |]. intros c2.
        apply io_bind_trace; [apply one_comparison_trace; simpl; tauto |].
        intros d. apply one_comparison_trace; simpl; tauto. }
      destruct (String.eqb metric_type "asf" || String.eqb metric_type "apa")%bool;
        [apply one_comparison_trace; simpl; tauto |].
      destruct (String.eqb metric_type "psf");
        [apply one_comparison_trace; simpl; tauto |].
      destruct (String.eqb metric_type "ssf");
        [apply one_comparison_trace; simpl; tauto |].
      constructor.
    + assert (Pe : path_exists p fs = ([PathExists p], Ok false)).
      { unfold path_exists. now rewrite Ep. }
      rewrite (io_bind_ok _ _ fs _ _ Pe); cbv beta zeta; cbn [negb].
      exists []. split; [reflexivity | now left].
  - intros metric_choice fs. unfold validate_required_files.
    rewrite Hcfg, io_bind_lift_ok; cbv beta zeta. fold p.
    destruct (fs p) as [df|] eqn:Ep.
    + assert (Pe : path_exists p fs = ([PathExists p], Ok true)).
      { unfold path_exists. now rewrite Ep. }
      rewrite (io_bind_ok _ _ fs _ _ Pe); cbv beta zeta; cbn [negb].
      eexists. split; [reflexivity |]. cbn [fst].
      destruct (String.eqb metric_choice "asf" || String.eqb metric_choice "apa")%bool;
        [apply metric_file_exists_trace; simpl; tauto |].
      destruct (String.eqb metric_choice "psf");
        [apply metric_file_exists_trace; simpl; tauto |].
      destruct (String.eqb metric_choice "ssf");
        [apply metric_file_exists_trace; simpl; tauto |].
      destruct (String.eqb metric_choice "all"); [| constructor].
      apply all_metric_files_exist_trace. intros n Hn. exact Hn.
    + assert (Pe : path_exists p fs = ([PathExists p], Ok false)).
      { unfold path_exists. now rewrite Ep. }
      rewrite (io_bind_ok _ _ fs _ _ Pe); cbv beta zeta; cbn [negb].
      exists []. split; [reflexivity | constructor].
Qed.

Lemma baseline_path_loses_parent_steps_witness :
  metrics_path Samples.cfg "existing_sample" = Ok "../data/existing_sample.csv"
  /\ exists rest,
      fst (validate_required_files "asf" Samples.cfg Samples.fs)
      = PathExists "data/existing_sample.csv" :: rest
      /\ Forall (verbatim Samples.cfg) rest.
Proof.
  split; [reflexivity |].
  exact (proj2 (proj2 (proj2
           (baseline_path_loses_parent_steps
              Samples.cfg "../data/existing_sample.csv" eq_refl)))
           "asf"%string Samples.fs).
Defined.

(** ** Lists and the result monad *)

Lemma mapM_ok_cons {A B : Type} (f : A -> result B) (a : A) (l : list A)
      (bs : list B) :
  mapM f (a :: l) = Ok bs <->
  exists b bs', f a = Ok b /\ mapM f l = Ok bs' /\ bs = b :: bs'.
Proof.
  cbn [mapM]. split.
  - intros H. inv_bind H. inv_bind H. injection H as <-. eauto.
  - intros (b & bs' & Hb & Hl & ->). now rewrite Hb, Hl.
Qed.

Lemma mapM_ok_Forall2 {A B : Type} (f : A -> result B) (l : list A)
      (bs : list B) :
  mapM f l = Ok bs <-> Forall2 (fun a b => f a = Ok b) l bs.
Proof.
  revert bs. induction l as [|a l IH]; intros bs.
  - cbn. split.
    + intros [= <-]. constructor.
    + intros H. inversion H. reflexivity.
  - rewrite mapM_ok_cons. split.
    + intros (b & bs' & Hb & Hl & ->). constructor; [exact Hb | now apply IH].
    + intros H. inversion H as [|? b ? bs' Hb Hl]; subst.
      exists b, bs'. repeat split; [exact Hb | now apply IH].
Qed.


Lemma zip_with_map {A B C : Type} (f : A -> B -> C) (g : A -> B) (l : list A) :
  zip_with f l (map g l) = map (fun a => f a (g a)) l.
Proof.
  induction l as [|a l IH]; [reflexivity |]. cbn. now rewrite IH.
Qed.

Lemma mask_rows_map (p : row -> bool) (rs : list row) :
  mask_rows (map p rs) rs = filter p rs.
Proof.
  induction rs as [|r rs IH]; [reflexivity |].
  cbn. rewrite IH. reflexivity.
Qed.

(** ** Join keys *)

(** Two floats are equal for [==] when both are zeros or they are the same
    number; nan equals nothing. *)
Definition sf_class (f : spec_float) : option spec_float :=
  match f with
  | S754_nan => None
  | S754_zero _ => Some (S754_zero false)
  | _ => Some f
  end.

Definition float_class (x : float) : option spec_float := sf_class (Prim2SF x).

Lemma SFeqb_class (f g : spec_float) :
  SFeqb f g = true <-> sf_class f = sf_class g /\ sf_class f <> None.
Proof.
  unfold SFeqb, SFcompare, sf_class.
  destruct f as [[|]|[|]| |[|] m1 e1], g as [[|]|[|]| |[|] m2 e2];
    try (split; [discriminate | intros [H1 H2]; congruence]);
    try (split; [intros _; split; [reflexivity | discriminate] | reflexivity]);
    change (Pos.compare_cont Eq m1 m2) with (Pos.compare m1 m2);
    (destruct (Z.compare e1 e2) eqn:Ez;
     [ apply Z.compare_eq in Ez; subst e2
     | split; [discriminate
              | intros [[= -> ->] _]; rewrite Z.compare_refl in Ez; discriminate]
     | split; [discriminate
              | intros [[= -> ->] _]; rewrite Z.compare_refl in Ez; discriminate] ]);
    (destruct (Pos.compare m1 m2) eqn:Em; cbn [CompOpp];
     [ apply Pos.compare_eq in Em; subst m2;
       split; [intros _; split; [reflexivity | discriminate] | reflexivity]
     | split; [discriminate
              | intros [[= ->] _]; rewrite Pos.compare_refl in Em; discriminate]
     | split; [discriminate
              | intros [[= ->] _]; rewrite Pos.compare_refl in Em; discriminate] ]).
Qed.

Lemma float_eqb_class (x y : float) :
  PrimFloat.eqb x y = true <-> float_class x = float_class y /\ float_class x <> None.
Proof.
  rewrite FloatAxioms.eqb_spec. apply SFeqb_class.
Qed.

Lemma is_nan_class (x : float) : is_nan x = true <-> float_class x = None.
Proof.
  unfold is_nan. rewrite negb_true_iff.
  destruct (PrimFloat.eqb x x) eqn:E.
  - apply float_eqb_class in E. destruct E as [_ E].
    split; [discriminate | intros H; contradiction].
  - split; [intros _ | reflexivity].
    destruct (float_class x) eqn:C; [| reflexivity].
    assert (PrimFloat.eqb x x = true) by (apply float_eqb_class; split; congruence).
    congruence.
Qed.

(** The class of a join key: [None] for the null keys. *)
Definition key_class (c : cell) : option (string + spec_float) :=
  match c with
  | CNone => None
  | CStr s => Some (inl s)
  | CNum x => option_map inr (float_class x)
  end.

Lemma notnull_class (c : cell) : notnull c = false <-> key_class c = None.
Proof.
  destruct c as [|s|x]; cbn.
  - tauto.
  - split; discriminate.
  - rewrite negb_false_iff, is_nan_class.
    destruct (float_class x); cbn; split; congruence.
Qed.

Lemma key_eqb_class (a b : cell) :
  key_eqb a b = true <-> key_class a = key_class b.
Proof.
  unfold key_eqb. destruct (notnull a) eqn:Na.
  - destruct a as [|s|x]; [discriminate | |].
    + destruct b as [|t|y]; cbn.
      * split; discriminate.
      * rewrite String.eqb_eq. split; congruence.
      * destruct (float_class y); cbn; split; discriminate.
    + destruct b as [|t|y]; cbn.
      * destruct (float_class x) eqn:C; cbn; [split; discriminate |].
        apply is_nan_class in C. cbn in Na. rewrite C in Na. discriminate.
      * destruct (float_class x); cbn; split; discriminate.
      * rewrite float_eqb_class.
        destruct (float_class x) eqn:Cx, (float_class y) eqn:Cy; cbn;
          split; try congruence; try (intros [H1 H2]; congruence).
        -- intros [= ->]. split; congruence.
        -- intros _. apply is_nan_class in Cx. cbn in Na. rewrite Cx in Na.
           discriminate.
  - rewrite negb_true_iff, notnull_class.
    apply notnull_class in Na. rewrite Na. split; congruence.
Qed.

Lemma key_eqb_refl (a : cell) : key_eqb a a = true.
Proof. now apply key_eqb_class. Qed.

Lemma key_eqb_sym (a b : cell) : key_eqb a b = key_eqb b a.
Proof.
  destruct (key_eqb a b) eqn:E1, (key_eqb b a) eqn:E2; try reflexivity.
  - apply key_eqb_class in E1. symmetry in E1. apply key_eqb_class in E1.
    congruence.
  - apply key_eqb_class in E2. symmetry in E2. apply key_eqb_class in E2.
    congruence.
Qed.

Lemma key_eqb_trans (a b c : cell) :
  key_eqb a b = true -> key_eqb b c = true -> key_eqb a c = true.
Proof.
  rewrite !key_eqb_class. congruence.
Qed.

Lemma key_eqb_congr (a b c : cell) :
  key_eqb a b = true -> key_eqb a c = key_eqb b c.
Proof.
  intros H. destruct (key_eqb b c) eqn:E.
  - now apply (key_eqb_trans a b c).
  - destruct (key_eqb a c) eqn:E'; [| reflexivity].
    rewrite key_eqb_sym in H. rewrite (key_eqb_trans b a c H E') in E.
    discriminate.
Qed.

Lemma insert_key_perm (k : cell) (l : list cell) :
  Permutation (insert_key k l) (k :: l).
Proof.
  induction l as [|x l IH]; cbn.
  - reflexivity.
  - destruct (key_leb k x); [reflexivity |].
    rewrite IH. apply perm_swap.
Qed.

Lemma sort_keys_perm (l : list cell) : Permutation (sort_keys l) l.
Proof.
  induction l as [|k l IH]; cbn; [reflexivity |].
  rewrite insert_key_perm. now constructor.
Qed.

Lemma distinct_keys_represent (l : list cell) (k : cell) :
  In k l -> exists k', In k' (distinct_keys l) /\ key_eqb k k' = true.
Proof.
  induction l as [|x l IH]; cbn; [tauto |].
  intros [-> | H].
  - exists k. split; [now left | apply key_eqb_refl].
  - destruct (IH H) as (k' & Hin & Heq).
    destruct (key_eqb x k') eqn:E.
    + exists x. split; [now left |].
      rewrite key_eqb_sym in E. now apply (key_eqb_trans k k' x).
    + exists k'. split; [| exact Heq].
      right. apply filter_In. split; [exact Hin | now rewrite E].
Qed.

Lemma distinct_keys_count (l : list cell) (k : cell) :
  List.length (filter (key_eqb k) (distinct_keys l))
  = if existsb (key_eqb k) l then 1 else 0.
Proof.
  induction l as [|x l IH]; [reflexivity |].
  cbn [distinct_keys existsb filter].
  destruct (key_eqb k x) eqn:E; cbn [orb List.length].
  - f_equal.
    destruct (filter (key_eqb k)
                (filter (fun y => negb (key_eqb x y)) (distinct_keys l)))
      as [|y ys] eqn:F; [reflexivity |].
    exfalso.
    assert (Hy : In y (y :: ys)) by now left.
    rewrite <- F in Hy. apply filter_In in Hy. destruct Hy as [Hy1 Hy2].
    apply filter_In in Hy1. destruct Hy1 as [_ Hy1].
    rewrite <- (key_eqb_congr k x y E), Hy2 in Hy1. discriminate.
  - rewrite <- IH. f_equal. clear IH.
    induction (distinct_keys l) as [|y ys IHy]; [reflexivity |].
    cbn [filter]. destruct (key_eqb x y) eqn:Exy; cbn [negb filter].
    + rewrite key_eqb_sym in E.
      destruct (key_eqb k y) eqn:Eky; [| exact IHy].
      rewrite key_eqb_sym in Eky.
      rewrite (key_eqb_trans x y k Exy Eky) in E. discriminate.
    + now rewrite IHy.
Qed.

(** *** The rows of the outer join *)

Section MergeRows.

Variables (ki kj wl wr : nat) (L R : list row).

Let keyl (l : row) : cell := cell_at ki l.
Let keyr (r : row) : cell := cell_at kj r.

Definition paired (l r : row) : row := l ++ drop_nth kj r.
Definition left_only (l : row) : row := l ++ repeat NaN (wr - 1).
Definition right_only (r : row) : row :=
  set_nth ki (cell_at kj r) (repeat NaN wl) ++ drop_nth kj r.

Lemma merge_group_in (k : cell) (x : row) :
  In x (merge_group ki kj wl wr L R k) ->
  (exists l r, In l L /\ In r R /\ key_eqb (keyl l) (keyr r) = true
               /\ x = paired l r)
  \/ (exists l, In l L
                /\ (forall r, In r R -> key_eqb (keyl l) (keyr r) = false)
                /\ x = left_only l)
  \/ (exists r, In r R
                /\ (forall l, In l L -> key_eqb (keyl l) (keyr r) = false)
                /\ x = right_only r).
Proof.
  unfold merge_group.
  set (ls := filter (fun l => key_eqb (cell_at ki l) k) L).
  set (rs := filter (fun r => key_eqb (cell_at kj r) k) R).
  assert (Hls : forall l, In l ls <-> In l L /\ key_eqb (keyl l) k = true)
    by (intros; apply filter_In).
  assert (Hrs : forall r, In r rs <-> In r R /\ key_eqb (keyr r) k = true)
    by (intros; apply filter_In).
  destruct ls as [|l0 ls'] eqn:El.
  - intros Hx. apply in_map_iff in Hx. destruct Hx as (r & <- & Hr).
    right. right. exists r. apply Hrs in Hr. destruct Hr as [Hr1 Hr2].
    repeat split; [exact Hr1 |]. intros l Hl.
    destruct (key_eqb (keyl l) (keyr r)) eqn:E; [| reflexivity].
    exfalso. apply (proj2 (Hls l)). split; [exact Hl |].
    now apply (key_eqb_trans _ (keyr r)).
  - destruct rs as [|r0 rs'] eqn:Er.
    + intros Hx. apply in_map_iff in Hx. destruct Hx as (l & <- & Hl).
      right. left. exists l. apply Hls in Hl. destruct Hl as [Hl1 Hl2].
      repeat split; [exact Hl1 |]. intros r Hr.
      destruct (key_eqb (keyl l) (keyr r)) eqn:E; [| reflexivity].
      exfalso. apply (proj2 (Hrs r)). split; [exact Hr |].
      rewrite key_eqb_sym in E. now apply (key_eqb_trans _ (keyl l)).
    + intros Hx. apply in_flat_map in Hx. destruct Hx as (l & Hl & Hx).
      apply in_map_iff in Hx. destruct Hx as (r & <- & Hr).
      left. exists l, r. apply Hls in Hl. apply Hrs in Hr.
      destruct Hl as [Hl1 Hl2], Hr as [Hr1 Hr2].
      repeat split; [exact Hl1 | exact Hr1 |].
      rewrite key_eqb_sym in Hr2. now apply (key_eqb_trans _ k).
Qed.

Lemma merge_rows_in (x : row) :
  In x (merge_rows ki kj wl wr L R) ->
  (exists l r, In l L /\ In r R /\ key_eqb (keyl l) (keyr r) = true
               /\ x = paired l r)
  \/ (exists l, In l L
                /\ (forall r, In r R -> key_eqb (keyl l) (keyr r) = false)
                /\ x = left_only l)
  \/ (exists r, In r R
                /\ (forall l, In l L -> key_eqb (keyl l) (keyr r) = false)
                /\ x = right_only r).
Proof.
  unfold merge_rows. intros H. apply in_flat_map in H.
  destruct H as (k & _ & H). now apply (merge_group_in k).
Qed.

Lemma key_represented (k : cell) :
  In k (map (cell_at ki) L ++ map (cell_at kj) R) ->
  exists k',
    In k' (sort_keys (distinct_keys (map (cell_at ki) L ++ map (cell_at kj) R)))
    /\ key_eqb k k' = true.
Proof.
  intros H. destruct (distinct_keys_represent _ k H) as (k' & Hin & Heq).
  exists k'. split; [| exact Heq].
  eapply Permutation_in; [symmetry; apply sort_keys_perm | exact Hin].
Qed.

Lemma merge_rows_paired (l r : row) :
  In l L -> In r R -> key_eqb (keyl l) (keyr r) = true ->
  In (paired l r) (merge_rows ki kj wl wr L R).
Proof.
  intros Hl Hr E.
  destruct (key_represented (keyl l)) as (k & Hk & Ek).
  { apply in_or_app. left. now apply in_map. }
  unfold merge_rows. apply in_flat_map. exists k. split; [exact Hk |].
  unfold merge_group.
  assert (Il : In l (filter (fun l => key_eqb (cell_at ki l) k) L))
    by (apply filter_In; now split).
  assert (Ir : In r (filter (fun r => key_eqb (cell_at kj r) k) R)).
  { apply filter_In. split; [exact Hr |].
    rewrite key_eqb_sym in E. now apply (key_eqb_trans _ (keyl l)). }
  destruct (filter (fun l => key_eqb (cell_at ki l) k) L) as [|l0 ls];
    [contradiction |].
  destruct (filter (fun r => key_eqb (cell_at kj r) k) R) as [|r0 rs];
    [contradiction |].
  apply in_flat_map. exists l. split; [exact Il |].
  apply in_map_iff. now exists r.
Qed.

Lemma merge_rows_left_only (l : row) :
  In l L -> (forall r, In r R -> key_eqb (keyl l) (keyr r) = false) ->
  In (left_only l) (merge_rows ki kj wl wr L R).
Proof.
  intros Hl Hno.
  destruct (key_represented (keyl l)) as (k & Hk & Ek).
  { apply in_or_app. left. now apply in_map. }
  unfold merge_rows. apply in_flat_map. exists k. split; [exact Hk |].
  unfold merge_group.
  assert (Il : In l (filter (fun l => key_eqb (cell_at ki l) k) L))
    by (apply filter_In; now split).
  assert (Ir : filter (fun r => key_eqb (cell_at kj r) k) R = []).
  { destruct (filter (fun r => key_eqb (cell_at kj r) k) R) as [|r rs] eqn:F;
      [reflexivity |].
    assert (Hr : In r (r :: rs)) by now left.
    rewrite <- F in Hr. apply filter_In in Hr. destruct Hr as [Hr1 Hr2].
    rewrite key_eqb_sym in Hr2.
    pose proof (key_eqb_trans _ _ _ Ek Hr2) as T.
    specialize (Hno r Hr1). unfold keyl, keyr in *. congruence. }
  rewrite Ir.
  destruct (filter (fun l => key_eqb (cell_at ki l) k) L) as [|l0 ls];
    [contradiction |].
  apply in_map_iff. now exists l.
Qed.

Lemma merge_rows_right_only (r : row) :
  In r R -> (forall l, In l L -> key_eqb (keyl l) (keyr r) = false) ->
  In (right_only r) (merge_rows ki kj wl wr L R).
Proof.
  intros Hr Hno.
  destruct (key_represented (keyr r)) as (k & Hk & Ek).
  { apply in_or_app. right. now apply in_map. }
  unfold merge_rows. apply in_flat_map. exists k. split; [exact Hk |].
  unfold merge_group.
  assert (Ir : In r (filter (fun r => key_eqb (cell_at kj r) k) R))
    by (apply filter_In; now split).
  assert (Il : filter (fun l => key_eqb (cell_at ki l) k) L = []).
  { destruct (filter (fun l => key_eqb (cell_at ki l) k) L) as [|l ls] eqn:F;
      [reflexivity |].
    assert (Hl : In l (l :: ls)) by now left.
    rewrite <- F in Hl. apply filter_In in Hl. destruct Hl as [Hl1 Hl2].
    rewrite key_eqb_sym in Ek.
    pose proof (key_eqb_trans _ _ _ Hl2 Ek) as T.
    specialize (Hno l Hl1). unfold keyl, keyr in *. congruence. }
  rewrite Il. apply in_map_iff. now exists r.
Qed.

End MergeRows.

(** ** The shape of the two processed sides *)

Lemma zip_with_Forall {A B : Type} (P : A -> Prop) (f : A -> B -> A)
      (l : list A) (vs : list B) :
  (forall a b, P a -> P (f a b)) -> Forall P l -> Forall P (zip_with f l vs).
Proof.
  intros Hf H. revert vs. induction H as [|a l Ha Hl IH]; intros [|v vs]; cbn;
    constructor; auto.
Qed.

Lemma map_fst_combine {A B : Type} (la : list A) (lb : list B) :
  List.length la = List.length lb -> map fst (combine la lb) = la.
Proof.
  revert lb. induction la as [|a la IH]; intros [|b lb] H; cbn in *;
    try discriminate; [reflexivity |].
  f_equal. apply IH. now injection H.
Qed.

Lemma mapM_length {A B : Type} (f : A -> result B) (l : list A) (bs : list B) :
  mapM f l = Ok bs -> List.length bs = List.length l.
Proof.
  intros H. apply mapM_ok_Forall2 in H.
  symmetry. now apply (Forall2_length H).
Qed.

(** What [filter_project] keeps of a row: the metric label, in lower case,
    is the filter in lower case. *)
Definition label_matches (i : nat) (filter : string) (r : row) : bool :=
  match cell_at i r with
  | CStr y => String.eqb (PyStr.lower y) (PyStr.lower filter)
  | _ => false
  end.

Lemma filter_project_ok (table : DataFrame) (filter : string)
      (wanted : list string) (out : DataFrame) :
  filter_project table filter wanted = Ok out <->
  exists i d ps,
    find_column "metric" (columns table) = Some (i, d)
    /\ str_accessor (mkSeries d (map (cell_at i) (rows table))) = Ok tt
    /\ mapM (fun n => lookup_column n (columns table)) wanted = Ok ps
    /\ out = mkFrame (combine wanted (map snd ps))
               (map (fun r => map (fun p => cell_at (fst p) r) ps)
                    (List.filter (label_matches i filter) (rows table))).
Proof.
  unfold filter_project, getitem, str_lower, str_map, select,
    getitem_mask, eq_str.
  cbn [columns rows values s_dtype].
  set (sel := mapM (fun n => lookup_column n (columns table)) wanted).
  unfold lookup_column.
  destruct (find_column "metric" (columns table)) as [[i d]|] eqn:Em.
  2:{ split; [discriminate | intros (i & d & ps & H & _); discriminate]. }
  cbn [bind fst snd values s_dtype].
  destruct (str_accessor (mkSeries d (map (cell_at i) (rows table))))
    as [[]|e] eqn:Ea.
  2:{ split; [discriminate |].
      intros (i' & d' & ps & [= <- <-] & H & _). congruence. }
  cbn [bind values]. rewrite !map_map.
  assert (M : mask_rows
                (map (fun x => match str_cell PyStr.lower (cell_at i x) with
                               | CStr y => String.eqb y (PyStr.lower filter)
                               | _ => false
                               end) (rows table)) (rows table)
              = List.filter (label_matches i filter) (rows table)).
  { rewrite mask_rows_map. apply filter_ext. intros r. unfold label_matches.
    now destruct (cell_at i r). }
  rewrite M.
  destruct sel as [ps|e]; cbn [bind].
  - split.
    + intros [= <-]. now exists i, d, ps.
    + intros (i' & d' & ps' & [= <- <-] & _ & [= <-] & ->). reflexivity.
  - split; [discriminate |].
    intros (i' & d' & ps' & _ & _ & H & _). discriminate.
Qed.

Lemma filter_project_shape (table : DataFrame) (filter : string)
      (wanted : list string) (out : DataFrame) :
  filter_project table filter wanted = Ok out ->
  map fst (columns out) = wanted
  /\ Forall (fun r => List.length r = List.length wanted) (rows out).
Proof.
  intros H. apply filter_project_ok in H.
  destruct H as (i & d & ps & _ & _ & Hps & ->). cbn [columns rows].
  apply mapM_length in Hps. split.
  - apply map_fst_combine. now rewrite length_map.
  - apply Forall_forall. intros r Hr. apply in_map_iff in Hr.
    destruct Hr as (r0 & <- & _). now rewrite length_map.
Qed.

Ltac explicit_columns H :=
  repeat match type of H with
    | map fst ?cols = _ :: _ =>
        let n := fresh "n" in let d := fresh "d" in
        destruct cols as [|[n d] cols]; [discriminate H |];
        cbn [map fst] in H;
        let E := fresh "E" in
        injection H as E H; subst n
    | map fst ?cols = [] =>
        destruct cols; [| discriminate H]; clear H
    end.

Definition existing_schema (d0 d3 d4 d5 d6 d7 d8 : dtype)
  : list (string * dtype) :=
  [("run_id", d0); ("metric", object); ("country", object); ("provider", d3);
   ("product", d4); ("sampling_run_id", d5); ("metric_value", d6);
   ("metric_value_lower", d7); ("metric_value_upper", d8)].

Definition metric_schema (e0 e1 e2 e3 e4 e5 e6 e7 e8 e9 : dtype)
  : list (string * dtype) :=
  [("provider_release_version", e0); ("metric", e1); ("sample_size", e2);
   ("match", e3); ("lower", e4); ("upper", e5); ("matching_run_id", e6);
   ("provider_id", e7); ("country", e8); ("sampling_run_id", e9)].

Lemma process_existing_shape (existing_sample : DataFrame) (filter : string)
      (ep : DataFrame) :
  process_existing existing_sample filter = Ok ep ->
  (exists d0 d3 d4 d5 d6 d7 d8,
      columns ep = existing_schema d0 d3 d4 d5 d6 d7 d8)
  /\ Forall (fun l => List.length l = 9) (rows ep).
Proof.
  unfold process_existing. intros H. inv_bind H.
  destruct (filter_project_shape _ _ _ _ Ha) as [Hc Hr]. clear Ha.
  destruct a as [cols rs]. cbn [columns rows] in *.
  unfold existing_columns in Hc. explicit_columns Hc.
  unfold getitem, str_upper, str_lower, str_map in H.
  cbn [columns rows lookup_column find_column String.eqb Ascii.eqb Bool.eqb
       bind fst snd] in H.
  destruct (str_accessor _) as [[]|] in H; [| discriminate H].
  cbn [bind setitem columns rows find_column String.eqb Ascii.eqb Bool.eqb
       set_dtype s_dtype values lookup_column fst snd] in H.
  destruct (str_accessor _) as [[]|] in H; [| discriminate H].
  cbn [bind setitem columns rows find_column String.eqb Ascii.eqb Bool.eqb
       set_dtype s_dtype values] in H.
  injection H as <-. cbn [columns rows]. split.
  - unfold existing_schema. now eexists _, _, _, _, _, _, _.
  - apply zip_with_Forall;
      [intros a b Hab; rewrite <- Hab;
       now destruct a as [|? [|? [|? ?]]] |].
    apply zip_with_Forall;
      [intros a b Hab; rewrite <- Hab;
       now destruct a as [|? [|? [|? ?]]] |].
    exact Hr.
Qed.

Lemma process_metric_shape (metric : DataFrame) (filter : string)
      (mp : DataFrame) :
  process_metric metric filter = Ok mp ->
  (exists e0 e1 e2 e3 e4 e5 e6 e7 e8 e9,
      columns mp = metric_schema e0 e1 e2 e3 e4 e5 e6 e7 e8 e9)
  /\ Forall (fun r => List.length r = 10) (rows mp).
Proof.
  unfold process_metric. intros H.
  destruct (filter_project_shape _ _ _ _ H) as [Hc Hr]. clear H.
  destruct mp as [cols rs]. cbn [columns rows] in *.
  unfold metric_columns in Hc. explicit_columns Hc.
  split; [| exact Hr].
  unfold metric_schema. now eexists _, _, _, _, _, _, _, _, _, _.
Qed.

(** ** From the joined rows to the output rows *)

Definition merged_schema
           (dk d0 d1 d3 d4 d5 d6 d7 d8 e0 e1 e2 e3 e4 e5 e6 e7 e9 : dtype)
  : list (string * dtype) :=
  [("run_id", d0); ("metric_existing", d1); ("country", dk);
   ("provider", d3); ("product", d4); ("sampling_run_id_existing", d5);
   ("metric_value", d6); ("metric_value_lower", d7);
   ("metric_value_upper", d8); ("provider_release_version", e0);
   ("metric_metric", e1); ("sample_size", e2); ("match", e3); ("lower", e4);
   ("upper", e5); ("matching_run_id", e6); ("provider_id", e7);
   ("sampling_run_id_metric", e9)].

Definition output_schema (dk d1 d3 d4 e2 e6 dv : dtype)
  : list (string * dtype) :=
  [("metric_existing", d1); ("country", dk); ("provider", d3);
   ("product", d4); ("sample_size", e2); ("metric_existing", float64);
   ("metric_new", float64); ("matching_run_id", e6);
   ("comparison_metric_value", dv)].

(** The dtype of the derived column: [apply] gives an [object] Series,
    and an empty [float64] one on a frame without rows. *)
Definition derived_dtype (X : list row) : dtype :=
  if is_nil X then float64 else object.

(** The derived column on a joined row, from its [match] and
    [metric_value] cells. *)
Definition derived_cell (m v : cell) : result cell :=
  if notnull m then
    if notnull v then s <- format_comparison m v ;; Ok (CStr s) else Ok CNone
  else Ok CNone.

(** Positions in a joined row. *)
Definition j_label : nat := 1.
Definition j_country : nat := 2.
Definition j_provider : nat := 3.
Definition j_product : nat := 4.
Definition j_metric_value : nat := 6.
Definition j_sample_size : nat := 11.
Definition j_match : nat := 12.
Definition j_matching_run_id : nat := 15.

(** The output row of a joined row. *)
Definition output_row (x : row) : result row :=
  v <- derived_cell (cell_at j_match x) (cell_at j_metric_value x) ;;
  new <- float_of_cell (cell_at j_match x) ;;
  old <- float_of_cell (cell_at j_metric_value x) ;;
  Ok [cell_at j_label x; cell_at j_country x; cell_at j_provider x;
      cell_at j_product x; cell_at j_sample_size x;
      CNum (PyFloat.np_round2 old);
      CNum (PyFloat.np_round2 (PrimFloat.mul new 100%float));
      cell_at j_matching_run_id x; v].

(** The same steps as [join_and_derive] and [finish] take, on the rows
    alone. *)
Definition add_derived (x : row) (v : cell) : row := x ++ [v].

Definition pick (r : row) : row :=
  map (fun i => cell_at i r) [1; 2; 3; 4; 11; 6; 12; 15; 18].

Definition stage (X : list row) : result (list row) :=
  vs <- mapM (fun x => derived_cell (cell_at j_match x) (cell_at j_metric_value x)) X ;;
  let X2 := map pick (zip_with add_derived X vs) in
  new <- mapM float_of_cell (map (cell_at 6) X2) ;;
  let X3 :=
    zip_with (fun r v => set_nth 6 v r) X2
      (map CNum (map (fun x => PyFloat.np_round2 (PrimFloat.mul x 100%float)) new)) in
  old <- mapM float_of_cell (map (cell_at 5) X3) ;;
  Ok (zip_with (fun r v => set_nth 5 v r) X3
        (map CNum (map PyFloat.np_round2 old))).

Definition stage_values (X : list row) : result (list cell) :=
  mapM (fun x => derived_cell (cell_at j_match x) (cell_at j_metric_value x)) X.

Definition stage_rows (X : list row) (vs : list cell) (dk d1 d3 d4 e2 e6 dv : dtype)
  : result DataFrame :=
  let X2 := map pick (zip_with add_derived X vs) in
  new <- mapM float_of_cell (map (cell_at 6) X2) ;;
  let X3 :=
    zip_with (fun r v => set_nth 6 v r) X2
      (map CNum (map (fun x => PyFloat.np_round2 (PrimFloat.mul x 100%float)) new)) in
  old <- mapM float_of_cell (map (cell_at 5) X3) ;;
  Ok (mkFrame (output_schema dk d1 d3 d4 e2 e6 dv)
        (zip_with (fun r v => set_nth 5 v r) X3
           (map CNum (map PyFloat.np_round2 old)))).

Lemma derive_stage
      (dk d0 d1 d3 d4 d5 d6 d7 d8 e0 e1 e2 e3 e4 e5 e6 e7 e9 : dtype)
      (X : list row) :
  apply_rows comparison_lambda
    (mkFrame (merged_schema dk d0 d1 d3 d4 d5 d6 d7 d8
                e0 e1 e2 e3 e4 e5 e6 e7 e9) X)
  = (vs <- stage_values X ;;
     Ok (AsSeries (mkSeries (derived_dtype X) vs))).
Proof.
  destruct X as [|x0 X0]; [reflexivity |].
  set (X := x0 :: X0). unfold apply_rows, stage_values.
  cbn [columns rows]. unfold X at 1. cbv iota. fold X.
  reflexivity.
Qed.

Lemma finish_stage
      (dk d0 d1 d3 d4 d5 d6 d7 d8 e0 e1 e2 e3 e4 e5 e6 e7 e9 dv : dtype)
      (X : list row) (vs : list cell) :
  finish (setitem
            (mkFrame (merged_schema dk d0 d1 d3 d4 d5 d6 d7 d8
                        e0 e1 e2 e3 e4 e5 e6 e7 e9) X)
            "comparison_metric_value" (mkSeries dv vs))
  = stage_rows X vs dk d1 d3 d4 e2 e6 dv.
Proof. reflexivity. Qed.

Lemma stage_rows_error (X : list row) (vs : list cell)
      (dk d1 d3 d4 e2 e6 dv : dtype) (e : exn) :
  stage_rows X vs dk d1 d3 d4 e2 e6 dv = Raise e -> e = ValueError.
Proof.
  assert (F : forall l e', mapM float_of_cell l = Raise e' -> e' = ValueError).
  { intros l e' H. apply mapM_raise in H. destruct H as ([|t|x] & _ & H);
      cbn in H; try discriminate H.
    destruct (PyFloat.float_of_string t); [discriminate H |].
    now injection H as <-. }
  unfold stage_rows. intros H.
  apply bind_raise in H. destruct H as [H | (new & _ & H)]; [exact (F _ _ H) |].
  apply bind_raise in H. destruct H as [H | (old & _ & H)]; [exact (F _ _ H) |].
  discriminate H.
Qed.

Lemma derive_finish_stage
      (dk d0 d1 d3 d4 d5 d6 d7 d8 e0 e1 e2 e3 e4 e5 e6 e7 e9 : dtype)
      (X : list row) :
  let joined :=
    mkFrame (merged_schema dk d0 d1 d3 d4 d5 d6 d7 d8
               e0 e1 e2 e3 e4 e5 e6 e7 e9) X in
  (derived <- apply_rows comparison_lambda joined ;;
   comparison <- setitem_applied joined "comparison_metric_value" derived ;;
   finish comparison)
  = (rs <- stage X ;;
     Ok (mkFrame (output_schema dk d1 d3 d4 e2 e6 (derived_dtype X)) rs)).
Proof.
  intros joined. subst joined. rewrite derive_stage.
  unfold stage. fold (stage_values X).
  destruct (stage_values X) as [vs|e]; [| reflexivity].
  cbn [bind setitem_applied]. rewrite finish_stage. unfold stage_rows.
  destruct (mapM float_of_cell
              (map (cell_at 6) (map pick (zip_with add_derived X vs))))
    as [new|e]; [| reflexivity].
  cbn [bind].
  destruct (mapM float_of_cell _) as [old|e]; reflexivity.
Qed.

Ltac explicit_row H :=
  repeat match type of H with
    | List.length ?r = S _ =>
        let c := fresh "c" in
        destruct r as [|c r]; [discriminate H |];
        cbn [List.length] in H; apply eq_add_S in H
    | List.length ?r = O =>
        destruct r; [| discriminate H]; clear H
    end.

Lemma stage_cons (x : row) (X : list row) (rs : list row) :
  List.length x = 18 ->
  stage (x :: X) = Ok rs <->
  exists r rs', output_row x = Ok r /\ stage X = Ok rs' /\ rs = r :: rs'.
Proof.
  intros Hx. explicit_row Hx.
  unfold stage, output_row, j_match, j_metric_value, j_label, j_country,
    j_provider, j_product, j_sample_size, j_matching_run_id.
  cbn [mapM cell_at nth].
  destruct (derived_cell c11 c5) as [v|e]; cbn [bind];
    [| split; [discriminate | intros (r & rs' & H & _); discriminate]].
  destruct (mapM (fun x => derived_cell (cell_at 12 x) (cell_at 6 x)) X)
    as [vs|e]; cbn [bind];
    [| split; [discriminate | intros (r & rs' & _ & H & _); discriminate]].
  cbn [zip_with map pick add_derived app cell_at nth mapM].
  destruct (float_of_cell c11) as [new0|e]; cbn [bind];
    [| split; [discriminate | intros (r & rs' & H & _); discriminate]].
  destruct (mapM float_of_cell _) as [new|e]; cbn [bind];
    [| split; [discriminate | intros (r & rs' & _ & H & _); discriminate]].
  cbn [zip_with map set_nth mapM cell_at nth].
  destruct (float_of_cell c5) as [old0|e]; cbn [bind];
    [| split; [discriminate | intros (r & rs' & H & _); discriminate]].
  destruct (mapM float_of_cell _) as [old|e]; cbn [bind];
    [| split; [discriminate | intros (r & rs' & _ & H & _); discriminate]].
  cbn [zip_with map set_nth].
  split.
  - intros [= <-]. eauto.
  - intros (r & rs' & [= <-] & [= <-] & ->). reflexivity.
Qed.

Lemma stage_ok (X : list row) (rs : list row) :
  Forall (fun x => List.length x = 18) X ->
  stage X = Ok rs <-> mapM output_row X = Ok rs.
Proof.
  intros H. revert rs. induction H as [|x X Hx HX IH]; intros rs.
  - split; intros [= <-]; reflexivity.
  - rewrite (stage_cons x X rs Hx), mapM_ok_cons.
    split; intros (r & rs' & H1 & H2 & ->); exists r, rs';
      (split; [exact H1 | split; [now apply IH | reflexivity]]).
Qed.

(** ** The anatomy of [compare_reports] *)

Definition e_country : nat := 2.
Definition m_country : nat := 8.

(** The joined rows of the two processed sides. *)
Definition joined_rows (ep mp : DataFrame) : list row :=
  merge_rows e_country m_country 9 10 (rows ep) (rows mp).

Lemma merge_shaped (ep mp : DataFrame)
      (d0 d3 d4 d5 d6 d7 d8 e0 e1 e2 e3 e4 e5 e6 e7 e8 e9 : dtype) :
  columns ep = existing_schema d0 d3 d4 d5 d6 d7 d8 ->
  columns mp = metric_schema e0 e1 e2 e3 e4 e5 e6 e7 e8 e9 ->
  exists dk d0' d1' d3' d4' d5' d6' d7' d8' e0' e1' e2' e3' e4' e5' e6' e7' e9',
    merge ep mp "country" "_existing" "_metric"
    = if merge_keys_ok object e8 (map (cell_at e_country) (rows ep))
           (map (cell_at m_country) (rows mp))
      then Ok (mkFrame
                 (merged_schema dk d0' d1' d3' d4' d5' d6' d7' d8'
                    e0' e1' e2' e3' e4' e5' e6' e7' e9')
                 (joined_rows ep mp))
      else Raise ValueError.
Proof.
  intros He Hm. unfold merge. rewrite He, Hm.
  eexists _, _, _, _, _, _, _, _, _, _, _, _, _, _, _, _, _, _.
  reflexivity.
Qed.

Lemma joined_rows_length (ep mp : DataFrame) :
  Forall (fun l => List.length l = 9) (rows ep) ->
  Forall (fun r => List.length r = 10) (rows mp) ->
  Forall (fun x => List.length x = 18) (joined_rows ep mp).
Proof.
  intros HL HR. apply Forall_forall. intros x Hx.
  apply merge_rows_in in Hx.
  destruct Hx as [(l & r & Hl & Hr & _ & ->)
                 |[(l & Hl & _ & ->) | (r & Hr & _ & ->)]].
  - pose proof (proj1 (Forall_forall _ _) HL l Hl) as Ll.
    pose proof (proj1 (Forall_forall _ _) HR r Hr) as Lr.
    cbv beta in Ll, Lr. explicit_row Ll. explicit_row Lr. reflexivity.
  - pose proof (proj1 (Forall_forall _ _) HL l Hl) as Ll.
    cbv beta in Ll. explicit_row Ll. reflexivity.
  - pose proof (proj1 (Forall_forall _ _) HR r Hr) as Lr.
    cbv beta in Lr. explicit_row Lr. reflexivity.
Qed.

Lemma bind_assoc {A B C : Type} (m : result A) (k : A -> result B)
      (h : B -> result C) :
  bind (bind m k) h = bind m (fun a => bind (k a) h).
Proof. now destruct m. Qed.

Lemma compare_reports_unfold (existing_sample metric : DataFrame)
      (filter : string) (ep mp : DataFrame) :
  process_existing existing_sample filter = Ok ep ->
  process_metric metric filter = Ok mp ->
  Forall (fun x => List.length x = 18) (joined_rows ep mp)
  /\ exists dk d1 d3 d4 e2 e6 e8,
      find_column "country" (columns mp) = Some (m_country, e8)
      /\ (merge_keys_ok object e8 (map (cell_at e_country) (rows ep))
            (map (cell_at m_country) (rows mp)) = false ->
          compare_reports existing_sample metric filter = Raise ValueError)
      /\ forall out,
          compare_reports existing_sample metric filter = Ok out <->
          merge_keys_ok object e8 (map (cell_at e_country) (rows ep))
            (map (cell_at m_country) (rows mp)) = true
          /\ exists rs,
              mapM output_row (joined_rows ep mp) = Ok rs
              /\ out = mkFrame
                         (output_schema dk d1 d3 d4 e2 e6
                            (derived_dtype (joined_rows ep mp))) rs.
Proof.
  intros Pe Pm.
  destruct (process_existing_shape _ _ _ Pe)
    as [(d0 & d3 & d4 & d5 & d6 & d7 & d8 & Ce) Le].
  destruct (process_metric_shape _ _ _ Pm)
    as [(e0 & e1 & e2 & e3 & e4 & e5 & e6 & e7 & e8 & e9 & Cm) Lm].
  pose proof (joined_rows_length ep mp Le Lm) as L18.
  split; [exact L18 |].
  destruct (merge_shaped ep mp _ _ _ _ _ _ _ _ _ _ _ _ _ _ _ _ _ Ce Cm)
    as (dk & d0' & d1' & d3' & d4' & d5' & d6' & d7' & d8' & e0' & e1' & e2'
        & e3' & e4' & e5' & e6' & e7' & e9' & M).
  exists dk, d1', d3', d4', e2', e6', e8.
  split; [now rewrite Cm |].
  split.
  { intros K. unfold compare_reports, join_and_derive.
    rewrite Pe, Pm. cbn [bind]. rewrite M, K. reflexivity. }
  intros out.
  unfold compare_reports, join_and_derive. rewrite Pe, Pm. cbn [bind].
  rewrite M.
  destruct (merge_keys_ok _ _ _ _); cbn [bind];
    [| split; [discriminate | intros [H _]; discriminate]].
  rewrite bind_assoc.
  rewrite (derive_finish_stage dk d0' d1' d3' d4' d5' d6' d7' d8'
             e0' e1' e2' e3' e4' e5' e6' e7' e9' (joined_rows ep mp)).
  rewrite bind_ok. split.
  - intros (rs & S & [= <-]). split; [reflexivity |].
    exists rs. split; [now apply (stage_ok _ _ L18) | reflexivity].
  - intros (_ & rs & S & ->). exists rs.
    split; [now apply (stage_ok _ _ L18) | reflexivity].
Qed.

(** Positions in an output row. *)
Definition o_label : nat := 0.
Definition o_country : nat := 1.
Definition o_provider : nat := 2.
Definition o_product : nat := 3.
Definition o_sample_size : nat := 4.
Definition o_metric_existing : nat := 5.
Definition o_metric_new : nat := 6.
Definition o_matching_run_id : nat := 7.
Definition o_comparison : nat := 8.

Lemma output_row_cells (x r : row) :
  output_row x = Ok r ->
  exists v new old,
    derived_cell (cell_at j_match x) (cell_at j_metric_value x) = Ok v
    /\ float_of_cell (cell_at j_match x) = Ok new
    /\ float_of_cell (cell_at j_metric_value x) = Ok old
    /\ r = [cell_at j_label x; cell_at j_country x; cell_at j_provider x;
            cell_at j_product x; cell_at j_sample_size x;
            CNum (PyFloat.np_round2 old);
            CNum (PyFloat.np_round2 (PrimFloat.mul new 100%float));
            cell_at j_matching_run_id x; v].
Proof.
  unfold output_row. intros H. inv_bind H. inv_bind H. inv_bind H.
  injection H as <-. eauto 7.
Qed.

(** The derived cell: [None] when a side is null; otherwise both cells are
    floats whose difference rounds to an integer, and the cell is the
    formatted string. *)
Definition comparison_text (m v : float) (n : Z) : string :=
  (PyFloat.format_2f (PrimFloat.mul m 100%float)
   ++ " (" ++ PyFloat.str_of_int n ++ ")")%string.

Lemma derived_cell_spec (m v c : cell) :
  derived_cell m v = Ok c ->
  (c = CNone <-> notnull m = false \/ notnull v = false)
  /\ (notnull m = true -> notnull v = true ->
      exists x y n,
        m = CNum x /\ v = CNum y
        /\ PyFloat.int_round0 (PrimFloat.sub (PrimFloat.mul x 100%float) y)
           = PyFloat.IntValue n
        /\ c = CStr (comparison_text x y n)).
Proof.
  unfold derived_cell. destruct (notnull m) eqn:Nm.
  - destruct (notnull v) eqn:Nv.
    + intros H. inv_bind H. injection H as <-. split.
      * split; [discriminate | intros [H | H]; discriminate].
      * intros _ _. unfold format_comparison in Ha.
        destruct m as [|s|x]; try discriminate.
        destruct v as [|s|y]; try discriminate.
        destruct (PyFloat.int_round0 _) as [n| |] eqn:R; try discriminate.
        injection Ha as <-. now exists x, y, n.
    + intros [= <-]. split; [| discriminate].
      split; [now right | reflexivity].
  - intros [= <-]. split; [| discriminate].
    split; [now left | reflexivity].
Qed.

(** C1: in every table [compare_reports] returns, row by row along the
    joined rows, [comparison_metric_value] is [None] exactly when the
    joined row's [match] or [metric_value] is null; otherwise both are
    floats and it is [match*100] with two decimals, a space, and the
    integer [round(match*100 - metric_value)] in parentheses. *)
Theorem comparison_metric_value_spec
        (existing_sample metric : DataFrame) (filter : string)
        (out : DataFrame) :
  compare_reports existing_sample metric filter = Ok out ->
  exists ep mp,
    process_existing existing_sample filter = Ok ep
    /\ process_metric metric filter = Ok mp
    /\ Forall2
         (fun x r =>
            let m := cell_at j_match x in
            let v := cell_at j_metric_value x in
            let c := cell_at o_comparison r in
            (c = CNone <-> notnull m = false \/ notnull v = false)
            /\ (notnull m = true -> notnull v = true ->
                exists a b n,
                  m = CNum a /\ v = CNum b
                  /\ PyFloat.int_round0
                       (PrimFloat.sub (PrimFloat.mul a 100%float) b)
                     = PyFloat.IntValue n
                  /\ c = CStr (comparison_text a b n)))
         (joined_rows ep mp) (rows out).
Proof.
  intros H.
  destruct (process_existing existing_sample filter) as [ep|e] eqn:Pe;
    [| unfold compare_reports in H; rewrite Pe in H; discriminate H].
  destruct (process_metric metric filter) as [mp|e] eqn:Pm;
    [| unfold compare_reports in H; rewrite Pe, Pm in H; discriminate H].
  exists ep, mp. split; [reflexivity | split; [reflexivity |]].
  destruct (compare_reports_unfold _ _ _ _ _ Pe Pm) as [_ U].
  destruct U as (dk & d1 & d3 & d4 & e2 & e6 & e8 & _ & _ & U).
  apply U in H. destruct H as (_ & rs & Hrs & ->). cbn [rows].
  apply mapM_ok_Forall2 in Hrs.
  eapply Forall2_impl; [| exact Hrs].
  intros x r Hr. cbv zeta.
  destruct (output_row_cells x r Hr) as (v & new & old & Hd & _ & _ & ->).
  exact (derived_cell_spec _ _ _ Hd).
Qed.

Lemma comparison_metric_value_spec_witness :
  exists out ep mp,
    compare_reports Samples.baseline Samples.report "asf" = Ok out
    /\ process_existing Samples.baseline "asf" = Ok ep
    /\ process_metric Samples.report "asf" = Ok mp
    /\ Forall2
         (fun x r =>
            let m := cell_at j_match x in
            let v := cell_at j_metric_value x in
            let c := cell_at o_comparison r in
            (c = CNone <-> notnull m = false \/ notnull v = false)
            /\ (notnull m = true -> notnull v = true ->
                exists a b n,
                  m = CNum a /\ v = CNum b
                  /\ PyFloat.int_round0
                       (PrimFloat.sub (PrimFloat.mul a 100%float) b)
                     = PyFloat.IntValue n
                  /\ c = CStr (comparison_text a b n)))
         (joined_rows ep mp) (rows out).
Proof.
  eexists.
  assert (E : compare_reports Samples.baseline Samples.report "asf" = Ok _)
    by (vm_compute; reflexivity).
  destruct (comparison_metric_value_spec _ _ _ _ E) as (ep & mp & H1 & H2 & H3).
  exists ep, mp. repeat split; try assumption.
Defined.

(** ** The outer join keeps every country (C2) *)

Lemma partner_or_none (a : cell) (k : nat) (R : list row) :
  (exists r, In r R /\ key_eqb a (cell_at k r) = true)
  \/ (forall r, In r R -> key_eqb a (cell_at k r) = false).
Proof.
  induction R as [|r R IH].
  - right. intros r [].
  - destruct (key_eqb a (cell_at k r)) eqn:E.
    + left. exists r. split; [now left | exact E].
    + destruct IH as [(r' & Hr & Er) | IH].
      * left. exists r'. split; [now right | exact Er].
      * right. intros r' [<- | Hr]; [exact E | now apply IH].
Qed.

Lemma Forall2_in_left {A B : Type} (P : A -> B -> Prop) (l : list A)
      (l' : list B) (a : A) :
  Forall2 P l l' -> In a l -> exists b, In b l' /\ P a b.
Proof.
  intros H. induction H as [|x y l l' Hxy H IH]; intros Hin; [contradiction |].
  destruct Hin as [-> | Hin].
  - exists y. split; [now left | exact Hxy].
  - destruct (IH Hin) as (b & Hb & Pb). exists b. split; [now right | exact Pb].
Qed.

Lemma Forall2_in_right {A B : Type} (P : A -> B -> Prop) (l : list A)
      (l' : list B) (b : B) :
  Forall2 P l l' -> In b l' -> exists a, In a l /\ P a b.
Proof.
  intros H. induction H as [|x y l l' Hxy H IH]; intros Hin; [contradiction |].
  destruct Hin as [-> | Hin].
  - exists x. split; [now left | exact Hxy].
  - destruct (IH Hin) as (a & Ha & Pa). exists a. split; [now right | exact Pa].
Qed.

Lemma np_round2_nan : PyFloat.np_round2 nan = nan.
Proof. reflexivity. Qed.

Lemma np_round2_nan_scaled :
  PyFloat.np_round2 (PrimFloat.mul nan 100%float) = nan.
Proof. reflexivity. Qed.

(** The three kinds of joined rows, cell by cell. *)
Lemma paired_cells (l r : row) :
  List.length l = 9 -> List.length r = 10 ->
  let x := paired m_country l r in
  cell_at j_label x = cell_at 1 l
  /\ cell_at j_country x = cell_at e_country l
  /\ cell_at j_provider x = cell_at 3 l
  /\ cell_at j_product x = cell_at 4 l
  /\ cell_at j_metric_value x = cell_at 6 l
  /\ cell_at j_sample_size x = cell_at 2 r
  /\ cell_at j_match x = cell_at 3 r
  /\ cell_at j_matching_run_id x = cell_at 6 r.
Proof.
  intros Hl Hr. explicit_row Hl. explicit_row Hr. cbv. tauto.
Qed.

Lemma left_only_cells (l : row) :
  List.length l = 9 ->
  let x := left_only 10 l in
  cell_at j_label x = cell_at 1 l
  /\ cell_at j_country x = cell_at e_country l
  /\ cell_at j_provider x = cell_at 3 l
  /\ cell_at j_product x = cell_at 4 l
  /\ cell_at j_metric_value x = cell_at 6 l
  /\ cell_at j_sample_size x = NaN
  /\ cell_at j_match x = NaN
  /\ cell_at j_matching_run_id x = NaN.
Proof.
  intros Hl. explicit_row Hl. cbv. tauto.
Qed.

Lemma right_only_cells (r : row) :
  List.length r = 10 ->
  let x := right_only e_country m_country 9 r in
  cell_at j_label x = NaN
  /\ cell_at j_country x = cell_at m_country r
  /\ cell_at j_provider x = NaN
  /\ cell_at j_product x = NaN
  /\ cell_at j_metric_value x = NaN
  /\ cell_at j_sample_size x = cell_at 2 r
  /\ cell_at j_match x = cell_at 3 r
  /\ cell_at j_matching_run_id x = cell_at 6 r.
Proof.
  intros Hr. explicit_row Hr. cbv. tauto.
Qed.

Lemma derived_cell_null_left (v c : cell) : derived_cell NaN v = Ok c -> c = CNone.
Proof. cbn. now intros [= <-]. Qed.

Lemma derived_cell_null_right (m c : cell) : derived_cell m NaN = Ok c -> c = CNone.
Proof.
  unfold derived_cell. destruct (notnull m); cbn; now intros [= <-].
Qed.

(** Every output row comes from a joined row, and every joined row gives
    an output row. *)
Lemma compare_reports_rows (existing_sample metric : DataFrame)
      (filter : string) (ep mp out : DataFrame) :
  process_existing existing_sample filter = Ok ep ->
  process_metric metric filter = Ok mp ->
  compare_reports existing_sample metric filter = Ok out ->
  Forall (fun l => List.length l = 9) (rows ep)
  /\ Forall (fun r => List.length r = 10) (rows mp)
  /\ Forall2 (fun x r => output_row x = Ok r) (joined_rows ep mp) (rows out).
Proof.
  intros Pe Pm H.
  destruct (process_existing_shape _ _ _ Pe) as [_ Le].
  destruct (process_metric_shape _ _ _ Pm) as [_ Lm].
  destruct (compare_reports_unfold _ _ _ _ _ Pe Pm) as [_ U].
  destruct U as (dk & d1 & d3 & d4 & e2 & e6 & e8 & _ & _ & U).
  apply U in H. destruct H as (_ & rs & Hrs & ->). cbn [rows].
  repeat split; [exact Le | exact Lm | now apply mapM_ok_Forall2].
Qed.

(** Every country of either processed side has a row in the output; an
    output row whose country the new side lacks has nan in the fields of
    the new side and no comparison string, and likewise for the baseline
    side. *)
Lemma every_country_has_a_row
        (existing_sample metric : DataFrame) (filter : string)
        (ep mp out : DataFrame) :
  process_existing existing_sample filter = Ok ep ->
  process_metric metric filter = Ok mp ->
  compare_reports existing_sample metric filter = Ok out ->
  (forall l, In l (rows ep) ->
     exists r, In r (rows out)
               /\ key_eqb (cell_at o_country r) (cell_at e_country l) = true)
  /\ (forall q, In q (rows mp) ->
        exists r, In r (rows out)
                  /\ key_eqb (cell_at o_country r) (cell_at m_country q) = true)
  /\ (forall r, In r (rows out) ->
        (forall q, In q (rows mp) ->
           key_eqb (cell_at o_country r) (cell_at m_country q) = false) ->
        cell_at o_sample_size r = NaN
        /\ cell_at o_metric_new r = NaN
        /\ cell_at o_matching_run_id r = NaN
        /\ cell_at o_comparison r = CNone)
  /\ (forall r, In r (rows out) ->
        (forall l, In l (rows ep) ->
           key_eqb (cell_at o_country r) (cell_at e_country l) = false) ->
        cell_at o_label r = NaN
        /\ cell_at o_provider r = NaN
        /\ cell_at o_product r = NaN
        /\ cell_at o_metric_existing r = NaN
        /\ cell_at o_comparison r = CNone).
Proof.
  intros Pe Pm H.
  destruct (compare_reports_rows _ _ _ _ _ _ Pe Pm H) as (Le & Lm & F).
  pose proof (proj1 (Forall_forall _ _) Le) as Le'.
  pose proof (proj1 (Forall_forall _ _) Lm) as Lm'.
  cbv beta in Le', Lm'.
  split; [| split; [| split]].
  - intros l Hl.
    destruct (partner_or_none (cell_at e_country l) m_country (rows mp))
      as [(q & Hq & E) | None].
    + pose proof (merge_rows_paired e_country m_country 9 10 _ _ l q Hl Hq E)
        as Hx.
      destruct (Forall2_in_left _ _ _ _ F Hx) as (r & Hr & Or).
      exists r. split; [exact Hr |].
      destruct (output_row_cells _ _ Or) as (v & new & old & _ & _ & _ & ->).
      destruct (paired_cells l q (Le' l Hl) (Lm' q Hq)) as (_ & C & _).
      cbv zeta in C. unfold o_country. cbn [cell_at nth].
      fold (cell_at j_country (paired m_country l q)).
      rewrite C. apply key_eqb_refl.
    + pose proof (merge_rows_left_only e_country m_country 9 10 _ _ l Hl None)
        as Hx.
      destruct (Forall2_in_left _ _ _ _ F Hx) as (r & Hr & Or).
      exists r. split; [exact Hr |].
      destruct (output_row_cells _ _ Or) as (v & new & old & _ & _ & _ & ->).
      destruct (left_only_cells l (Le' l Hl)) as (_ & C & _).
      cbv zeta in C. unfold o_country. cbn [cell_at nth].
      fold (cell_at j_country (left_only 10 l)).
      rewrite C. apply key_eqb_refl.
  - intros q Hq.
    destruct (partner_or_none (cell_at m_country q) e_country (rows ep))
      as [(l & Hl & E) | None].
    + rewrite key_eqb_sym in E.
      pose proof (merge_rows_paired e_country m_country 9 10 _ _ l q Hl Hq E)
        as Hx.
      destruct (Forall2_in_left _ _ _ _ F Hx) as (r & Hr & Or).
      exists r. split; [exact Hr |].
      destruct (output_row_cells _ _ Or) as (v & new & old & _ & _ & _ & ->).
      destruct (paired_cells l q (Le' l Hl) (Lm' q Hq)) as (_ & C & _).
      cbv zeta in C. unfold o_country. cbn [cell_at nth].
      fold (cell_at j_country (paired m_country l q)).
      rewrite C. exact E.
    + assert (None' : forall l, In l (rows ep) ->
                        key_eqb (cell_at e_country l) (cell_at m_country q)
                        = false).
      { intros l Hl. rewrite key_eqb_sym. now apply None. }
      pose proof (merge_rows_right_only e_country m_country 9 10 _ _ q Hq None')
        as Hx.
      destruct (Forall2_in_left _ _ _ _ F Hx) as (r & Hr & Or).
      exists r. split; [exact Hr |].
      destruct (output_row_cells _ _ Or) as (v & new & old & _ & _ & _ & ->).
      destruct (right_only_cells q (Lm' q Hq)) as (_ & C & _).
      cbv zeta in C. unfold o_country. cbn [cell_at nth].
      fold (cell_at j_country (right_only e_country m_country 9 q)).
      rewrite C. apply key_eqb_refl.
  - intros r Hr Hno.
    destruct (Forall2_in_right _ _ _ _ F Hr) as (x & Hx & Or).
    destruct (output_row_cells _ _ Or) as (v & new & old & Dv & Fn & Fo & ->).
    unfold o_country, o_sample_size, o_metric_new, o_matching_run_id,
      o_comparison in *.
    cbn [cell_at nth] in *. fold (cell_at j_country x) in Hno.
    fold (cell_at j_sample_size x). fold (cell_at j_matching_run_id x).
    apply merge_rows_in in Hx.
    destruct Hx as [(l & q & Hl & Hq & E & ->)
                   |[(l & Hl & _ & ->) | (q & Hq & _ & ->)]].
    + exfalso.
      destruct (paired_cells l q (Le' l Hl) (Lm' q Hq)) as (_ & C & _).
      cbv zeta in C. specialize (Hno q Hq). rewrite C in Hno. congruence.
    + destruct (left_only_cells l (Le' l Hl))
        as (_ & _ & _ & _ & _ & C1 & C2 & C3).
      cbv zeta in C1, C2, C3. rewrite C2 in Dv, Fn. rewrite C1, C3.
      injection Fn as <-. rewrite np_round2_nan_scaled.
      now rewrite (derived_cell_null_left _ _ Dv).
    + exfalso.
      destruct (right_only_cells q (Lm' q Hq)) as (_ & C & _).
      cbv zeta in C. specialize (Hno q Hq). rewrite C, key_eqb_refl in Hno.
      discriminate.
  - intros r Hr Hno.
    destruct (Forall2_in_right _ _ _ _ F Hr) as (x & Hx & Or).
    destruct (output_row_cells _ _ Or) as (v & new & old & Dv & Fn & Fo & ->).
    unfold o_country, o_label, o_provider, o_product, o_metric_existing,
      o_comparison in *.
    cbn [cell_at nth] in *. fold (cell_at j_country x) in Hno.
    fold (cell_at j_label x). fold (cell_at j_provider x).
    fold (cell_at j_product x).
    apply merge_rows_in in Hx.
    destruct Hx as [(l & q & Hl & Hq & E & ->)
                   |[(l & Hl & _ & ->) | (q & Hq & _ & ->)]].
    + exfalso.
      destruct (paired_cells l q (Le' l Hl) (Lm' q Hq)) as (_ & C & _).
      cbv zeta in C. specialize (Hno l Hl). rewrite C, key_eqb_refl in Hno.
      discriminate.
    + exfalso.
      destruct (left_only_cells l (Le' l Hl)) as (_ & C & _).
      cbv zeta in C. specialize (Hno l Hl). rewrite C, key_eqb_refl in Hno.
      discriminate.
    + destruct (right_only_cells q (Lm' q Hq))
        as (C1 & _ & C3 & C4 & C5 & _).
      cbv zeta in C1, C3, C4, C5. rewrite C5 in Dv, Fo. rewrite C1, C3, C4.
      injection Fo as <-. rewrite np_round2_nan.
      now rewrite (derived_cell_null_right _ _ Dv).
Qed.

(** ** One side without rows (C8) *)

Lemma insert_once {A B : Type} (p : A -> bool) (F : A -> list B) (b : B)
      (K : list A) :
  List.length (filter p K) = 1 ->
  Permutation (flat_map (fun k => if p k then b :: F k else F k) K)
              (b :: flat_map F K).
Proof.
  induction K as [|k K IH]; cbn [filter flat_map]; [discriminate |].
  destruct (p k) eqn:E; cbn [List.length]; intros H.
  - injection H as H. apply List.length_zero_iff_nil in H.
    cbn [app]. constructor. apply Permutation_app_head.
    assert (G : forall k', In k' K -> p k' = false).
    { intros k' Hk. destruct (p k') eqn:E'; [| reflexivity].
      assert (In k' (filter p K)) by (apply filter_In; now split).
      rewrite H in *. contradiction. }
    clear -G. induction K as [|k' K IH]; [reflexivity |].
    cbn [flat_map]. rewrite (G k' (or_introl eq_refl)).
    apply Permutation_app_head, IH. intros; apply G; now right.
  - rewrite (IH H). symmetry. apply Permutation_middle.
Qed.

Lemma group_partition (key : row -> cell) (K : list cell) (L : list row) :
  (forall l, In l L -> List.length (filter (key_eqb (key l)) K) = 1) ->
  Permutation
    (flat_map (fun k => filter (fun l => key_eqb (key l) k) L) K) L.
Proof.
  induction L as [|l L IH]; intros H.
  - cbn [filter]. clear H.
    induction K as [|k K IHK]; [reflexivity | cbn [flat_map app]; exact IHK].
  - cbn [filter].
    rewrite (insert_once (key_eqb (key l))
               (fun k => filter (fun l' => key_eqb (key l') k) L) l K).
    + constructor. apply IH. intros; apply H; now right.
    + apply H. now left.
Qed.

Lemma map_flat_map {A B C : Type} (f : B -> C) (g : A -> list B) (K : list A) :
  flat_map (fun k => map f (g k)) K = map f (flat_map g K).
Proof.
  induction K as [|k K IH]; [reflexivity |].
  cbn [flat_map]. now rewrite map_app, IH.
Qed.

Lemma sorted_distinct_count (ks : list cell) (k : cell) :
  In k ks ->
  List.length (filter (key_eqb k) (sort_keys (distinct_keys ks))) = 1.
Proof.
  intros Hk.
  assert (P : Permutation (filter (key_eqb k) (sort_keys (distinct_keys ks)))
                          (filter (key_eqb k) (distinct_keys ks))).
  { clear Hk. generalize (sort_keys_perm (distinct_keys ks)).
    generalize (sort_keys (distinct_keys ks)) (distinct_keys ks).
    intros l1 l2 P. induction P; cbn [filter].
    - reflexivity.
    - destruct (key_eqb k x); [now constructor | assumption].
    - destruct (key_eqb k x), (key_eqb k y); try reflexivity. apply perm_swap.
    - etransitivity; eassumption. }
  rewrite (Permutation_length P), distinct_keys_count.
  replace (existsb (key_eqb k) ks) with true; [reflexivity |].
  symmetry. apply existsb_exists. exists k. split; [exact Hk | apply key_eqb_refl].
Qed.

Lemma merge_rows_right_empty (ki kj wl wr : nat) (L : list row) :
  Permutation (merge_rows ki kj wl wr L []) (map (left_only wr) L).
Proof.
  unfold merge_rows. cbn [map]. rewrite app_nil_r.
  assert (E : forall k,
             merge_group ki kj wl wr L [] k
             = map (left_only wr) (filter (fun l => key_eqb (cell_at ki l) k) L)).
  { intros k. unfold merge_group. cbn [filter].
    now destruct (filter (fun l => key_eqb (cell_at ki l) k) L). }
  rewrite (flat_map_ext _ _ E), map_flat_map.
  apply Permutation_map, group_partition.
  intros l Hl. apply sorted_distinct_count. now apply in_map.
Qed.

Lemma merge_rows_left_empty (ki kj wl wr : nat) (R : list row) :
  Permutation (merge_rows ki kj wl wr [] R) (map (right_only ki kj wl) R).
Proof.
  unfold merge_rows. cbn [map app].
  assert (E : forall k,
             merge_group ki kj wl wr [] R k
             = map (right_only ki kj wl)
                   (filter (fun r => key_eqb (cell_at kj r) k) R)).
  { intros k. reflexivity. }
  rewrite (flat_map_ext _ _ E), map_flat_map.
  apply Permutation_map, group_partition.
  intros r Hr. apply sorted_distinct_count. now apply in_map.
Qed.

(** What lines 83-84 do to a projected baseline row. *)
Definition normalize (l : row) : row :=
  let l' := set_nth e_country (str_cell PyStr.upper (cell_at e_country l)) l in
  set_nth 1 (str_cell PyStr.lower (cell_at 1 l')) l'.

Lemma process_existing_ok (existing_sample : DataFrame) (filter : string)
      (ep : DataFrame) :
  process_existing existing_sample filter = Ok ep ->
  exists fp,
    filter_project existing_sample filter existing_columns = Ok fp
    /\ rows ep = map normalize (rows fp).
Proof.
  unfold process_existing. intros H. inv_bind H. exists a.
  split; [exact Ha |].
  destruct (filter_project_shape _ _ _ _ Ha) as [Hc Hr]. clear Ha.
  destruct a as [cols rs]. cbn [columns rows] in *.
  unfold existing_columns in Hc. explicit_columns Hc.
  unfold getitem, str_upper, str_lower, str_map in H.
  cbn [columns rows lookup_column find_column String.eqb Ascii.eqb Bool.eqb
       bind fst snd] in H.
  destruct (str_accessor _) as [[]|] in H; [| discriminate H].
  cbn [bind setitem columns rows find_column String.eqb Ascii.eqb Bool.eqb
       set_dtype s_dtype values lookup_column fst snd] in H.
  destruct (str_accessor _) as [[]|] in H; [| discriminate H].
  cbn [bind setitem columns rows find_column String.eqb Ascii.eqb Bool.eqb
       set_dtype s_dtype values] in H.
  injection H as <-. cbn [rows].
  transitivity
    (zip_with (fun r v => set_nth 1 v r)
       (zip_with (fun r v => set_nth e_country v r) rs
          (map (str_cell PyStr.upper) (map (cell_at e_country) rs)))
       (map (str_cell PyStr.lower)
          (map (cell_at 1)
             (zip_with (fun r v => set_nth e_country v r) rs
                (map (str_cell PyStr.upper) (map (cell_at e_country) rs))))));
    [reflexivity |].
  rewrite (map_map (cell_at e_country) (str_cell PyStr.upper)).
  rewrite (zip_with_map (fun r v => set_nth e_country v r)
             (fun r => str_cell PyStr.upper (cell_at e_country r))).
  rewrite (map_map (cell_at 1) (str_cell PyStr.lower)).
  rewrite (zip_with_map (fun r v => set_nth 1 v r)
             (fun r => str_cell PyStr.lower (cell_at 1 r))).
  rewrite map_map. reflexivity.
Qed.

Lemma process_existing_no_rows (existing_sample : DataFrame) (filter : string)
      (ep : DataFrame) :
  rows existing_sample = [] ->
  process_existing existing_sample filter = Ok ep -> rows ep = [].
Proof.
  intros E H. destruct (process_existing_ok _ _ _ H) as (fp & Hf & ->).
  apply filter_project_ok in Hf. destruct Hf as (i & d & ps & _ & _ & _ & ->).
  cbn [rows]. now rewrite E.
Qed.

Lemma process_metric_no_rows (metric : DataFrame) (filter : string)
      (mp : DataFrame) :
  rows metric = [] -> process_metric metric filter = Ok mp -> rows mp = [].
Proof.
  intros E H. apply filter_project_ok in H.
  destruct H as (i & d & ps & _ & _ & _ & ->). cbn [rows]. now rewrite E.
Qed.

Lemma process_metric_country_dtype (metric : DataFrame) (filter : string)
      (mp : DataFrame) (i : nat) (d : dtype) :
  process_metric metric filter = Ok mp ->
  find_column "country" (columns metric) = Some (i, d) ->
  find_column "country" (columns mp) = Some (m_country, d).
Proof.
  intros H Hc. apply filter_project_ok in H.
  destruct H as (j & dj & ps & _ & _ & Hps & ->). cbn [columns].
  unfold metric_columns in *.
  repeat (apply mapM_ok_cons in Hps;
          destruct Hps as (? & ? & ? & Hps & ->)).
  injection Hps as <-.
  repeat match goal with
         | H : lookup_column "country" _ = _ |- _ =>
             unfold lookup_column in H; rewrite Hc in H; injection H as <-
         end.
  reflexivity.
Qed.

(** A cell [astype(float)] accepts. *)
Definition coercible (c : cell) : Prop := exists x, float_of_cell c = Ok x.

Definition to_float (c : cell) : float :=
  match float_of_cell c with Ok x => x | Raise _ => nan end.

(** The output row of a baseline row without partner, and of a new row
    without partner. *)
Definition baseline_only_row (l : row) : row :=
  [cell_at 1 l; cell_at e_country l; cell_at 3 l; cell_at 4 l; NaN;
   CNum (PyFloat.np_round2 (to_float (cell_at 6 l))); NaN; NaN; CNone].

Definition metric_only_row (q : row) : row :=
  [NaN; cell_at m_country q; NaN; NaN; cell_at 2 q; NaN;
   CNum (PyFloat.np_round2 (PrimFloat.mul (to_float (cell_at 3 q)) 100%float));
   cell_at 6 q; CNone].

Lemma output_row_left_only (l : row) :
  List.length l = 9 -> coercible (cell_at 6 l) ->
  output_row (left_only 10 l) = Ok (baseline_only_row l).
Proof.
  intros Hl [x Hx]. explicit_row Hl.
  unfold baseline_only_row, to_float. cbn [cell_at nth] in *. rewrite Hx.
  unfold output_row, left_only, j_match, j_metric_value.
  cbn [cell_at nth app repeat Nat.sub].
  rewrite Hx. unfold derived_cell. reflexivity.
Qed.

Lemma output_row_right_only (q : row) :
  List.length q = 10 -> coercible (cell_at 3 q) ->
  output_row (right_only e_country m_country 9 q) = Ok (metric_only_row q).
Proof.
  intros Hq [x Hx]. explicit_row Hq.
  unfold metric_only_row, to_float. cbn [cell_at nth] in *. rewrite Hx.
  unfold output_row, right_only, j_match, j_metric_value, e_country, m_country,
    drop_nth.
  cbn [cell_at nth app repeat set_nth firstn skipn].
  rewrite Hx. unfold derived_cell.
  destruct (notnull c2); reflexivity.
Qed.

Lemma mapM_pointwise {A B : Type} (f : A -> result B) (g : A -> B) (l : list A) :
  (forall a, In a l -> f a = Ok (g a)) -> mapM f l = Ok (map g l).
Proof.
  induction l as [|a l IH]; intros H; [reflexivity |].
  cbn. rewrite (H a (or_introl eq_refl)). cbn.
  rewrite IH; [reflexivity | intros; apply H; now right].
Qed.

Lemma one_sided_output (X L : list row) (side out_row : row -> row) :
  Permutation X (map side L) ->
  (forall l, In l L -> output_row (side l) = Ok (out_row l)) ->
  exists rs, mapM output_row X = Ok rs /\ Permutation rs (map out_row L).
Proof.
  intros P H.
  set (g := fun x => match output_row x with Ok r => r | Raise _ => [] end).
  exists (map g X). split.
  - apply mapM_pointwise. intros x Hx.
    apply (Permutation_in _ P) in Hx. apply in_map_iff in Hx.
    destruct Hx as (l & <- & Hl). unfold g. now rewrite (H l Hl).
  - rewrite (Permutation_map g P), map_map.
    erewrite map_ext_in; [reflexivity |].
    intros l Hl. unfold g. now rewrite (H l Hl).
Qed.

Lemma merge_keys_ok_one_side (d : dtype) (lk rk : list cell) :
  lk = [] \/ rk = [] ->
  (lk = [] -> rk = [] -> d <> float64) ->
  merge_keys_ok object d lk rk = true.
Proof.
  intros H Hd. unfold merge_keys_ok.
  destruct lk as [|a lk], rk as [|b rk]; cbn [is_nil xorb];
    try reflexivity.
  - destruct d; cbn; try reflexivity. now elim (Hd eq_refl eq_refl).
  - destruct H; discriminate.
Qed.

(** C8, as the code has it: both tables being filtered and projected,
    (1) when the new report has no rows and every baseline [metric_value]
    kept by the filter can be coerced to float, [compare_reports] returns
    exactly the output rows of the baseline rows, each with nan in the
    fields of the new side; (2) symmetrically when the baseline has no
    rows and every [match] kept can be coerced; (3) when both have no rows
    the output has none. The country column of the new report may have any
    dtype, except that a [float64] one is not joined with a baseline that
    has no row left either: (4) [compare_reports] then raises
    [ValueError]. *)
Theorem compare_reports_one_side_empty
        (existing_sample metric : DataFrame) (filter : string)
        (ep mp : DataFrame) (i : nat) (d : dtype) :
  process_existing existing_sample filter = Ok ep ->
  process_metric metric filter = Ok mp ->
  find_column "country" (columns metric) = Some (i, d) ->
  (rows metric = [] ->
   (rows ep = [] -> d <> float64) ->
   Forall (fun l => coercible (cell_at 6 l)) (rows ep) ->
   exists out,
     compare_reports existing_sample metric filter = Ok out
     /\ Permutation (rows out) (map baseline_only_row (rows ep)))
  /\ (rows existing_sample = [] ->
      (rows mp = [] -> d <> float64) ->
      Forall (fun q => coercible (cell_at 3 q)) (rows mp) ->
      exists out,
        compare_reports existing_sample metric filter = Ok out
        /\ Permutation (rows out) (map metric_only_row (rows mp)))
  /\ (rows existing_sample = [] -> rows metric = [] -> d <> float64 ->
      exists out,
        compare_reports existing_sample metric filter = Ok out
        /\ rows out = [])
  /\ (rows ep = [] -> rows mp = [] -> d = float64 ->
      compare_reports existing_sample metric filter = Raise ValueError).
Proof.
  intros Pe Pm Hc.
  destruct (process_existing_shape _ _ _ Pe) as [_ Le].
  destruct (process_metric_shape _ _ _ Pm) as [_ Lm].
  pose proof (proj1 (Forall_forall _ _) Le) as Le'.
  pose proof (proj1 (Forall_forall _ _) Lm) as Lm'.
  cbv beta in Le', Lm'.
  destruct (compare_reports_unfold _ _ _ _ _ Pe Pm) as [_ U].
  destruct U as (dk & d1 & d3 & d4 & e2 & e6 & e8 & Ec & Bad & U).
  rewrite (process_metric_country_dtype _ _ _ _ _ Pm Hc) in Ec.
  injection Ec as <-.
  assert (Left : rows mp = [] ->
                 (rows ep = [] -> d <> float64) ->
                 Forall (fun l => coercible (cell_at 6 l)) (rows ep) ->
                 exists out,
                   compare_reports existing_sample metric filter = Ok out
                   /\ Permutation (rows out) (map baseline_only_row (rows ep))).
  { intros Em Hd Hco.
    pose proof (proj1 (Forall_forall _ _) Hco) as Hco'. cbv beta in Hco'.
    destruct (one_sided_output (joined_rows ep mp) (rows ep)
                (left_only 10) baseline_only_row) as (rs & Hrs & P).
    - unfold joined_rows. rewrite Em. apply merge_rows_right_empty.
    - intros l Hl. apply output_row_left_only; auto.
    - exists (mkFrame (output_schema dk d1 d3 d4 e2 e6
                         (derived_dtype (joined_rows ep mp))) rs).
      split; [| exact P].
      apply U. split.
      + apply merge_keys_ok_one_side.
        * right. now rewrite Em.
        * intros E _. apply Hd.
          destruct (rows ep); [reflexivity | discriminate E].
      + exists rs. split; [exact Hrs | reflexivity]. }
  assert (Right : rows ep = [] ->
                  (rows mp = [] -> d <> float64) ->
                  Forall (fun q => coercible (cell_at 3 q)) (rows mp) ->
                  exists out,
                    compare_reports existing_sample metric filter = Ok out
                    /\ Permutation (rows out) (map metric_only_row (rows mp))).
  { intros Ee Hd Hco.
    pose proof (proj1 (Forall_forall _ _) Hco) as Hco'. cbv beta in Hco'.
    destruct (one_sided_output (joined_rows ep mp) (rows mp)
                (right_only e_country m_country 9) metric_only_row)
      as (rs & Hrs & P).
    - unfold joined_rows. rewrite Ee. apply merge_rows_left_empty.
    - intros q Hq. apply output_row_right_only; auto.
    - exists (mkFrame (output_schema dk d1 d3 d4 e2 e6
                         (derived_dtype (joined_rows ep mp))) rs).
      split; [| exact P].
      apply U. split.
      + apply merge_keys_ok_one_side.
        * left. now rewrite Ee.
        * intros _ E. apply Hd.
          destruct (rows mp); [reflexivity | discriminate E].
      + exists rs. split; [exact Hrs | reflexivity]. }
  split; [| split; [| split]].
  - intros Em. apply Left. exact (process_metric_no_rows _ _ _ Em Pm).
  - intros Ee. apply Right. exact (process_existing_no_rows _ _ _ Ee Pe).
  - intros Ee Em Hd.
    pose proof (process_metric_no_rows _ _ _ Em Pm) as Em'.
    pose proof (process_existing_no_rows _ _ _ Ee Pe) as Ee'.
    destruct (Left Em') as (out & Ho & P);
      [intros _; exact Hd | rewrite Ee'; constructor |].
    exists out. split; [exact Ho |].
    rewrite Ee' in P. cbn [map] in P. now apply Permutation_nil.
  - intros Ee Em ->. apply Bad. now rewrite Ee, Em.
Qed.

Lemma compare_reports_one_side_empty_witness :
  exists ep mp out,
    process_existing Samples.baseline "asf" = Ok ep
    /\ process_metric Samples.empty_report "asf" = Ok mp
    /\ compare_reports Samples.baseline Samples.empty_report "asf" = Ok out
    /\ Permutation (rows out) (map baseline_only_row (rows ep)).
Proof.
  eexists _, _.
  assert (E1 : process_existing Samples.baseline "asf" = Ok _)
    by (vm_compute; reflexivity).
  assert (E2 : process_metric Samples.empty_report "asf" = Ok _)
    by (vm_compute; reflexivity).
  destruct (compare_reports_one_side_empty
              Samples.baseline Samples.empty_report "asf" _ _ 8 object
              E1 E2 eq_refl)
    as (H & _ & _).
  destruct (H eq_refl) as (out & Ho & P).
  - intros _. discriminate.
  - repeat constructor; eexists; vm_compute; reflexivity.
  - exists out. exact (conj E1 (conj E2 (conj Ho P))).
Defined.

(** ** Following one row through the filter and the projection *)

Lemma Forall2_nth_error {A B : Type} (P : A -> B -> Prop) (l : list A)
      (l' : list B) (j : nat) (a : A) :
  Forall2 P l l' -> nth_error l j = Some a ->
  exists b, nth_error l' j = Some b /\ P a b.
Proof.
  intros H. revert j. induction H as [|x y l l' Hxy H IH]; intros [|j] Hj;
    cbn in Hj; try discriminate.
  - injection Hj as <-. now exists y.
  - destruct (IH j Hj) as (b & Hb & Pb). now exists b.
Qed.

Lemma cell_at_map {A : Type} (f : A -> cell) (l : list A) (j : nat) (a : A) :
  nth_error l j = Some a -> cell_at j (map f l) = f a.
Proof.
  revert j. induction l as [|x l IH]; intros [|j] H; cbn in H;
    try discriminate.
  - now injection H as <-.
  - cbn. now apply IH.
Qed.

Lemma row_getitem_ok (cols : list (string * dtype)) (r : row) (n : string)
      (c : cell) :
  row_getitem cols r n = Ok c <->
  exists i d, find_column n cols = Some (i, d) /\ c = cell_at i r.
Proof.
  unfold row_getitem, lookup_column.
  destruct (find_column n cols) as [[i d]|]; cbn.
  - split.
    + intros [= <-]. now exists i, d.
    + now intros (i' & d' & [= <- <-] & ->).
  - split; [discriminate | now intros (i' & d' & [=] & _)].
Qed.

Lemma filter_project_row (table : DataFrame) (filter : string)
      (wanted : list string) (out : DataFrame) (r : row) (y : string) :
  filter_project table filter wanted = Ok out ->
  In r (rows table) ->
  row_getitem (columns table) r "metric" = Ok (CStr y) ->
  PyStr.lower y = PyStr.lower filter ->
  exists r',
    In r' (rows out)
    /\ forall j n c,
        nth_error wanted j = Some n ->
        row_getitem (columns table) r n = Ok c ->
        cell_at j r' = c.
Proof.
  intros H Hr Hy Hl. apply filter_project_ok in H.
  destruct H as (i & d & ps & Hm & _ & Hps & ->). cbn [rows].
  apply row_getitem_ok in Hy. destruct Hy as (i' & d' & Hm' & Hy).
  rewrite Hm in Hm'. injection Hm' as <- <-.
  exists (map (fun p => cell_at (fst p) r) ps). split.
  - apply in_map_iff. exists r. split; [reflexivity |].
    apply filter_In. split; [exact Hr |].
    unfold label_matches. rewrite <- Hy, Hl. apply String.eqb_refl.
  - intros j n c Hj Hc. apply mapM_ok_Forall2 in Hps.
    destruct (Forall2_nth_error _ _ _ _ _ Hps Hj) as (p & Hp & Lp).
    rewrite (cell_at_map _ _ _ _ Hp).
    apply row_getitem_ok in Hc. destruct Hc as (i' & d' & Hf & ->).
    unfold lookup_column in Lp. rewrite Hf in Lp. now injection Lp as <-.
Qed.

(** ** The worked example (C6) *)

(** C6: when the baseline holds a row with country ["us"], metric ["ASF"]
    and metric_value [91.23], and the new report a row with country
    ["US"], metric ["asf"] and match [0.9350], every table
    [compare_reports] returns for the filter ["asf"] has a row with
    country ["US"], metric_existing [91.23], metric_new [93.5] and
    comparison_metric_value ["93.50 (2)"]: the baseline country is put in
    upper case before the join. *)
Theorem scenario_us_asf
        (existing_sample metric out : DataFrame) (rb rn : row) :
  In rb (rows existing_sample) ->
  row_getitem (columns existing_sample) rb "country" = Ok (CStr "us") ->
  row_getitem (columns existing_sample) rb "metric" = Ok (CStr "ASF") ->
  row_getitem (columns existing_sample) rb "metric_value"
  = Ok (CNum 91.23%float) ->
  In rn (rows metric) ->
  row_getitem (columns metric) rn "country" = Ok (CStr "US") ->
  row_getitem (columns metric) rn "metric" = Ok (CStr "asf") ->
  row_getitem (columns metric) rn "match" = Ok (CNum 0.9350%float) ->
  compare_reports existing_sample metric "asf" = Ok out ->
  exists r,
    In r (rows out)
    /\ cell_at o_label r = CStr "asf"
    /\ cell_at o_country r = CStr "US"
    /\ cell_at o_metric_existing r = CNum 91.23%float
    /\ cell_at o_metric_new r = CNum 93.5%float
    /\ cell_at o_comparison r = CStr "93.50 (2)".
Proof.
  intros Hb Bc Bm Bv Hn Nc Nm Nv H.
  destruct (process_existing existing_sample "asf") as [ep|e] eqn:Pe;
    [| unfold compare_reports in H; rewrite Pe in H; discriminate H].
  destruct (process_metric metric "asf") as [mp|e] eqn:Pm;
    [| unfold compare_reports in H; rewrite Pe, Pm in H; discriminate H].
  destruct (compare_reports_rows _ _ _ _ _ _ Pe Pm H) as (Le & Lm & F).
  (* the baseline row, processed *)
  destruct (process_existing_ok _ _ _ Pe) as (fp & Hfp & Erows).
  destruct (filter_project_row _ _ _ _ rb "ASF" Hfp Hb Bm eq_refl)
    as (b' & Hb' & Cb).
  pose proof (Cb 1 _ _ eq_refl Bm) as B1.
  pose proof (Cb 2 _ _ eq_refl Bc) as B2.
  pose proof (Cb 6 _ _ eq_refl Bv) as B6.
  destruct (filter_project_shape _ _ _ _ Hfp) as [_ Lfp].
  pose proof (proj1 (Forall_forall _ _) Lfp b' Hb') as Lb'. cbv beta in Lb'.
  assert (Hl : In (normalize b') (rows ep))
    by (rewrite Erows; now apply in_map).
  pose proof (proj1 (Forall_forall _ _) Le _ Hl) as Ll. cbv beta in Ll.
  assert (L1 : cell_at 1 (normalize b') = CStr "asf"
               /\ cell_at e_country (normalize b') = CStr "US"
               /\ cell_at 6 (normalize b') = CNum 91.23%float).
  { clear -B1 B2 B6 Lb'. unfold existing_columns in Lb'. cbn [List.length] in Lb'.
    explicit_row Lb'. cbn [cell_at nth] in B1, B2, B6. subst.
    repeat split. }
  destruct L1 as (L1 & L2 & L6).
  (* the row of the new report, projected *)
  destruct (filter_project_row _ _ _ _ rn "asf" Pm Hn Nm eq_refl)
    as (q & Hq & Cq).
  pose proof (Cq 3 _ _ eq_refl Nv) as Q3.
  pose proof (Cq 8 _ _ eq_refl Nc) as Q8.
  pose proof (proj1 (Forall_forall _ _) Lm q Hq) as Lq. cbv beta in Lq.
  (* they are joined *)
  assert (E : key_eqb (cell_at e_country (normalize b')) (cell_at m_country q)
              = true).
  { unfold m_country. rewrite L2, Q8. reflexivity. }
  pose proof (merge_rows_paired e_country m_country 9 10 _ _ _ q Hl Hq E) as Hx.
  destruct (Forall2_in_left _ _ _ _ F Hx) as (r & Hr & Or).
  exists r. split; [exact Hr |].
  destruct (output_row_cells _ _ Or) as (v & new & old & Dv & Fn & Fo & ->).
  destruct (paired_cells _ q Ll Lq) as (P1 & P2 & _ & _ & P6 & _ & P12 & _).
  cbv zeta in P1, P2, P6, P12.
  rewrite P12, P6, Q3, L6 in Dv. rewrite P12, Q3 in Fn. rewrite P6, L6 in Fo.
  injection Fn as <-. injection Fo as <-.
  vm_compute in Dv. injection Dv as <-.
  unfold o_label, o_country, o_metric_existing, o_metric_new, o_comparison.
  cbn [cell_at nth].
  fold (cell_at j_label (paired m_country (normalize b') q)).
  fold (cell_at j_country (paired m_country (normalize b') q)).
  rewrite P1, P2, L1, L2.
  repeat split.
Qed.

Lemma scenario_us_asf_witness :
  exists r,
    In r match compare_reports Samples.baseline Samples.report "asf" with
         | Ok out => rows out
         | Raise _ => []
         end
    /\ cell_at o_label r = CStr "asf"
    /\ cell_at o_country r = CStr "US"
    /\ cell_at o_metric_existing r = CNum 91.23%float
    /\ cell_at o_metric_new r = CNum 93.5%float
    /\ cell_at o_comparison r = CStr "93.50 (2)".
Proof.
  assert (E : compare_reports Samples.baseline Samples.report "asf" = Ok _)
    by (vm_compute; reflexivity).
  rewrite E.
  apply (scenario_us_asf Samples.baseline Samples.report _
           (Samples.baseline_row "ASF" "us" (CNum 91.23%float))
           (Samples.metric_row "asf" "US" (CNum 0.9350%float)));
    try reflexivity; try exact E; simpl; tauto.
Defined.

(** ** The filter and projection step (C9) *)

(** The cell of row [r] in the column called [n]. *)
Definition column_cell (table : DataFrame) (n : string) (r : row) : cell :=
  match find_column n (columns table) with
  | Some (j, _) => cell_at j r
  | None => NaN
  end.

(** A text column as [read_csv] builds it: strings and missing values. *)
Definition text_cell (c : cell) : Prop := is_str c = true \/ notnull c = false.

Lemma str_accessor_text (cells : list cell) :
  Forall text_cell cells -> str_accessor (mkSeries object cells) = Ok tt.
Proof.
  intros H. unfold str_accessor. cbn [s_dtype values].
  destruct (List.filter notnull cells) as [|c cs] eqn:E; [reflexivity |].
  assert (Hc : In c (List.filter notnull cells)) by (rewrite E; now left).
  apply filter_In in Hc. destruct Hc as [Hc Nc].
  destruct (proj1 (Forall_forall _ _) H c Hc) as [S | N]; [| congruence].
  cbn [existsb]. now rewrite S.
Qed.





(** ** The coercion to float (C3) *)

(** Once the join and the derived column have passed, the rest can only
    fail in [astype(float)]. *)
Lemma finish_after_join
      (existing_sample metric : DataFrame) (filter : string)
      (ep mp joined : DataFrame) (e : exn) :
  process_existing existing_sample filter = Ok ep ->
  process_metric metric filter = Ok mp ->
  join_and_derive ep mp = Ok joined ->
  finish joined = Raise e -> e = ValueError.
Proof.
  intros Pe Pm J F.
  destruct (process_existing_shape _ _ _ Pe)
    as [(d0 & d3 & d4 & d5 & d6 & d7 & d8 & Ce) _].
  destruct (process_metric_shape _ _ _ Pm)
    as [(e0 & e1 & e2 & e3 & e4 & e5 & e6 & e7 & e8 & e9 & Cm) _].
  destruct (merge_shaped ep mp _ _ _ _ _ _ _ _ _ _ _ _ _ _ _ _ _ Ce Cm)
    as (dk & d0' & d1' & d3' & d4' & d5' & d6' & d7' & d8' & e0' & e1' & e2'
        & e3' & e4' & e5' & e6' & e7' & e9' & M).
  unfold join_and_derive in J. rewrite M in J.
  destruct (merge_keys_ok _ _ _ _); [| discriminate J]. cbn [bind] in J.
  rewrite derive_stage in J.
  destruct (stage_values (joined_rows ep mp)) as [vs|e']; [| discriminate J].
  cbn [bind setitem_applied] in J. injection J as <-.
  rewrite finish_stage in F.
  exact (stage_rows_error _ _ _ _ _ _ _ _ _ _ F).
Qed.

(** C3, as the code has it: [astype(float)] keeps numbers and nulls and
    parses strings as [float()] does. In every table [compare_reports]
    returns, metric_new is [round(float(match) * 100, 2)] and
    metric_existing is [round(float(metric_value), 2)], row by row along
    the joined rows; and when a joined row holds, as [match] or
    [metric_value], a string that [float()] refuses, [compare_reports]
    returns no table: it raises, and what it raises is the [ValueError] of
    the coercion whenever the join and the derived column have passed. *)
Theorem coercion_is_strict
        (existing_sample metric : DataFrame) (filter : string)
        (ep mp : DataFrame) :
  process_existing existing_sample filter = Ok ep ->
  process_metric metric filter = Ok mp ->
  (forall out,
      compare_reports existing_sample metric filter = Ok out ->
      Forall2
        (fun x r =>
           exists new old,
             float_of_cell (cell_at j_match x) = Ok new
             /\ float_of_cell (cell_at j_metric_value x) = Ok old
             /\ cell_at o_metric_new r
                = CNum (PyFloat.np_round2 (PrimFloat.mul new 100%float))
             /\ cell_at o_metric_existing r = CNum (PyFloat.np_round2 old))
        (joined_rows ep mp) (rows out))
  /\ (forall x s,
         In x (joined_rows ep mp) ->
         cell_at j_match x = CStr s \/ cell_at j_metric_value x = CStr s ->
         PyFloat.float_of_string s = None ->
         (exists e, compare_reports existing_sample metric filter = Raise e)
         /\ forall joined,
             join_and_derive ep mp = Ok joined ->
             finish joined = Raise ValueError
             /\ compare_reports existing_sample metric filter
                = Raise ValueError).
Proof.
  intros Pe Pm. split.
  - intros out H.
    destruct (compare_reports_rows _ _ _ _ _ _ Pe Pm H) as (_ & _ & F).
    eapply Forall2_impl; [| exact F].
    intros x r Or.
    destruct (output_row_cells _ _ Or) as (v & new & old & _ & Fn & Fo & ->).
    now exists new, old.
  - intros x s Hx Hs Hnone.
    assert (R : exists e, compare_reports existing_sample metric filter = Raise e).
    { destruct (compare_reports existing_sample metric filter) as [out|e] eqn:H;
        [| now exists e].
      exfalso.
      destruct (compare_reports_rows _ _ _ _ _ _ Pe Pm H) as (_ & _ & F).
      destruct (Forall2_in_left _ _ _ _ F Hx) as (r & _ & Or).
      destruct (output_row_cells _ _ Or) as (v & new & old & _ & Fn & Fo & _).
      destruct Hs as [Hs | Hs]; [rewrite Hs in Fn | rewrite Hs in Fo];
        cbn [float_of_cell] in *; rewrite Hnone in *; discriminate. }
    split; [exact R |].
    intros joined J. destruct R as (e & R).
    assert (F : finish joined = Raise e).
    { unfold compare_reports in R. rewrite Pe, Pm in R. cbn [bind] in R.
      now rewrite J in R. }
    pose proof (finish_after_join _ _ _ _ _ _ _ Pe Pm J F) as ->.
    now split.
Qed.

Lemma coercion_is_strict_witness :
  exists ep mp e,
    process_existing Samples.text_baseline "asf" = Ok ep
    /\ process_metric Samples.report "asf" = Ok mp
    /\ compare_reports Samples.text_baseline Samples.report "asf" = Raise e.
Proof.
  eexists _, _.
  assert (E1 : process_existing Samples.text_baseline "asf" = Ok _)
    by (vm_compute; reflexivity).
  assert (E2 : process_metric Samples.report "asf" = Ok _)
    by (vm_compute; reflexivity).
  destruct (coercion_is_strict _ _ _ _ _ E1 E2) as [_ H].
  destruct (H (left_only 10 [CStr "run-7"; CStr "asf"; CStr "DE"; CStr "acme";
                             CStr "geocoder"; CStr "s-1"; CStr "unknown";
                             CNum 90%float; CNum 92%float]) "unknown"%string)
    as [[e He] _].
  - vm_compute. tauto.
  - right. reflexivity.
  - reflexivity.
  - exists e. exact (conj E1 (conj E2 He)).
Defined.

(** C3 as stated fails: an unparsable baseline value of a country without
    partner passes the join and the derived column, and the coercion of
    line 116 raises [ValueError]. *)
Lemma unparsable_value_raises :
  compare_reports Samples.text_baseline Samples.report "asf" = Raise ValueError
  /\ exists ep mp joined,
      process_existing Samples.text_baseline "asf" = Ok ep
      /\ process_metric Samples.report "asf" = Ok mp
      /\ join_and_derive ep mp = Ok joined
      /\ finish joined = Raise ValueError.
Proof.
  split; [vm_compute; reflexivity |].
  eexists _, _, _.
  split; [vm_compute; reflexivity |].
  split; [vm_compute; reflexivity |].
  split; [vm_compute; reflexivity |].
  vm_compute; reflexivity.
Qed.

(** C8 as stated fails: with an empty new report, a baseline holding an
    unparsable [metric_value] makes [compare_reports] raise. *)
Lemma empty_side_can_fail :
  rows Samples.empty_report = []
  /\ compare_reports Samples.text_baseline Samples.empty_report "asf"
     = Raise ValueError.
Proof.
  split; [reflexivity | vm_compute; reflexivity].
Qed.

(** * Further properties *)

(** ** The table [compare_reports] returns *)

Lemma compare_reports_sides (existing_sample metric : DataFrame)
      (filter : string) (out : DataFrame) :
  compare_reports existing_sample metric filter = Ok out ->
  exists ep mp,
    process_existing existing_sample filter = Ok ep
    /\ process_metric metric filter = Ok mp.
Proof.
  intros H. unfold compare_reports in H.
  destruct (process_existing existing_sample filter) as [ep|e];
    [| discriminate H].
  destruct (process_metric metric filter) as [mp|e]; [| discriminate H].
  now exists ep, mp.
Qed.

(** X1: a returned table always has the same nine columns, in this order,
    two of them called [metric_existing] (the label, then the rounded
    baseline value); the two rounded columns are [float64]; the derived
    column is [object] when the table has rows and [float64] when it has
    none (what [apply] gives on an empty frame); and every row has nine
    cells. *)
Theorem compare_reports_schema
        (existing_sample metric : DataFrame) (filter : string)
        (out : DataFrame) :
  compare_reports existing_sample metric filter = Ok out ->
  map fst (columns out)
  = ["metric_existing"; "country"; "provider"; "product"; "sample_size";
     "metric_existing"; "metric_new"; "matching_run_id";
     "comparison_metric_value"]
  /\ nth_error (map snd (columns out)) o_metric_existing = Some float64
  /\ nth_error (map snd (columns out)) o_metric_new = Some float64
  /\ nth_error (map snd (columns out)) o_comparison
     = Some (if is_nil (rows out) then float64 else object)
  /\ Forall (fun r => List.length r = 9) (rows out).
Proof.
  intros H. destruct (compare_reports_sides _ _ _ _ H) as (ep & mp & Pe & Pm).
  destruct (compare_reports_rows _ _ _ _ _ _ Pe Pm H) as (_ & _ & F).
  destruct (compare_reports_unfold _ _ _ _ _ Pe Pm) as [_ U].
  destruct U as (dk & d1 & d3 & d4 & e2 & e6 & e8 & _ & _ & U).
  apply U in H. destruct H as (_ & rs & _ & ->).
  cbn [columns rows] in *. split; [reflexivity |].
  split; [reflexivity |]. split; [reflexivity |]. split.
  - cbn. unfold derived_dtype. f_equal.
    destruct F; reflexivity.
  - apply Forall_forall. intros r Hr.
    destruct (Forall2_in_right _ _ _ _ F Hr) as (x & _ & Or).
    destruct (output_row_cells _ _ Or) as (v & new & old & _ & _ & _ & ->).
    reflexivity.
Qed.

(** The sample baseline has no PSF row and the empty report none at all:
    the comparison has no rows. *)
Lemma compare_reports_schema_witness :
  exists out,
    compare_reports Samples.baseline Samples.empty_report "psf" = Ok out
    /\ map fst (columns out)
       = ["metric_existing"; "country"; "provider"; "product"; "sample_size";
          "metric_existing"; "metric_new"; "matching_run_id";
          "comparison_metric_value"]
    /\ nth_error (map snd (columns out)) o_comparison = Some float64.
Proof.
  eexists.
  assert (E : compare_reports Samples.baseline Samples.empty_report "psf"
              = Ok _)
    by (vm_compute; reflexivity).
  destruct (compare_reports_schema _ _ _ _ E) as (H1 & _ & _ & H2 & _).
  exact (conj E (conj H1 H2)).
Defined.

(** The derived cell of a joined pair, when the lambda does not raise. *)
Definition comparison_cell (m v : cell) : cell :=
  match derived_cell m v with Ok c => c | Raise _ => CNone end.

(** The output row of a baseline row [l] joined with a new row [q]. *)
Definition paired_row (l q : row) : row :=
  [cell_at 1 l; cell_at e_country l; cell_at 3 l; cell_at 4 l; cell_at 2 q;
   CNum (PyFloat.np_round2 (to_float (cell_at 6 l)));
   CNum (PyFloat.np_round2 (PrimFloat.mul (to_float (cell_at 3 q)) 100%float));
   cell_at 6 q; comparison_cell (cell_at 3 q) (cell_at 6 l)].

Lemma output_row_paired (l q r : row) :
  List.length l = 9 -> List.length q = 10 ->
  output_row (paired m_country l q) = Ok r -> r = paired_row l q.
Proof.
  intros Hl Hq H.
  destruct (output_row_cells _ _ H) as (v & new & old & Dv & Fn & Fo & ->).
  destruct (paired_cells l q Hl Hq) as (P1 & P2 & P3 & P4 & P6 & P11 & P12 & P15).
  cbv zeta in *. rewrite P12, P6 in Dv. rewrite P12 in Fn. rewrite P6 in Fo.
  rewrite P1, P2, P3, P4, P11, P15.
  unfold paired_row, comparison_cell, to_float. now rewrite Dv, Fn, Fo.
Qed.

Lemma output_row_of_left_only (l r : row) :
  List.length l = 9 ->
  output_row (left_only 10 l) = Ok r -> r = baseline_only_row l.
Proof.
  intros Hl H.
  destruct (output_row_cells _ _ H) as (v & new & old & Dv & Fn & Fo & ->).
  destruct (left_only_cells l Hl) as (P1 & P2 & P3 & P4 & P6 & P11 & P12 & P15).
  cbv zeta in *. rewrite P12 in Dv, Fn. rewrite P6 in Fo.
  rewrite P1, P2, P3, P4, P11, P15.
  injection Fn as <-. rewrite np_round2_nan_scaled.
  rewrite (derived_cell_null_left _ _ Dv).
  unfold baseline_only_row, to_float. now rewrite Fo.
Qed.

Lemma output_row_of_right_only (q r : row) :
  List.length q = 10 ->
  output_row (right_only e_country m_country 9 q) = Ok r ->
  r = metric_only_row q.
Proof.
  intros Hq H.
  destruct (output_row_cells _ _ H) as (v & new & old & Dv & Fn & Fo & ->).
  destruct (right_only_cells q Hq)
    as (P1 & P2 & P3 & P4 & P6 & P11 & P12 & P15).
  cbv zeta in *. rewrite P6 in Dv, Fo. rewrite P12 in Fn.
  rewrite P1, P2, P3, P4, P11, P15.
  injection Fo as <-. rewrite np_round2_nan.
  rewrite (derived_cell_null_right _ _ Dv).
  unfold metric_only_row, to_float. now rewrite Fn.
Qed.

(** The three kinds of output rows. *)
Inductive output_kind (ep mp : DataFrame) (r : row) : Prop :=
| FromPair (l q : row) :
    In l (rows ep) -> In q (rows mp) ->
    key_eqb (cell_at e_country l) (cell_at m_country q) = true ->
    r = paired_row l q -> output_kind ep mp r
| FromBaseline (l : row) :
    In l (rows ep) ->
    (forall q, In q (rows mp) ->
       key_eqb (cell_at e_country l) (cell_at m_country q) = false) ->
    r = baseline_only_row l -> output_kind ep mp r
| FromMetric (q : row) :
    In q (rows mp) ->
    (forall l, In l (rows ep) ->
       key_eqb (cell_at e_country l) (cell_at m_country q) = false) ->
    r = metric_only_row q -> output_kind ep mp r.

Lemma output_rows_kinds (existing_sample metric : DataFrame) (filter : string)
      (ep mp out : DataFrame) :
  process_existing existing_sample filter = Ok ep ->
  process_metric metric filter = Ok mp ->
  compare_reports existing_sample metric filter = Ok out ->
  forall r, In r (rows out) <-> output_kind ep mp r.
Proof.
  intros Pe Pm H r.
  destruct (compare_reports_rows _ _ _ _ _ _ Pe Pm H) as (Le & Lm & F).
  pose proof (proj1 (Forall_forall _ _) Le) as Le'.
  pose proof (proj1 (Forall_forall _ _) Lm) as Lm'.
  cbv beta in Le', Lm'. split.
  - intros Hr. destruct (Forall2_in_right _ _ _ _ F Hr) as (x & Hx & Or).
    apply merge_rows_in in Hx.
    destruct Hx as [(l & q & Hl & Hq & E & ->)
                   |[(l & Hl & No & ->) | (q & Hq & No & ->)]].
    + apply (FromPair ep mp r l q Hl Hq E).
      exact (output_row_paired l q r (Le' l Hl) (Lm' q Hq) Or).
    + apply (FromBaseline ep mp r l Hl No).
      exact (output_row_of_left_only l r (Le' l Hl) Or).
    + apply (FromMetric ep mp r q Hq No).
      exact (output_row_of_right_only q r (Lm' q Hq) Or).
  - intros [l q Hl Hq E -> | l Hl No -> | q Hq No ->].
    + pose proof (merge_rows_paired e_country m_country 9 10 _ _ l q Hl Hq E)
        as Hx.
      destruct (Forall2_in_left _ _ _ _ F Hx) as (r & Hr & Or).
      now rewrite <- (output_row_paired l q r (Le' l Hl) (Lm' q Hq) Or).
    + pose proof (merge_rows_left_only e_country m_country 9 10 _ _ l Hl No)
        as Hx.
      destruct (Forall2_in_left _ _ _ _ F Hx) as (r & Hr & Or).
      now rewrite <- (output_row_of_left_only l r (Le' l Hl) Or).
    + pose proof (merge_rows_right_only e_country m_country 9 10 _ _ q Hq No)
        as Hx.
      destruct (Forall2_in_left _ _ _ _ F Hx) as (r & Hr & Or).
      now rewrite <- (output_row_of_right_only q r (Lm' q Hq) Or).
Qed.

(** C2: the join is a full outer join on the country. (1) A baseline row
    and a new row with the same country are joined: the output has the row
    made of the fields of both. (2) A baseline row whose country the new
    side lacks has its row, with nan in the fields of the new side, and
    (3) likewise a new row whose country the baseline lacks. (4) The
    output has no other rows: a row whose country both sides have is a
    joined pair. So (5, 6) every country of either side has a row in the
    output, and (7, 8) a row whose country one side lacks has nan in the
    fields of that side and no comparison string. *)
Theorem outer_join_keeps_every_country
        (existing_sample metric : DataFrame) (filter : string)
        (ep mp out : DataFrame) :
  process_existing existing_sample filter = Ok ep ->
  process_metric metric filter = Ok mp ->
  compare_reports existing_sample metric filter = Ok out ->
  (forall l q,
      In l (rows ep) -> In q (rows mp) ->
      key_eqb (cell_at e_country l) (cell_at m_country q) = true ->
      In (paired_row l q) (rows out))
  /\ (forall l,
         In l (rows ep) ->
         (forall q, In q (rows mp) ->
            key_eqb (cell_at e_country l) (cell_at m_country q) = false) ->
         In (baseline_only_row l) (rows out))
  /\ (forall q,
         In q (rows mp) ->
         (forall l, In l (rows ep) ->
            key_eqb (cell_at e_country l) (cell_at m_country q) = false) ->
         In (metric_only_row q) (rows out))
  /\ (forall r,
         In r (rows out) ->
         (exists l q,
             In l (rows ep) /\ In q (rows mp)
             /\ key_eqb (cell_at e_country l) (cell_at m_country q) = true
             /\ r = paired_row l q)
         \/ (exists l,
                In l (rows ep)
                /\ (forall q, In q (rows mp) ->
                      key_eqb (cell_at e_country l) (cell_at m_country q)
                      = false)
                /\ r = baseline_only_row l)
         \/ (exists q,
                In q (rows mp)
                /\ (forall l, In l (rows ep) ->
                      key_eqb (cell_at e_country l) (cell_at m_country q)
                      = false)
                /\ r = metric_only_row q))
  /\ (forall l, In l (rows ep) ->
        exists r, In r (rows out)
                  /\ key_eqb (cell_at o_country r) (cell_at e_country l) = true)
  /\ (forall q, In q (rows mp) ->
        exists r, In r (rows out)
                  /\ key_eqb (cell_at o_country r) (cell_at m_country q) = true)
  /\ (forall r, In r (rows out) ->
        (forall q, In q (rows mp) ->
           key_eqb (cell_at o_country r) (cell_at m_country q) = false) ->
        cell_at o_sample_size r = NaN
        /\ cell_at o_metric_new r = NaN
        /\ cell_at o_matching_run_id r = NaN
        /\ cell_at o_comparison r = CNone)
  /\ (forall r, In r (rows out) ->
        (forall l, In l (rows ep) ->
           key_eqb (cell_at o_country r) (cell_at e_country l) = false) ->
        cell_at o_label r = NaN
        /\ cell_at o_provider r = NaN
        /\ cell_at o_product r = NaN
        /\ cell_at o_metric_existing r = NaN
        /\ cell_at o_comparison r = CNone).
Proof.
  intros Pe Pm H.
  pose proof (output_rows_kinds _ _ _ _ _ _ Pe Pm H) as K.
  split; [| split; [| split; [| split]]].
  - intros l q Hl Hq E. apply K. now apply (FromPair ep mp _ l q).
  - intros l Hl No. apply K. now apply (FromBaseline ep mp _ l).
  - intros q Hq No. apply K. now apply (FromMetric ep mp _ q).
  - intros r Hr. apply K in Hr.
    destruct Hr as [l q Hl Hq E -> | l Hl No -> | q Hq No ->].
    + left. now exists l, q.
    + right. left. now exists l.
    + right. right. now exists q.
  - exact (every_country_has_a_row _ _ _ _ _ _ Pe Pm H).
Qed.

Lemma outer_join_keeps_every_country_witness :
  exists ep mp out,
    process_existing Samples.baseline "asf" = Ok ep
    /\ process_metric Samples.report "asf" = Ok mp
    /\ compare_reports Samples.baseline Samples.report "asf" = Ok out
    /\ In (paired_row (Samples.baseline_row "asf" "US" (CNum 91.23%float))
             (Samples.metric_row "asf" "US" (CNum 0.9350%float)))
          (rows out).
Proof.
  eexists _, _, _.
  assert (E1 : process_existing Samples.baseline "asf" = Ok _)
    by (vm_compute; reflexivity).
  assert (E2 : process_metric Samples.report "asf" = Ok _)
    by (vm_compute; reflexivity).
  assert (E3 : compare_reports Samples.baseline Samples.report "asf" = Ok _)
    by (vm_compute; reflexivity).
  destruct (outer_join_keeps_every_country _ _ _ _ _ _ E1 E2 E3)
    as (H1 & _).
  refine (conj E1 (conj E2 (conj E3 _))).
  apply H1.
  - vm_compute. tauto.
  - vm_compute. tauto.
  - reflexivity.
Defined.

(** X2: the rows of a returned table are exactly these: one row for every
    baseline row and new row with the same country, made of the baseline
    label, country, provider, product and rounded metric_value and of the
    new sample_size, rounded match*100 and matching_run_id; one row for
    every baseline row without partner; one for every new row without
    partner. No other row appears and none of these is missing. *)
Theorem output_rows_characterised
        (existing_sample metric : DataFrame) (filter : string)
        (ep mp out : DataFrame) :
  process_existing existing_sample filter = Ok ep ->
  process_metric metric filter = Ok mp ->
  compare_reports existing_sample metric filter = Ok out ->
  forall r,
    In r (rows out) <->
    (exists l q,
        In l (rows ep) /\ In q (rows mp)
        /\ key_eqb (cell_at e_country l) (cell_at m_country q) = true
        /\ r = paired_row l q)
    \/ (exists l,
           In l (rows ep)
           /\ (forall q, In q (rows mp) ->
                 key_eqb (cell_at e_country l) (cell_at m_country q) = false)
           /\ r = baseline_only_row l)
    \/ (exists q,
           In q (rows mp)
           /\ (forall l, In l (rows ep) ->
                 key_eqb (cell_at e_country l) (cell_at m_country q) = false)
           /\ r = metric_only_row q).
Proof.
  intros Pe Pm H r.
  rewrite (output_rows_kinds _ _ _ _ _ _ Pe Pm H r). split.
  - intros [l q Hl Hq E -> | l Hl No -> | q Hq No ->].
    + left. now exists l, q.
    + right. left. now exists l.
    + right. right. now exists q.
  - intros [(l & q & Hl & Hq & E & ->)
           |[(l & Hl & No & ->) | (q & Hq & No & ->)]].
    + now apply (FromPair ep mp _ l q).
    + now apply (FromBaseline ep mp _ l).
    + now apply (FromMetric ep mp _ q).
Qed.

Lemma output_rows_characterised_witness :
  exists ep mp out,
    process_existing Samples.baseline "asf" = Ok ep
    /\ process_metric Samples.report "asf" = Ok mp
    /\ compare_reports Samples.baseline Samples.report "asf" = Ok out
    /\ In [NaN; CStr "AT"; NaN; NaN; CNum 1000%float; NaN; CNum 50%float;
           CStr "m-3"; CNone] (rows out).
Proof.
  eexists _, _, _.
  assert (E1 : process_existing Samples.baseline "asf" = Ok _)
    by (vm_compute; reflexivity).
  assert (E2 : process_metric Samples.report "asf" = Ok _)
    by (vm_compute; reflexivity).
  assert (E3 : compare_reports Samples.baseline Samples.report "asf" = Ok _)
    by (vm_compute; reflexivity).
  refine (conj E1 (conj E2 (conj E3 _))).
  apply (output_rows_characterised _ _ _ _ _ _ E1 E2 E3).
  right. right.
  exists (Samples.metric_row "ASF" "AT" (CNum 0.5%float)).
  split; [vm_compute; tauto |].
  split; [| vm_compute; reflexivity].
  intros l Hl. vm_compute in Hl.
  repeat (destruct Hl as [<- | Hl]; [vm_compute; reflexivity |]).
  contradiction.
Defined.

(** ** How many rows a country gets *)

(** The rows with the country [k] in column [i]. *)
Definition with_country (i : nat) (k : cell) (rs : list row) : list row :=
  List.filter (fun r => key_eqb (cell_at i r) k) rs.

(** The rows of a key with [a] rows on the left and [b] on the right. *)
Definition multiplicity (a b : nat) : nat :=
  match a, b with
  | O, _ => b
  | _, O => a
  | _, _ => a * b
  end.

Lemma key_eqb_right (a k k' : cell) :
  key_eqb k' k = true -> key_eqb a k' = key_eqb a k.
Proof.
  intros H. rewrite (key_eqb_sym a k'), (key_eqb_sym a k).
  now apply key_eqb_congr.
Qed.

Lemma length_flat_map_const {A B C : Type} (f : A -> B -> C) (la : list A)
      (lb : list B) :
  List.length (flat_map (fun a => map (f a) lb) la)
  = List.length la * List.length lb.
Proof.
  induction la as [|a la IH]; [reflexivity |].
  cbn [flat_map List.length Nat.mul]. now rewrite length_app, length_map, IH.
Qed.

Lemma merge_group_length (ki kj wl wr : nat) (L R : list row) (k : cell) :
  List.length (merge_group ki kj wl wr L R k)
  = multiplicity (List.length (with_country ki k L))
                 (List.length (with_country kj k R)).
Proof.
  unfold merge_group, with_country.
  destruct (List.filter (fun l => key_eqb (cell_at ki l) k) L) as [|l ls].
  - now rewrite length_map.
  - destruct (List.filter (fun r => key_eqb (cell_at kj r) k) R) as [|r rs].
    + now rewrite length_map.
    + rewrite (length_flat_map_const (fun l r => l ++ drop_nth kj r)).
      reflexivity.
Qed.

Lemma merge_group_key (L R : list row) (k : cell) (x : row) :
  Forall (fun l => List.length l = 9) L ->
  Forall (fun r => List.length r = 10) R ->
  In x (merge_group e_country m_country 9 10 L R k) ->
  key_eqb (cell_at j_country x) k = true.
Proof.
  intros HL HR.
  pose proof (proj1 (Forall_forall _ _) HL) as HL'.
  pose proof (proj1 (Forall_forall _ _) HR) as HR'.
  cbv beta in HL', HR'. unfold merge_group.
  set (ls := List.filter (fun l => key_eqb (cell_at e_country l) k) L).
  set (rs := List.filter (fun r => key_eqb (cell_at m_country r) k) R).
  assert (Hls : forall l, In l ls -> In l L /\ key_eqb (cell_at e_country l) k = true)
    by (intros l; apply filter_In).
  assert (Hrs : forall r, In r rs -> In r R /\ key_eqb (cell_at m_country r) k = true)
    by (intros r; apply filter_In).
  destruct ls as [|l0 ls'].
  - intros Hx. apply in_map_iff in Hx. destruct Hx as (r & <- & Hr).
    destruct (Hrs r Hr) as [Hr1 Hr2].
    destruct (right_only_cells r (HR' r Hr1)) as (_ & C & _).
    cbv zeta in C. unfold right_only in C. now rewrite C.
  - destruct rs as [|r0 rs'].
    + intros Hx. apply in_map_iff in Hx. destruct Hx as (l & <- & Hl).
      destruct (Hls l Hl) as [Hl1 Hl2].
      destruct (left_only_cells l (HL' l Hl1)) as (_ & C & _).
      cbv zeta in C. unfold left_only in C. now rewrite C.
    + intros Hx. apply in_flat_map in Hx. destruct Hx as (l & Hl & Hx).
      apply in_map_iff in Hx. destruct Hx as (r & <- & Hr).
      destruct (Hls l Hl) as [Hl1 Hl2]. destruct (Hrs r Hr) as [Hr1 _].
      destruct (paired_cells l r (HL' l Hl1) (HR' r Hr1)) as (_ & C & _).
      cbv zeta in C. unfold paired in C. now rewrite C.
Qed.

Lemma length_filter_flat_map {A B : Type} (p : B -> bool) (g : A -> list B)
      (K : list A) :
  List.length (List.filter p (flat_map g K))
  = list_sum (map (fun k => List.length (List.filter p (g k))) K).
Proof.
  induction K as [|k K IH]; [reflexivity |].
  cbn [flat_map map list_sum]. now rewrite filter_app, length_app, IH.
Qed.

Lemma sum_of_one_class (k : cell) (c : nat) (F : cell -> nat) (K : list cell) :
  (forall k', key_eqb k' k = true -> F k' = c) ->
  (forall k', key_eqb k' k = false -> F k' = 0) ->
  list_sum (map F K) = c * List.length (List.filter (key_eqb k) K).
Proof.
  intros Hc H0. induction K as [|k' K IH]; cbn [map List.filter].
  - cbn. now rewrite Nat.mul_0_r.
  - change (list_sum (F k' :: map F K)) with (F k' + list_sum (map F K)).
    rewrite IH, (key_eqb_sym k k').
    destruct (key_eqb k' k) eqn:E.
    + rewrite (Hc k' E). cbn [List.length]. lia.
    + rewrite (H0 k' E). reflexivity.
Qed.

Lemma filter_all {A : Type} (p : A -> bool) (l : list A) :
  (forall a, In a l -> p a = true) -> List.filter p l = l.
Proof.
  induction l as [|a l IH]; intros H; [reflexivity |].
  cbn [List.filter]. rewrite (H a (or_introl eq_refl)).
  f_equal. apply IH. intros; apply H; now right.
Qed.

Lemma filter_none {A : Type} (p : A -> bool) (l : list A) :
  (forall a, In a l -> p a = false) -> List.filter p l = [].
Proof.
  induction l as [|a l IH]; intros H; [reflexivity |].
  cbn [List.filter]. rewrite (H a (or_introl eq_refl)).
  apply IH. intros; apply H; now right.
Qed.

Lemma joined_rows_count (ep mp : DataFrame) (k : cell) :
  Forall (fun l => List.length l = 9) (rows ep) ->
  Forall (fun r => List.length r = 10) (rows mp) ->
  List.length (with_country j_country k (joined_rows ep mp))
  = multiplicity (List.length (with_country e_country k (rows ep)))
                 (List.length (with_country m_country k (rows mp))).
Proof.
  intros HL HR. unfold with_country at 1, joined_rows, merge_rows.
  rewrite length_filter_flat_map.
  set (c := multiplicity (List.length (with_country e_country k (rows ep)))
                         (List.length (with_country m_country k (rows mp)))).
  rewrite (sum_of_one_class k c).
  - (* one key of the class, or none and no row at all *)
    assert (P : Permutation
                  (List.filter (key_eqb k)
                     (sort_keys (distinct_keys
                        (map (cell_at e_country) (rows ep)
                         ++ map (cell_at m_country) (rows mp)))))
                  (List.filter (key_eqb k)
                     (distinct_keys
                        (map (cell_at e_country) (rows ep)
                         ++ map (cell_at m_country) (rows mp))))).
    { generalize (sort_keys_perm
                    (distinct_keys (map (cell_at e_country) (rows ep)
                                    ++ map (cell_at m_country) (rows mp)))).
      generalize (sort_keys (distinct_keys
                    (map (cell_at e_country) (rows ep)
                     ++ map (cell_at m_country) (rows mp))))
                 (distinct_keys (map (cell_at e_country) (rows ep)
                                 ++ map (cell_at m_country) (rows mp))).
      intros l1 l2 P. induction P; cbn [List.filter].
      - reflexivity.
      - destruct (key_eqb k x); [now constructor | assumption].
      - destruct (key_eqb k x), (key_eqb k y); try reflexivity. apply perm_swap.
      - etransitivity; eassumption. }
    rewrite (Permutation_length P), distinct_keys_count.
    destruct (existsb (key_eqb k)
                (map (cell_at e_country) (rows ep)
                 ++ map (cell_at m_country) (rows mp))) eqn:E; [lia |].
    rewrite Nat.mul_0_r. symmetry. subst c.
    assert (N : forall i rs,
               (forall r, In r rs ->
                  In (cell_at i r)
                     (map (cell_at e_country) (rows ep)
                      ++ map (cell_at m_country) (rows mp))) ->
               with_country i k rs = []).
    { intros i rs Hin. apply filter_none. intros r Hr.
      destruct (key_eqb (cell_at i r) k) eqn:Ek; [| reflexivity].
      assert (X : existsb (key_eqb k)
                    (map (cell_at e_country) (rows ep)
                     ++ map (cell_at m_country) (rows mp)) = true).
      { apply existsb_exists. exists (cell_at i r).
        split; [now apply Hin | now rewrite key_eqb_sym]. }
      congruence. }
    rewrite (N e_country (rows ep)), (N m_country (rows mp)); [reflexivity | |].
    + intros r Hr. apply in_or_app. right. now apply in_map.
    + intros r Hr. apply in_or_app. left. now apply in_map.
  - intros k' Ek.
    rewrite filter_all.
    + rewrite merge_group_length. subst c. unfold with_country.
      f_equal; f_equal; apply filter_ext; intros a; now apply key_eqb_right.
    + intros x Hx. rewrite <- (merge_group_key _ _ k' x HL HR Hx).
      symmetry. now apply key_eqb_right.
  - intros k' Ek.
    rewrite filter_none; [reflexivity |].
    intros x Hx. pose proof (merge_group_key _ _ k' x HL HR Hx) as Kx.
    rewrite (key_eqb_congr _ _ k Kx). exact Ek.
Qed.

Lemma output_rows_count (X rs : list row) (k : cell) :
  Forall2 (fun x r => output_row x = Ok r) X rs ->
  List.length (with_country o_country k rs)
  = List.length (with_country j_country k X).
Proof.
  intros F. induction F as [|x r X rs Or F IH]; [reflexivity |].
  destruct (output_row_cells _ _ Or) as (v & new & old & _ & _ & _ & ->).
  unfold with_country in *. cbn [List.filter].
  change (cell_at o_country
            [cell_at j_label x; cell_at j_country x; cell_at j_provider x;
             cell_at j_product x; cell_at j_sample_size x;
             CNum (PyFloat.np_round2 old);
             CNum (PyFloat.np_round2 (PrimFloat.mul new 100%float));
             cell_at j_matching_run_id x; v])
    with (cell_at j_country x).
  destruct (key_eqb (cell_at j_country x) k); cbn [List.length]; now rewrite IH.
Qed.

(** X3: in a returned table, a country with [a] baseline rows and [b] new
    rows has [a * b] rows when both sides have it, and [a] or [b] rows
    when only one side has it; a country of neither side has none. So
    when each side has a country at most once, the output has it at most
    once. *)
Theorem output_cardinality
        (existing_sample metric : DataFrame) (filter : string)
        (ep mp out : DataFrame) :
  process_existing existing_sample filter = Ok ep ->
  process_metric metric filter = Ok mp ->
  compare_reports existing_sample metric filter = Ok out ->
  forall k,
    List.length (with_country o_country k (rows out))
    = multiplicity (List.length (with_country e_country k (rows ep)))
                   (List.length (with_country m_country k (rows mp)))
    /\ (List.length (with_country e_country k (rows ep)) <= 1 ->
        List.length (with_country m_country k (rows mp)) <= 1 ->
        List.length (with_country o_country k (rows out)) <= 1).
Proof.
  intros Pe Pm H k.
  destruct (compare_reports_rows _ _ _ _ _ _ Pe Pm H) as (Le & Lm & F).
  assert (E : List.length (with_country o_country k (rows out))
              = multiplicity
                  (List.length (with_country e_country k (rows ep)))
                  (List.length (with_country m_country k (rows mp)))).
  { rewrite (output_rows_count _ _ k F). now apply joined_rows_count. }
  split; [exact E |].
  rewrite E. intros Ha Hb.
  destruct (List.length (with_country e_country k (rows ep))) as [|[|a]],
           (List.length (with_country m_country k (rows mp))) as [|[|b]];
    cbn; lia.
Qed.

Lemma output_cardinality_witness :
  exists out,
    compare_reports Samples.baseline Samples.report "asf" = Ok out
    /\ List.length (with_country o_country (CStr "US") (rows out)) = 1.
Proof.
  eexists.
  assert (E1 : process_existing Samples.baseline "asf" = Ok _)
    by (vm_compute; reflexivity).
  assert (E2 : process_metric Samples.report "asf" = Ok _)
    by (vm_compute; reflexivity).
  assert (E3 : compare_reports Samples.baseline Samples.report "asf" = Ok _)
    by (vm_compute; reflexivity).
  split; [exact E3 |].
  rewrite (proj1 (output_cardinality _ _ _ _ _ _ E1 E2 E3 (CStr "US"))).
  vm_compute. reflexivity.
Defined.

(** ** Labels and country casing *)

Lemma upper_char_idempotent (c : ascii) :
  PyStr.upper_char (PyStr.upper_char c) = PyStr.upper_char c.
Proof.
  destruct c as [[|] [|] [|] [|] [|] [|] [|] [|]]; reflexivity.
Qed.

Lemma upper_idempotent (s : string) : PyStr.upper (PyStr.upper s) = PyStr.upper s.
Proof.
  induction s as [|c s IH]; [reflexivity |].
  cbn [PyStr.upper]. now rewrite upper_char_idempotent, IH.
Qed.

(** A processed baseline row carries the filter in lower case as its
    label, and its country went through [.str.upper()]. *)
Lemma process_existing_cells (existing_sample : DataFrame) (filter : string)
      (ep : DataFrame) (l : row) :
  process_existing existing_sample filter = Ok ep ->
  In l (rows ep) ->
  cell_at 1 l = CStr (PyStr.lower filter)
  /\ exists c, cell_at e_country l = str_cell PyStr.upper c.
Proof.
  intros Pe Hl.
  destruct (process_existing_ok _ _ _ Pe) as (fp & Hfp & Erows).
  rewrite Erows in Hl. apply in_map_iff in Hl. destruct Hl as (r' & <- & Hr').
  apply filter_project_ok in Hfp.
  destruct Hfp as (i & d & ps & Hm & _ & Hps & ->). cbn [rows] in Hr'.
  apply in_map_iff in Hr'. destruct Hr' as (r0 & <- & Hr0).
  apply filter_In in Hr0. destruct Hr0 as [_ Lm].
  unfold existing_columns in Hps.
  repeat (apply mapM_ok_cons in Hps;
          destruct Hps as (? & ? & ? & Hps & ->)).
  injection Hps as <-.
  repeat match goal with
         | H : lookup_column "metric" _ = _ |- _ =>
             unfold lookup_column in H; rewrite Hm in H; injection H as <-
         end.
  unfold label_matches in Lm. cbn [map fst].
  destruct (cell_at i r0) as [|lbl|num] eqn:Ey; try discriminate Lm.
  unfold normalize, e_country. cbn [cell_at nth set_nth].
  apply String.eqb_eq in Lm. cbn [str_cell]. rewrite Lm.
  split; [reflexivity | eauto].
Qed.

(** X4: in a returned table the first [metric_existing] column holds the
    filter in lower case on every row that has a baseline part and nan on
    the rows that come from the new report alone; the country of a row
    with a baseline part is nan or a string in upper case. *)
Theorem output_labels_and_casing
        (existing_sample metric : DataFrame) (filter : string)
        (out : DataFrame) (r : row) :
  compare_reports existing_sample metric filter = Ok out ->
  In r (rows out) ->
  (cell_at o_label r = NaN
   /\ cell_at o_provider r = NaN /\ cell_at o_product r = NaN
   /\ cell_at o_metric_existing r = NaN)
  \/ (cell_at o_label r = CStr (PyStr.lower filter)
      /\ (cell_at o_country r = NaN
          \/ exists s, cell_at o_country r = CStr s /\ PyStr.upper s = s)).
Proof.
  intros H Hr.
  destruct (compare_reports_sides _ _ _ _ H) as (ep & mp & Pe & Pm).
  apply (output_rows_kinds _ _ _ _ _ _ Pe Pm H) in Hr.
  assert (B : forall l, In l (rows ep) ->
                cell_at 1 l = CStr (PyStr.lower filter)
                /\ (cell_at e_country l = NaN
                    \/ exists s, cell_at e_country l = CStr s
                                 /\ PyStr.upper s = s)).
  { intros l Hl.
    destruct (process_existing_cells _ _ _ l Pe Hl) as (L1 & c & L2).
    split; [exact L1 |]. rewrite L2.
    destruct c as [|t|x]; cbn [str_cell]; [now left | | now left].
    right. exists (PyStr.upper t). split; [reflexivity | apply upper_idempotent]. }
  destruct Hr as [l q Hl _ _ -> | l Hl _ -> | q _ _ ->].
  - right. exact (B l Hl).
  - right. exact (B l Hl).
  - left. repeat split.
Qed.

Lemma output_labels_and_casing_witness :
  exists out,
    compare_reports Samples.baseline Samples.report "ASF" = Ok out
    /\ Forall (fun r => cell_at o_label r = NaN
                        \/ cell_at o_label r = CStr "asf") (rows out).
Proof.
  eexists.
  assert (E : compare_reports Samples.baseline Samples.report "ASF" = Ok _)
    by (vm_compute; reflexivity).
  split; [exact E |].
  apply Forall_forall. intros r Hr.
  destruct (output_labels_and_casing _ _ _ _ r E Hr) as [(H & _) | (H & _)];
    [now left | now right].
Defined.

(** X5: only the baseline country is put in upper case. A new row whose
    country is not in upper case never joins a baseline row: it gets an
    output row of its own, with nan in the baseline fields, and so does
    every output row with that country. *)
Theorem lower_case_country_never_joins
        (existing_sample metric : DataFrame) (filter : string)
        (ep mp out : DataFrame) (q : row) (s : string) :
  process_existing existing_sample filter = Ok ep ->
  process_metric metric filter = Ok mp ->
  compare_reports existing_sample metric filter = Ok out ->
  In q (rows mp) ->
  cell_at m_country q = CStr s ->
  PyStr.upper s <> s ->
  In (metric_only_row q) (rows out)
  /\ forall r, In r (rows out) -> cell_at o_country r = CStr s ->
       cell_at o_label r = NaN
       /\ cell_at o_provider r = NaN
       /\ cell_at o_product r = NaN
       /\ cell_at o_metric_existing r = NaN
       /\ cell_at o_comparison r = CNone.
Proof.
  intros Pe Pm H Hq Cq Hs.
  assert (No : forall l, In l (rows ep) -> cell_at e_country l <> CStr s).
  { intros l Hl E.
    destruct (process_existing_cells _ _ _ l Pe Hl) as (_ & c & L2).
    rewrite L2 in E. destruct c as [|t|x]; cbn [str_cell] in E;
      try discriminate E.
    injection E as <-. apply Hs, upper_idempotent. }
  split.
  - apply (output_rows_kinds _ _ _ _ _ _ Pe Pm H).
    apply (FromMetric ep mp _ q Hq); [| reflexivity].
    intros l Hl. rewrite Cq.
    destruct (process_existing_cells _ _ _ l Pe Hl) as (_ & c & L2).
    rewrite L2. destruct c as [|t|x]; cbn [str_cell]; try reflexivity.
    unfold key_eqb. cbn [notnull].
    apply String.eqb_neq. intros <-. apply Hs, upper_idempotent.
  - intros r Hr Cr.
    apply (output_rows_kinds _ _ _ _ _ _ Pe Pm H) in Hr.
    destruct Hr as [l q' Hl _ _ -> | l Hl _ -> | q' _ _ ->].
    + exfalso. exact (No l Hl Cr).
    + exfalso. exact (No l Hl Cr).
    + repeat split.
Qed.

(** A new report that spells the country in lower case. *)
Definition lower_case_report : DataFrame :=
  mkFrame Samples.metric_schema
    [Samples.metric_row "asf" "us" (CNum 0.9350%float)].

Lemma lower_case_country_never_joins_witness :
  exists out,
    compare_reports Samples.baseline lower_case_report "asf" = Ok out
    /\ In (metric_only_row (Samples.metric_row "asf" "us" (CNum 0.9350%float)))
          (rows out)
    /\ List.length (rows out) = 3.
Proof.
  eexists.
  assert (E1 : process_existing Samples.baseline "asf" = Ok _)
    by (vm_compute; reflexivity).
  assert (E2 : process_metric lower_case_report "asf" = Ok _)
    by (vm_compute; reflexivity).
  assert (E3 : compare_reports Samples.baseline lower_case_report "asf" = Ok _)
    by (vm_compute; reflexivity).
  split; [exact E3 |]. split; [| reflexivity].
  apply (lower_case_country_never_joins _ _ _ _ _ _
           (Samples.metric_row "asf" "us" (CNum 0.9350%float)) "us"
           E1 E2 E3).
  - vm_compute. tauto.
  - reflexivity.
  - vm_compute. discriminate.
Defined.

(** ** Missing and mistyped columns *)

Lemma mapM_found {A B : Type} (f : A -> result B) (l : list A) (bs : list B)
      (a : A) :
  mapM f l = Ok bs -> In a l -> exists b, f a = Ok b.
Proof.
  intros H Ha. apply mapM_ok_Forall2 in H.
  destruct (Forall2_in_left _ _ _ _ H Ha) as (b & _ & Hb). now exists b.
Qed.

(** The errors of a table that lacks a column or has it with the wrong
    dtype. *)
Definition schema_error (e : exn) : Prop := e = KeyError \/ e = AttributeError.

Lemma lookup_column_error (n : string) (cols : list (string * dtype)) (e : exn) :
  lookup_column n cols = Raise e -> e = KeyError.
Proof.
  unfold lookup_column. destruct (find_column n cols); [discriminate |].
  now intros [= <-].
Qed.

Lemma str_map_error (f : string -> string) (s : Series) (e : exn) :
  str_map f s = Raise e -> e = AttributeError.
Proof.
  unfold str_map, str_accessor.
  destruct (s_dtype s); [| now intros [= <-] | now intros [= <-]].
  destruct (List.filter notnull (values s)) as [|c cs]; [discriminate |].
  destruct (existsb is_str (c :: cs)); [discriminate | now intros [= <-]].
Qed.

Lemma getitem_error (df : DataFrame) (n : string) (e : exn) :
  getitem df n = Raise e -> e = KeyError.
Proof.
  unfold getitem. intros H. apply bind_raise in H.
  destruct H as [H | (p & _ & H)]; [| discriminate H].
  exact (lookup_column_error _ _ _ H).
Qed.

Lemma filter_project_error (table : DataFrame) (filter : string)
      (wanted : list string) (e : exn) :
  filter_project table filter wanted = Raise e -> schema_error e.
Proof.
  unfold filter_project. intros H.
  apply bind_raise in H. destruct H as [H | (labels & _ & H)].
  { left. exact (getitem_error _ _ _ H). }
  apply bind_raise in H. destruct H as [H | (lowered & _ & H)].
  { right. exact (str_map_error _ _ _ H). }
  unfold select in H. apply bind_raise in H.
  destruct H as [H | (ps & _ & H)]; [| discriminate H].
  apply mapM_raise in H. destruct H as (n & _ & H).
  left. exact (lookup_column_error _ _ _ H).
Qed.

Lemma process_existing_error (existing_sample : DataFrame) (filter : string)
      (e : exn) :
  process_existing existing_sample filter = Raise e -> schema_error e.
Proof.
  unfold process_existing. intros H.
  apply bind_raise in H. destruct H as [H | (fp & _ & H)].
  { exact (filter_project_error _ _ _ _ H). }
  apply bind_raise in H. destruct H as [H | (c & _ & H)].
  { left. exact (getitem_error _ _ _ H). }
  apply bind_raise in H. destruct H as [H | (c' & _ & H)].
  { right. exact (str_map_error _ _ _ H). }
  apply bind_raise in H. destruct H as [H | (c'' & _ & H)].
  { left. exact (getitem_error _ _ _ H). }
  apply bind_raise in H. destruct H as [H | (c3 & _ & H)]; [| discriminate H].
  right. exact (str_map_error _ _ _ H).
Qed.

Lemma filter_project_needs_columns (table : DataFrame) (filter : string)
      (wanted : list string) (fp : DataFrame) (n : string) :
  filter_project table filter wanted = Ok fp ->
  In n wanted -> find_column n (columns table) <> None.
Proof.
  intros H Hn E. apply filter_project_ok in H.
  destruct H as (i & d & ps & _ & _ & Hps & _).
  destruct (mapM_found _ _ _ n Hps Hn) as (p & Hp).
  unfold lookup_column in Hp. rewrite E in Hp. discriminate.
Qed.

(** X6: when the baseline lacks one of its nine columns, or the new report
    one of its ten, [compare_reports] returns no table: it raises
    [KeyError], or [AttributeError] when a [.str] accessor refused a column
    before the missing one was asked for. Without a [metric] column in the
    baseline the error is [KeyError]. *)
Theorem missing_column_raises
        (existing_sample metric : DataFrame) (filter : string) :
  ((exists n, In n existing_columns
              /\ find_column n (columns existing_sample) = None)
   \/ (exists n, In n metric_columns
                 /\ find_column n (columns metric) = None) ->
   exists e, compare_reports existing_sample metric filter = Raise e
             /\ schema_error e)
  /\ (find_column "metric" (columns existing_sample) = None ->
      compare_reports existing_sample metric filter = Raise KeyError).
Proof.
  split.
  - intros Hmiss. unfold compare_reports.
    destruct (process_existing existing_sample filter) as [ep|e] eqn:Pe.
    2:{ exists e. split; [reflexivity | exact (process_existing_error _ _ _ Pe)]. }
    cbn [bind].
    destruct (process_metric metric filter) as [mp|e] eqn:Pm.
    2:{ exists e. split; [reflexivity |].
        exact (filter_project_error _ _ _ _ Pm). }
    exfalso. destruct Hmiss as [(n & Hn & E) | (n & Hn & E)].
    + destruct (process_existing_ok _ _ _ Pe) as (fp & Hfp & _).
      exact (filter_project_needs_columns _ _ _ _ n Hfp Hn E).
    + exact (filter_project_needs_columns _ _ _ _ n Pm Hn E).
  - intros E. unfold compare_reports, process_existing, filter_project,
      getitem, lookup_column. now rewrite E.
Qed.

Lemma missing_column_raises_witness :
  exists e,
    compare_reports Samples.report Samples.report "asf" = Raise e
    /\ schema_error e.
Proof.
  apply (proj1 (missing_column_raises Samples.report Samples.report "asf")).
  left. exists "run_id"%string. split; [simpl; tauto | reflexivity].
Defined.

(** A baseline and a new report whose [metric] column is blank in every
    row: [read_csv] makes such a column [float64]. *)
Definition blank_metric_baseline : DataFrame :=
  mkFrame
    [("run_id", object); ("metric", float64); ("country", object);
     ("provider", object); ("product", object); ("sampling_run_id", object);
     ("metric_value", float64); ("metric_value_lower", float64);
     ("metric_value_upper", float64)]
    [[CStr "run-7"; NaN; CStr "us"; CStr "acme"; CStr "geocoder"; CStr "s-1";
      CNum 91.23%float; CNum 90%float; CNum 92%float]].

(** X7: the [.str] accessor needs text. When the [metric] column of the
    baseline is a [float64] column (every label blank), [compare_reports]
    raises [AttributeError], whatever the rows and the filter; so it does
    when the baseline passes and the [metric] column of the new report is
    [float64], and when the baseline is filtered and projected but its
    [country] column is [float64]. *)
Theorem numeric_text_column_raises
        (existing_sample metric : DataFrame) (filter : string) (i : nat) :
  (find_column "metric" (columns existing_sample) = Some (i, float64) ->
   compare_reports existing_sample metric filter = Raise AttributeError)
  /\ (forall ep,
         process_existing existing_sample filter = Ok ep ->
         find_column "metric" (columns metric) = Some (i, float64) ->
         compare_reports existing_sample metric filter = Raise AttributeError)
  /\ (forall fp,
         filter_project existing_sample filter existing_columns = Ok fp ->
         find_column "country" (columns existing_sample) = Some (i, float64) ->
         compare_reports existing_sample metric filter = Raise AttributeError).
Proof.
  split; [| split].
  - intros E. unfold compare_reports, process_existing, filter_project,
      getitem, lookup_column. rewrite E. reflexivity.
  - intros ep Pe E. unfold compare_reports. rewrite Pe. cbn [bind].
    unfold process_metric, filter_project, getitem, lookup_column.
    rewrite E. reflexivity.
  - intros fp Hfp E. unfold compare_reports, process_existing.
    rewrite Hfp. cbn [bind].
    apply filter_project_ok in Hfp.
    destruct Hfp as (j & dj & ps & _ & _ & Hps & ->).
    unfold existing_columns in Hps.
    repeat (apply mapM_ok_cons in Hps;
            destruct Hps as (? & ? & ? & Hps & ->)).
    injection Hps as <-.
    repeat match goal with
           | H : lookup_column "country" _ = _ |- _ =>
               unfold lookup_column in H; rewrite E in H; injection H as <-
           end.
    reflexivity.
Qed.

Lemma numeric_text_column_raises_witness :
  compare_reports blank_metric_baseline Samples.report "asf"
  = Raise AttributeError.
Proof.
  apply (proj1 (numeric_text_column_raises
                  blank_metric_baseline Samples.report "asf" 1)).
  reflexivity.
Defined.

(** ** Values the derived column cannot take *)

Lemma infinite_difference (y : float) (n : Z) :
  PyFloat.int_round0 (PrimFloat.sub infinity y) <> PyFloat.IntValue n
  /\ PyFloat.int_round0 (PrimFloat.sub neg_infinity y) <> PyFloat.IntValue n.
Proof.
  unfold PyFloat.int_round0, PyFloat.magnitude_of.
  rewrite !FloatAxioms.sub_spec.
  change (Prim2SF infinity) with (S754_infinity false).
  change (Prim2SF neg_infinity) with (S754_infinity true).
  destruct (Prim2SF y) as [[|]|[|]| |[|] m e]; cbn; split; discriminate.
Qed.

(** X8: a baseline row and a new row of the same country whose [match] is
    an infinity ([inf] in the file), the baseline [metric_value] being
    there: the integer in parentheses cannot be built, and
    [compare_reports] raises instead of returning a table. *)
Theorem infinite_match_raises
        (existing_sample metric : DataFrame) (filter : string)
        (ep mp : DataFrame) (l q : row) :
  process_existing existing_sample filter = Ok ep ->
  process_metric metric filter = Ok mp ->
  In l (rows ep) -> In q (rows mp) ->
  key_eqb (cell_at e_country l) (cell_at m_country q) = true ->
  cell_at 3 q = CNum infinity \/ cell_at 3 q = CNum neg_infinity ->
  notnull (cell_at 6 l) = true ->
  exists e, compare_reports existing_sample metric filter = Raise e.
Proof.
  intros Pe Pm Hl Hq E Hinf Hv.
  destruct (compare_reports existing_sample metric filter) as [out|e] eqn:H;
    [| now exists e].
  exfalso.
  destruct (compare_reports_rows _ _ _ _ _ _ Pe Pm H) as (Le & Lm & F).
  pose proof (proj1 (Forall_forall _ _) Le l Hl) as Ll.
  pose proof (proj1 (Forall_forall _ _) Lm q Hq) as Lq.
  cbv beta in Ll, Lq.
  pose proof (merge_rows_paired e_country m_country 9 10 _ _ l q Hl Hq E) as Hx.
  destruct (Forall2_in_left _ _ _ _ F Hx) as (r & _ & Or).
  destruct (output_row_cells _ _ Or) as (v & new & old & Dv & _ & _ & _).
  destruct (paired_cells l q Ll Lq) as (_ & _ & _ & _ & P6 & _ & P12 & _).
  cbv zeta in P6, P12. rewrite P12, P6 in Dv.
  destruct (derived_cell_spec _ _ _ Dv) as [_ S].
  destruct S as (a & b & n & Ea & Eb & R & _).
  - destruct Hinf as [-> | ->]; reflexivity.
  - exact Hv.
  - destruct Hinf as [Hinf | Hinf]; rewrite Hinf in Ea; injection Ea as <-.
    + change (PrimFloat.mul infinity 100%float) with infinity in R.
      exact (proj1 (infinite_difference b n) R).
    + change (PrimFloat.mul neg_infinity 100%float) with neg_infinity in R.
      exact (proj2 (infinite_difference b n) R).
Qed.

(** A new report with an infinite [match] for a country of the baseline. *)
Definition infinite_report : DataFrame :=
  mkFrame Samples.metric_schema [Samples.metric_row "asf" "US" (CNum infinity)].

Lemma infinite_match_raises_witness :
  exists e, compare_reports Samples.baseline infinite_report "asf" = Raise e.
Proof.
  assert (E1 : process_existing Samples.baseline "asf" = Ok _)
    by (vm_compute; reflexivity).
  assert (E2 : process_metric infinite_report "asf" = Ok _)
    by (vm_compute; reflexivity).
  apply (infinite_match_raises _ _ _ _ _
           [CStr "run-7"; CStr "asf"; CStr "US"; CStr "acme"; CStr "geocoder";
            CStr "s-1"; CNum 91.23%float; CNum 90%float; CNum 92%float]
           (Samples.metric_row "asf" "US" (CNum infinity)) E1 E2).
  - vm_compute. tauto.
  - vm_compute. tauto.
  - reflexivity.
  - left. reflexivity.
  - reflexivity.
Defined.

(** ** Rows of other metrics do not count *)

(** The table without the rows of the other metrics. *)
Definition keep_metric (table : DataFrame) (filter : string) : DataFrame :=
  mkFrame (columns table)
    (List.filter
       (fun r => match column_cell table "metric" r with
                 | CStr y => String.eqb (PyStr.lower y) (PyStr.lower filter)
                 | _ => false
                 end)
       (rows table)).

Lemma filter_idempotent {A : Type} (p : A -> bool) (l : list A) :
  List.filter p (List.filter p l) = List.filter p l.
Proof.
  apply filter_all. intros a Ha. now apply filter_In in Ha.
Qed.

Lemma filter_project_keep_metric (table : DataFrame) (filter : string)
      (wanted : list string) (fp : DataFrame) :
  filter_project table filter wanted = Ok fp ->
  filter_project (keep_metric table filter) filter wanted = Ok fp.
Proof.
  intros H. apply filter_project_ok in H.
  destruct H as (i & d & ps & Hm & Ha & Hps & ->).
  assert (d = object) as ->.
  { destruct d; [reflexivity | |]; discriminate Ha. }
  assert (R : rows (keep_metric table filter)
              = List.filter (label_matches i filter) (rows table)).
  { unfold keep_metric, column_cell. cbn [rows]. now rewrite Hm. }
  apply filter_project_ok. exists i, object, ps.
  split; [exact Hm |]. split; [| split; [exact Hps |]].
  - rewrite R. apply str_accessor_text. apply Forall_forall.
    intros c Hc. apply in_map_iff in Hc. destruct Hc as (r & <- & Hr).
    apply filter_In in Hr. destruct Hr as [_ Hr]. unfold label_matches in Hr.
    left. now destruct (cell_at i r).
  - rewrite R, filter_idempotent. reflexivity.
Qed.

(** X9: a returned table only depends on the rows of the requested metric:
    dropping from both inputs the rows of the other metrics (or with a
    blank label) leaves the result as it is. *)
Theorem other_metrics_do_not_count
        (existing_sample metric : DataFrame) (filter : string)
        (out : DataFrame) :
  compare_reports existing_sample metric filter = Ok out ->
  compare_reports (keep_metric existing_sample filter)
                  (keep_metric metric filter) filter = Ok out.
Proof.
  intros H. destruct (compare_reports_sides _ _ _ _ H) as (ep & mp & Pe & Pm).
  destruct (process_existing_ok _ _ _ Pe) as (fp & Hfp & _).
  assert (Pe' : process_existing (keep_metric existing_sample filter) filter
                = Ok ep).
  { unfold process_existing in *.
    rewrite (filter_project_keep_metric _ _ _ _ Hfp).
    rewrite Hfp in Pe. exact Pe. }
  assert (Pm' : process_metric (keep_metric metric filter) filter = Ok mp)
    by (apply filter_project_keep_metric; exact Pm).
  unfold compare_reports in *. rewrite Pe, Pm in H. now rewrite Pe', Pm'.
Qed.

Lemma other_metrics_do_not_count_witness :
  exists out,
    compare_reports Samples.baseline Samples.report "asf" = Ok out
    /\ compare_reports (keep_metric Samples.baseline "asf")
         (keep_metric Samples.report "asf") "asf" = Ok out
    /\ List.length (rows (keep_metric Samples.baseline "asf")) = 2.
Proof.
  eexists.
  assert (E : compare_reports Samples.baseline Samples.report "asf" = Ok _)
    by (vm_compute; reflexivity).
  split; [exact E |].
  split; [exact (other_metrics_do_not_count _ _ _ _ E) | reflexivity].
Defined.

(** ** The orchestrator, file by file *)

Lemma io_bind_fail {A B : Type} (m : io A) (k : A -> io B) (fs : filesystem)
      (t : list fs_event) (e : exn) :
  m fs = (t, Raise e) -> io_bind m k fs = (t, Raise e).
Proof.
  intros Hm. unfold io_bind. now rewrite Hm.
Qed.

Lemma io_bind_lift_fail {A B : Type} (e : exn) (k : A -> io B) (fs : filesystem) :
  io_bind (io_lift (Raise e)) k fs = ([], Raise e).
Proof. reflexivity. Qed.

(** One comparison of the batch, once its path is known. *)
Definition comparison_outcome (existing_sample : DataFrame) (fs : filesystem)
           (p key filter : string) (comparisons : list (string * DataFrame))
  : list fs_event * result (list (string * DataFrame)) :=
  match fs p with
  | None => ([PathExists p], Raise FileNotFoundError)
  | Some (Unreadable kind) =>
      ([PathExists p; ReadCsv p], Raise (ReadError kind))
  | Some (Table report) =>
      ([PathExists p; ReadCsv p],
       match compare_reports existing_sample report filter with
       | Ok c => Ok (dict_set comparisons key c)
       | Raise e => Raise e
       end)
  end.

Lemma one_comparison_eval
      (cfg : config) (fs : filesystem) (existing_sample : DataFrame)
      (source key filter p : string) (comparisons : list (string * DataFrame)) :
  metrics_path cfg source = Ok p ->
  one_comparison cfg existing_sample source key filter comparisons fs
  = comparison_outcome existing_sample fs p key filter comparisons.
Proof.
  intros Hp. unfold one_comparison, comparison_outcome.
  rewrite Hp, io_bind_lift_ok; cbv beta zeta.
  destruct (fs p) as [[report|kind]|] eqn:Hfs.
  - rewrite (io_bind_ok _ _ fs _ _ (load_report_present p fs report Hfs));
      cbv beta zeta.
    destruct (compare_reports existing_sample report filter) as [c|e].
    + rewrite io_bind_lift_ok. reflexivity.
    + rewrite io_bind_lift_fail. reflexivity.
  - now rewrite (io_bind_fail _ _ fs _ _ (load_report_unreadable p fs kind Hfs)).
  - now rewrite (io_bind_fail _ _ fs _ _ (load_report_absent p fs Hfs)).
Qed.

Lemma baseline_loaded
      (cfg : config) (metric_type : string) (fs : filesystem)
      (configured : string) (existing_sample : DataFrame) :
  metrics_path cfg "existing_sample" = Ok configured ->
  fs (PyStr.replace "../" "" configured) = Some (Table existing_sample) ->
  exists k : io (list (string * DataFrame)),
    compare_all_reports cfg metric_type fs
    = ([PathExists (PyStr.replace "../" "" configured);
        PathExists (PyStr.replace "../" "" configured);
        ReadCsv (PyStr.replace "../" "" configured)] ++ fst (k fs), snd (k fs))
    /\ k = (if String.eqb metric_type "all" then
              asf_path <~ io_lift (metrics_path cfg "asf_apa_new") ;;
              asf_report <~ load_report asf_path ;;
              asf <~ io_lift (compare_reports existing_sample asf_report "asf") ;;
              apa_report <~ load_report asf_path ;;
              apa <~ io_lift (compare_reports existing_sample apa_report "apa") ;;
              comparisons <~ one_comparison cfg existing_sample
                               "psf_new" "psf" "psf"
                               (dict_set (dict_set [] "asf" asf) "apa" apa) ;;
              one_comparison cfg existing_sample "ssf_new" "ssf" "ssf"
                comparisons
            else if (String.eqb metric_type "asf"
                     || String.eqb metric_type "apa")%bool
            then one_comparison cfg existing_sample
                   "asf_apa_new" metric_type metric_type []
            else if String.eqb metric_type "psf" then
              one_comparison cfg existing_sample "psf_new" metric_type "psf" []
            else if String.eqb metric_type "ssf" then
              one_comparison cfg existing_sample "ssf_new" metric_type "ssf" []
            else io_raise ValueError).
Proof.
  intros Hcfg Hfs. eexists. split; [| reflexivity].
  unfold compare_all_reports.
  rewrite Hcfg, io_bind_lift_ok; cbv beta zeta.
  revert Hfs. generalize (PyStr.replace "../" "" configured). intros p Hfs.
  assert (Pe : path_exists p fs = ([PathExists p], Ok true)).
  { unfold path_exists. now rewrite Hfs. }
  rewrite (io_bind_ok _ _ fs _ _ Pe); cbv beta zeta; cbn [negb].
  rewrite (io_bind_ok _ _ fs _ _ (load_report_present p fs _ Hfs));
    cbv beta zeta.
  reflexivity.
Qed.

(** X10: without the baseline file nothing is read: whatever the metric
    type, [compare_all_reports] asks once whether the file is there and
    raises [FileNotFoundError]; and without the [existing_sample] entry in
    the configuration it raises [KeyError] before any access to the file
    system. *)
Theorem missing_baseline_stops_everything
        (cfg : config) (metric_type : string) (fs : filesystem) :
  (forall configured,
      metrics_path cfg "existing_sample" = Ok configured ->
      fs (PyStr.replace "../" "" configured) = None ->
      compare_all_reports cfg metric_type fs
      = ([PathExists (PyStr.replace "../" "" configured)],
         Raise FileNotFoundError))
  /\ (metrics_path cfg "existing_sample" = Raise KeyError ->
      compare_all_reports cfg metric_type fs = ([], Raise KeyError)).
Proof.
  split.
  - intros configured Hcfg Hfs. unfold compare_all_reports.
    rewrite Hcfg, io_bind_lift_ok; cbv beta zeta.
    revert Hfs. generalize (PyStr.replace "../" "" configured). intros p Hfs.
    assert (Pe : path_exists p fs = ([PathExists p], Ok false)).
    { unfold path_exists. now rewrite Hfs. }
    now rewrite (io_bind_ok _ _ fs _ _ Pe).
  - intros Hcfg. unfold compare_all_reports. now rewrite Hcfg.
Qed.

Lemma missing_baseline_stops_everything_witness :
  compare_all_reports Samples.cfg "all" (fun _ => None)
  = ([PathExists "data/existing_sample.csv"], Raise FileNotFoundError).
Proof.
  apply (proj1 (missing_baseline_stops_everything
                  Samples.cfg "all" (fun _ => None))
           "../data/existing_sample.csv"); reflexivity.
Defined.

(** The configuration entry a single metric type is read from. *)
Definition source_of (metric_type : string) : string :=
  if (String.eqb metric_type "asf" || String.eqb metric_type "apa")%bool
  then "asf_apa_new"
  else if String.eqb metric_type "psf" then "psf_new" else "ssf_new".

(** X11: for one of the types asf, apa, psf, ssf and a loaded baseline,
    [compare_all_reports] touches one more file, the one configured for
    the type (asf and apa share [asf_apa_new]): when the file is missing
    it raises [FileNotFoundError] without reading; otherwise it reads the
    file once and raises what [read_csv] raised on it, or returns the
    single comparison, under the type as key, or raises what
    [compare_reports] raised. *)
Theorem compare_all_reports_single
        (cfg : config) (metric_type : string) (fs : filesystem)
        (configured p : string) (existing_sample : DataFrame) :
  In metric_type ["asf"; "apa"; "psf"; "ssf"] ->
  metrics_path cfg "existing_sample" = Ok configured ->
  fs (PyStr.replace "../" "" configured) = Some (Table existing_sample) ->
  metrics_path cfg (source_of metric_type) = Ok p ->
  let b := PyStr.replace "../" "" configured in
  compare_all_reports cfg metric_type fs
  = match fs p with
    | None =>
        ([PathExists b; PathExists b; ReadCsv b; PathExists p],
         Raise FileNotFoundError)
    | Some (Unreadable kind) =>
        ([PathExists b; PathExists b; ReadCsv b; PathExists p; ReadCsv p],
         Raise (ReadError kind))
    | Some (Table report) =>
        ([PathExists b; PathExists b; ReadCsv b; PathExists p; ReadCsv p],
         match compare_reports existing_sample report metric_type with
         | Ok c => Ok [(metric_type, c)]
         | Raise e => Raise e
         end)
    end.
Proof.
  intros Hmt Hcfg Hfs Hp b. subst b.
  destruct (baseline_loaded cfg metric_type fs configured existing_sample
              Hcfg Hfs) as (k & -> & ->).
  destruct Hmt as [<- | [<- | [<- | [<- | []]]]];
    cbn [String.eqb Ascii.eqb Bool.eqb orb];
    rewrite (one_comparison_eval cfg fs existing_sample _ _ _ p _ Hp);
    unfold comparison_outcome; destruct (fs p) as [[report|kind]|];
    reflexivity.
Qed.

Lemma compare_all_reports_single_witness :
  exists c,
    compare_all_reports Samples.cfg "apa" Samples.fs
    = ([PathExists "data/existing_sample.csv";
        PathExists "data/existing_sample.csv";
        ReadCsv "data/existing_sample.csv";
        PathExists "../data/asf_apa.csv"; ReadCsv "../data/asf_apa.csv"],
       Ok [("apa"%string, c)]).
Proof.
  eexists.
  rewrite (compare_all_reports_single Samples.cfg "apa" Samples.fs
             "../data/existing_sample.csv" "../data/asf_apa.csv"
             Samples.baseline);
    [| simpl; tauto | reflexivity | reflexivity | reflexivity].
  vm_compute. reflexivity.
Defined.

(** ** What [compare_reports] can raise *)

Lemma bind_never {A B : Type} (P : exn -> Prop)
      (m : result A) (k : A -> result B) :
  (forall e, m = Raise e -> P e) ->
  (forall a e, k a = Raise e -> P e) ->
  forall e, bind m k = Raise e -> P e.
Proof.
  intros Hm Hk e H. apply bind_raise in H.
  destruct H as [H | (a & _ & H)]; [exact (Hm e H) | exact (Hk a e H)].
Qed.

Lemma mapM_never {A B : Type} (P : exn -> Prop) (f : A -> result B)
      (l : list A) :
  (forall a e, f a = Raise e -> P e) ->
  forall e, mapM f l = Raise e -> P e.
Proof.
  intros Hf e H. apply mapM_raise in H. destruct H as (a & _ & H).
  exact (Hf a e H).
Qed.

(** The exceptions of the table operations: none is about files. *)
Definition table_error (e : exn) : Prop :=
  match e with
  | FileNotFoundError | ReadError _ => False
  | _ => True
  end.

Lemma schema_error_table_error (e : exn) : schema_error e -> table_error e.
Proof. intros [-> | ->]; exact I. Qed.

Lemma key_error_table_error (e : exn) : e = KeyError -> table_error e.
Proof. intros ->. exact I. Qed.

Lemma select_error (df : DataFrame) (names : list string) (e : exn) :
  select df names = Raise e -> table_error e.
Proof.
  unfold select. apply bind_never; [| discriminate].
  apply mapM_never. intros n e' H.
  exact (key_error_table_error _ (lookup_column_error _ _ _ H)).
Qed.

Lemma astype_float_error (s : Series) (e : exn) :
  astype_float s = Raise e -> table_error e.
Proof.
  unfold astype_float. apply mapM_never. intros [|t|x] e'; cbn;
    try discriminate.
  destruct (PyFloat.float_of_string t); [discriminate |].
  intros [= <-]. exact I.
Qed.

Lemma format_comparison_error (m v : cell) (e : exn) :
  format_comparison m v = Raise e -> table_error e.
Proof.
  unfold format_comparison.
  destruct m as [|t|x]; try (intros [= <-]; exact I).
  destruct v as [|t|y]; try (intros [= <-]; exact I).
  destruct (PyFloat.int_round0 _); intros [= <-]; exact I.
Qed.

Lemma comparison_lambda_error (cols : list (string * dtype)) (r : row) (e : exn) :
  comparison_lambda (row_getitem cols r) = Raise e -> table_error e.
Proof.
  assert (G : forall n e', row_getitem cols r n = Raise e' -> table_error e').
  { intros n e'. unfold row_getitem. apply bind_never; [| discriminate].
    intros e'' H. exact (key_error_table_error _ (lookup_column_error _ _ _ H)). }
  unfold comparison_lambda. apply bind_never; [apply G |].
  intros m e'. destruct (notnull m); [| discriminate].
  apply bind_never; [apply G |].
  intros v e''. destruct (notnull v); [| discriminate].
  apply bind_never; [apply format_comparison_error | discriminate].
Qed.

Lemma merge_error (left right : DataFrame) (key sl sr : string) (e : exn) :
  merge left right key sl sr = Raise e -> table_error e.
Proof.
  unfold merge. apply bind_never.
  { intros e' H. exact (key_error_table_error _ (lookup_column_error _ _ _ H)). }
  intros pl e'. apply bind_never.
  { intros e'' H. exact (key_error_table_error _ (lookup_column_error _ _ _ H)). }
  intros pr e''. destruct (merge_keys_ok _ _ _ _); [discriminate |].
  intros [= <-]. exact I.
Qed.

Lemma apply_rows_error (df : DataFrame) (e : exn) :
  apply_rows comparison_lambda df = Raise e -> table_error e.
Proof.
  unfold apply_rows. destruct (rows df) as [|r rs].
  - destruct (comparison_lambda _); discriminate.
  - apply bind_never; [| discriminate].
    apply mapM_never. intros r' e'. apply comparison_lambda_error.
Qed.

Lemma setitem_applied_error (df : DataFrame) (n : string) (a : applied)
      (e : exn) :
  setitem_applied df n a = Raise e -> table_error e.
Proof.
  destruct a as [s|v]; cbn [setitem_applied]; [discriminate |].
  destruct (columns v) as [|[c d] [|c' cs]]; try discriminate;
    intros [= <-]; exact I.
Qed.

Lemma compare_reports_error
      (existing_sample metric : DataFrame) (filter : string) (e : exn) :
  compare_reports existing_sample metric filter = Raise e -> table_error e.
Proof.
  assert (G : forall df n e', getitem df n = Raise e' -> table_error e').
  { intros df n e' H. exact (key_error_table_error _ (getitem_error _ _ _ H)). }
  unfold compare_reports. apply bind_never.
  { intros e' H. exact (schema_error_table_error _ (process_existing_error _ _ _ H)). }
  intros ep e1. apply bind_never.
  { intros e' H. exact (schema_error_table_error _ (filter_project_error _ _ _ _ H)). }
  intros mp e2. apply bind_never.
  { unfold join_and_derive. apply bind_never; [intros e'; apply merge_error |].
    intros c e'. apply bind_never; [apply apply_rows_error |].
    intros a e''. apply setitem_applied_error. }
  intros c e3. unfold finish.
  apply bind_never; [intros e'; apply select_error |].
  intros c1 e4. apply bind_never; [apply G |].
  intros s1 e5. apply bind_never; [intros e'; apply astype_float_error |].
  intros x1 e6. apply bind_never; [apply G |].
  intros s2 e7. apply bind_never; [intros e'; apply astype_float_error |].
  discriminate.
Qed.

(** ** What a returned batch holds *)

Lemma baseline_absent
      (cfg : config) (metric_type : string) (fs : filesystem)
      (configured : string) :
  metrics_path cfg "existing_sample" = Ok configured ->
  fs (PyStr.replace "../" "" configured) = None ->
  compare_all_reports cfg metric_type fs
  = ([PathExists (PyStr.replace "../" "" configured)], Raise FileNotFoundError).
Proof.
  intros Hcfg Hfs. unfold compare_all_reports.
  rewrite Hcfg, io_bind_lift_ok; cbv beta zeta.
  revert Hfs. generalize (PyStr.replace "../" "" configured). intros p Hfs.
  assert (Pe : path_exists p fs = ([PathExists p], Ok false)).
  { unfold path_exists. now rewrite Hfs. }
  now rewrite (io_bind_ok _ _ fs _ _ Pe).
Qed.

Lemma baseline_unreadable
      (cfg : config) (metric_type : string) (fs : filesystem)
      (configured : string) (kind : read_error) :
  metrics_path cfg "existing_sample" = Ok configured ->
  fs (PyStr.replace "../" "" configured) = Some (Unreadable kind) ->
  compare_all_reports cfg metric_type fs
  = ([PathExists (PyStr.replace "../" "" configured);
      PathExists (PyStr.replace "../" "" configured);
      ReadCsv (PyStr.replace "../" "" configured)], Raise (ReadError kind)).
Proof.
  intros Hcfg Hfs. unfold compare_all_reports.
  rewrite Hcfg, io_bind_lift_ok; cbv beta zeta.
  revert Hfs. generalize (PyStr.replace "../" "" configured). intros p Hfs.
  assert (Pe : path_exists p fs = ([PathExists p], Ok true)).
  { unfold path_exists. now rewrite Hfs. }
  rewrite (io_bind_ok _ _ fs _ _ Pe); cbv beta zeta; cbn [negb fst snd].
  now rewrite (io_bind_fail _ _ fs _ _ (load_report_unreadable p fs kind Hfs)).
Qed.

Lemma one_comparison_ok
      (cfg : config) (fs : filesystem) (existing_sample : DataFrame)
      (source key filter : string) (comparisons d : list (string * DataFrame)) :
  snd (one_comparison cfg existing_sample source key filter comparisons fs)
  = Ok d ->
  exists p report c,
    metrics_path cfg source = Ok p
    /\ fs p = Some (Table report)
    /\ compare_reports existing_sample report filter = Ok c
    /\ d = dict_set comparisons key c
    /\ one_comparison cfg existing_sample source key filter comparisons fs
       = ([PathExists p; ReadCsv p], Ok d).
Proof.
  destruct (metrics_path cfg source) as [p|e] eqn:Hp.
  - rewrite (one_comparison_eval cfg fs existing_sample _ _ _ p _ Hp).
    unfold comparison_outcome.
    destruct (fs p) as [[report|kind]|] eqn:Hfs; [| discriminate ..].
    destruct (compare_reports existing_sample report filter) as [c|e] eqn:Hc;
      [| discriminate].
    cbn [snd]. intros [= <-]. exists p, report, c. repeat split; assumption.
  - unfold one_comparison. rewrite Hp. discriminate.
Qed.

(** X12: a batch that is returned is complete and made of the configured
    files: the metric type was one of the five, the keys are the four
    types in the order asf, apa, psf, ssf for ["all"] and the type itself
    otherwise, and every entry is what [compare_reports] gives on the
    baseline file (looked up without its ["../"]) and the file configured
    for the entry's type, with the key as filter. No batch holds fewer
    comparisons than asked for. *)
Theorem compare_all_reports_sound
        (cfg : config) (metric_type : string) (fs : filesystem)
        (d : list (string * DataFrame)) :
  snd (compare_all_reports cfg metric_type fs) = Ok d ->
  In metric_type metric_types
  /\ map fst d = (if String.eqb metric_type "all"
                  then ["asf"; "apa"; "psf"; "ssf"] else [metric_type])
  /\ exists configured existing_sample,
      metrics_path cfg "existing_sample" = Ok configured
      /\ fs (PyStr.replace "../" "" configured) = Some (Table existing_sample)
      /\ forall key c,
          In (key, c) d ->
          exists p report,
            metrics_path cfg (source_of key) = Ok p
            /\ fs p = Some (Table report)
            /\ compare_reports existing_sample report key = Ok c.
Proof.
  intros H.
  destruct (metrics_path cfg "existing_sample") as [configured|e] eqn:Hcfg;
    [| unfold compare_all_reports in H; rewrite Hcfg in H; discriminate H].
  destruct (fs (PyStr.replace "../" "" configured))
    as [[existing_sample|kind]|] eqn:Hfs;
    [| rewrite (baseline_unreadable cfg metric_type fs configured kind
                  Hcfg Hfs) in H; discriminate H
     | rewrite (baseline_absent cfg metric_type fs configured Hcfg Hfs) in H;
       discriminate H].
  destruct (baseline_loaded cfg metric_type fs configured existing_sample
              Hcfg Hfs) as (k & E & ->).
  rewrite E in H. cbn [snd] in H. clear E.
  assert (Single :
    forall source,
      source_of metric_type = source ->
      String.eqb metric_type "all" = false ->
      snd (one_comparison cfg existing_sample source metric_type metric_type
             [] fs) = Ok d ->
      map fst d = [metric_type]
      /\ forall key c,
          In (key, c) d ->
          exists p report,
            metrics_path cfg (source_of key) = Ok p
            /\ fs p = Some (Table report)
            /\ compare_reports existing_sample report key = Ok c).
  { intros source Hs _ H1.
    destruct (one_comparison_ok _ _ _ _ _ _ _ _ H1)
      as (p & report & c & Hp & Hr & Hc & -> & _).
    split; [reflexivity |].
    intros key c' [[= <- <-] | []]. exists p, report.
    rewrite Hs. repeat split; assumption. }
  destruct (String.eqb metric_type "all") eqn:Eall.
  - apply String.eqb_eq in Eall. subst metric_type.
    split; [simpl; tauto |].
    destruct (metrics_path cfg "asf_apa_new") as [pa|e] eqn:Ha;
      [| discriminate H].
    rewrite io_bind_lift_ok in H; cbv beta zeta in H.
    destruct (fs pa) as [[shared|kind]|] eqn:Fa;
      [| rewrite (io_bind_fail _ _ fs _ _
                    (load_report_unreadable pa fs kind Fa)) in H;
         discriminate H
       | rewrite (io_bind_fail _ _ fs _ _ (load_report_absent pa fs Fa)) in H;
         discriminate H].
    rewrite (io_bind_ok _ _ fs _ _ (load_report_present pa fs shared Fa)) in H;
      cbv beta zeta in H; cbn [snd] in H.
    destruct (compare_reports existing_sample shared "asf") as [asf|e] eqn:Casf;
      [| discriminate H].
    rewrite io_bind_lift_ok in H; cbv beta zeta in H.
    rewrite (io_bind_ok _ _ fs _ _ (load_report_present pa fs shared Fa)) in H;
      cbv beta zeta in H; cbn [snd] in H.
    destruct (compare_reports existing_sample shared "apa") as [apa|e] eqn:Capa;
      [| discriminate H].
    rewrite io_bind_lift_ok in H; cbv beta zeta in H.
    cbn [dict_set String.eqb Ascii.eqb Bool.eqb] in H.
    destruct (one_comparison cfg existing_sample "psf_new" "psf" "psf"
                [("asf"%string, asf); ("apa"%string, apa)] fs)
      as [t [d1|e]] eqn:Epsf;
      [| rewrite (io_bind_fail _ _ fs _ _ Epsf) in H; discriminate H].
    rewrite (io_bind_ok _ _ fs _ _ Epsf) in H; cbn [snd] in H.
    assert (Epsf' := f_equal snd Epsf). cbn [snd] in Epsf'.
    destruct (one_comparison_ok _ _ _ _ _ _ _ _ Epsf')
      as (pp & rp & psf & Hpp & Frp & Cpsf & -> & _).
    destruct (one_comparison_ok _ _ _ _ _ _ _ _ H)
      as (ps & rs & ssf & Hps & Frs & Cssf & -> & _).
    split; [reflexivity |].
    exists configured, existing_sample. split; [reflexivity |].
    split; [exact Hfs |].
    cbn [dict_set String.eqb Ascii.eqb Bool.eqb].
    intros key c [[= <- <-] | [[= <- <-] | [[= <- <-] | [[= <- <-] | []]]]].
    + exists pa, shared. repeat split; assumption.
    + exists pa, shared. repeat split; assumption.
    + exists pp, rp. repeat split; assumption.
    + exists ps, rs. repeat split; assumption.
  - assert (Known : In metric_type metric_types
                    /\ snd (one_comparison cfg existing_sample
                              (source_of metric_type) metric_type metric_type
                              [] fs) = Ok d).
    { unfold source_of.
      destruct (String.eqb metric_type "asf" || String.eqb metric_type "apa")%bool
        eqn:E1.
      { split; [| exact H].
        apply orb_true_iff in E1.
        destruct E1 as [E1 | E1]; apply String.eqb_eq in E1; subst;
          simpl; tauto. }
      destruct (String.eqb metric_type "psf") eqn:E2.
      { apply String.eqb_eq in E2. subst. split; [simpl; tauto | exact H]. }
      destruct (String.eqb metric_type "ssf") eqn:E3; [| discriminate H].
      apply String.eqb_eq in E3. subst. split; [simpl; tauto | exact H]. }
    destruct Known as (Hin & H1).
    split; [exact Hin |].
    destruct (Single _ eq_refl eq_refl H1) as (Hk & Hd).
    split; [exact Hk |].
    exists configured, existing_sample. repeat split; assumption.
Qed.

Lemma compare_all_reports_sound_witness :
  exists d,
    snd (compare_all_reports Samples.cfg "all" Samples.fs) = Ok d
    /\ map fst d = ["asf"; "apa"; "psf"; "ssf"].
Proof.
  assert (E : exists d, snd (compare_all_reports Samples.cfg "all" Samples.fs)
                        = Ok d).
  { eexists. vm_compute. reflexivity. }
  destruct E as (d & E). exists d. split; [exact E |].
  exact (proj1 (proj2 (compare_all_reports_sound
                         Samples.cfg "all" Samples.fs d E))).
Defined.

(** X13: the batch of ["all"] stops at its first failure and returns
    nothing of what it had computed: an exception of the asf comparison is
    raised once the shared file has been read, before the second read; one
    of the apa comparison after the second read; and a missing PSF file
    raises [FileNotFoundError] although asf and apa succeeded. The files
    further down the list are not asked for. *)
Theorem batch_stops_at_first_failure
        (cfg : config) (fs : filesystem) (configured pa : string)
        (existing_sample shared : DataFrame) :
  metrics_path cfg "existing_sample" = Ok configured ->
  fs (PyStr.replace "../" "" configured) = Some (Table existing_sample) ->
  metrics_path cfg "asf_apa_new" = Ok pa ->
  fs pa = Some (Table shared) ->
  let q := PyStr.replace "../" "" configured in
  (forall e,
      compare_reports existing_sample shared "asf" = Raise e ->
      compare_all_reports cfg "all" fs
      = ([PathExists q; PathExists q; ReadCsv q; PathExists pa; ReadCsv pa],
         Raise e))
  /\ (forall asf e,
         compare_reports existing_sample shared "asf" = Ok asf ->
         compare_reports existing_sample shared "apa" = Raise e ->
         compare_all_reports cfg "all" fs
         = ([PathExists q; PathExists q; ReadCsv q; PathExists pa; ReadCsv pa;
             PathExists pa; ReadCsv pa], Raise e))
  /\ (forall asf apa pp,
         compare_reports existing_sample shared "asf" = Ok asf ->
         compare_reports existing_sample shared "apa" = Ok apa ->
         metrics_path cfg "psf_new" = Ok pp ->
         fs pp = None ->
         compare_all_reports cfg "all" fs
         = ([PathExists q; PathExists q; ReadCsv q; PathExists pa; ReadCsv pa;
             PathExists pa; ReadCsv pa; PathExists pp],
            Raise FileNotFoundError)).
Proof.
  intros Hcfg Hfs Ha Fa q. subst q.
  destruct (baseline_loaded cfg "all" fs configured existing_sample Hcfg Hfs)
    as (k & -> & ->).
  cbn [String.eqb Ascii.eqb Bool.eqb].
  rewrite Ha, io_bind_lift_ok; cbv beta zeta.
  rewrite (io_bind_ok _ _ fs _ _ (load_report_present pa fs shared Fa));
    cbv beta zeta; cbn [fst snd].
  split; [| split].
  - intros e Casf. rewrite Casf, io_bind_lift_fail. reflexivity.
  - intros asf e Casf Capa. rewrite Casf, io_bind_lift_ok; cbv beta zeta.
    rewrite (io_bind_ok _ _ fs _ _ (load_report_present pa fs shared Fa));
      cbv beta zeta; cbn [fst snd].
    rewrite Capa, io_bind_lift_fail. reflexivity.
  - intros asf apa pp Casf Capa Hp Fp.
    rewrite Casf, io_bind_lift_ok; cbv beta zeta.
    rewrite (io_bind_ok _ _ fs _ _ (load_report_present pa fs shared Fa));
      cbv beta zeta; cbn [fst snd].
    rewrite Capa, io_bind_lift_ok; cbv beta zeta.
    assert (E : one_comparison cfg existing_sample "psf_new" "psf" "psf"
                  (dict_set (dict_set [] "asf" asf) "apa" apa) fs
                = ([PathExists pp], Raise FileNotFoundError)).
    { rewrite (one_comparison_eval cfg fs existing_sample _ _ _ pp _ Hp).
      unfold comparison_outcome. now rewrite Fp. }
    rewrite (io_bind_fail _ _ fs _ _ E). reflexivity.
Qed.

(** The sample directory without [data/psf.csv]. *)
Definition fs_without_psf : filesystem :=
  fun p => if String.eqb p "data/psf.csv" then None else Samples.fs p.

Lemma batch_stops_at_first_failure_witness :
  compare_all_reports Samples.cfg "all" fs_without_psf
  = ([PathExists "data/existing_sample.csv";
      PathExists "data/existing_sample.csv";
      ReadCsv "data/existing_sample.csv";
      PathExists "../data/asf_apa.csv"; ReadCsv "../data/asf_apa.csv";
      PathExists "../data/asf_apa.csv"; ReadCsv "../data/asf_apa.csv";
      PathExists "data/psf.csv"], Raise FileNotFoundError).
Proof.
  assert (Casf : compare_reports Samples.baseline Samples.report "asf" = Ok _)
    by (vm_compute; reflexivity).
  assert (Capa : compare_reports Samples.baseline Samples.report "apa" = Ok _)
    by (vm_compute; reflexivity).
  exact (proj2 (proj2 (batch_stops_at_first_failure
                         Samples.cfg fs_without_psf
                         "../data/existing_sample.csv" "../data/asf_apa.csv"
                         Samples.baseline Samples.report
                         eq_refl eq_refl eq_refl eq_refl))
           _ _ "data/psf.csv" Casf Capa eq_refl eq_refl).
Defined.

(** ** The validation before the run *)

Lemma io_bind_snd {A B : Type} (m : io A) (k : A -> io B) (fs : filesystem) :
  snd (io_bind m k fs)
  = match snd (m fs) with
    | Ok a => snd (k a fs)
    | Raise e => Raise e
    end.
Proof.
  unfold io_bind. destruct (m fs) as [t [a|e]]; [| reflexivity].
  cbn [snd]. now destruct (k a fs).
Qed.

Lemma io_bind_fst {A B : Type} (m : io A) (k : A -> io B) (fs : filesystem) :
  fst (io_bind m k fs)
  = fst (m fs) ++ match snd (m fs) with
                  | Ok a => fst (k a fs)
                  | Raise e => []
                  end.
Proof.
  unfold io_bind. destruct (m fs) as [t [a|e]]; cbn [fst snd].
  - now destruct (k a fs).
  - now rewrite app_nil_r.
Qed.

(** The metric files a choice needs, in the order they are looked for. *)
Definition required_sources (metric_choice : string) : list string :=
  if (String.eqb metric_choice "asf" || String.eqb metric_choice "apa")%bool
  then ["asf_apa_new"]
  else if String.eqb metric_choice "psf" then ["psf_new"]
  else if String.eqb metric_choice "ssf" then ["ssf_new"]
  else if String.eqb metric_choice "all" then ["asf_apa_new"; "psf_new"; "ssf_new"]
  else [].

(** The configuration names a path for the source, and a file is there. *)
Definition file_present (cfg : config) (fs : filesystem) (name : string) : Prop :=
  exists p, metrics_path cfg name = Ok p /\ fs p <> None.

Lemma all_metric_files_exist_one (cfg : config) (fs : filesystem) (name : string) :
  all_metric_files_exist cfg [name] fs = metric_file_exists cfg name fs.
Proof.
  cbn [all_metric_files_exist]. unfold metric_file_exists.
  destruct (metrics_path cfg name) as [p|e]; [| reflexivity].
  unfold io_bind, io_lift, path_exists, io_ret. cbn.
  destruct (fs p); reflexivity.
Qed.

Lemma validate_required_files_loop
      (metric_choice : string) (cfg : config) (fs : filesystem)
      (configured : string) :
  metrics_path cfg "existing_sample" = Ok configured ->
  let p := PyStr.replace "../" "" configured in
  validate_required_files metric_choice cfg fs
  = match fs p with
    | None => ([PathExists p], Ok false)
    | Some _ =>
        (PathExists p
         :: fst (all_metric_files_exist cfg (required_sources metric_choice) fs),
         snd (all_metric_files_exist cfg (required_sources metric_choice) fs))
    end.
Proof.
  intros Hcfg p. subst p. unfold validate_required_files.
  rewrite Hcfg, io_bind_lift_ok; cbv beta zeta.
  generalize (PyStr.replace "../" "" configured). intros p.
  destruct (fs p) as [df|] eqn:Hfs.
  - assert (Pe : path_exists p fs = ([PathExists p], Ok true)).
    { unfold path_exists. now rewrite Hfs. }
    rewrite (io_bind_ok _ _ fs _ _ Pe); cbv beta zeta; cbn [negb app].
    unfold required_sources.
    destruct (String.eqb metric_choice "asf" || String.eqb metric_choice "apa")%bool;
      [now rewrite all_metric_files_exist_one |].
    destruct (String.eqb metric_choice "psf");
      [now rewrite all_metric_files_exist_one |].
    destruct (String.eqb metric_choice "ssf");
      [now rewrite all_metric_files_exist_one |].
    destruct (String.eqb metric_choice "all"); reflexivity.
  - assert (Pe : path_exists p fs = ([PathExists p], Ok false)).
    { unfold path_exists. now rewrite Hfs. }
    now rewrite (io_bind_ok _ _ fs _ _ Pe).
Qed.

Lemma metric_file_exists_true (cfg : config) (fs : filesystem) (name : string) :
  snd (metric_file_exists cfg name fs) = Ok true <-> file_present cfg fs name.
Proof.
  unfold metric_file_exists, file_present.
  destruct (metrics_path cfg name) as [p|e].
  - rewrite io_bind_lift_ok. unfold path_exists. cbn [snd]. split.
    + intros H. exists p. split; [reflexivity |].
      destruct (fs p); [discriminate | discriminate H].
    + intros (p' & [= <-] & H). destruct (fs p); [reflexivity | now elim H].
  - split; [discriminate |]. intros (p & H & _). discriminate H.
Qed.

Lemma all_metric_files_exist_true
      (cfg : config) (fs : filesystem) (names : list string) :
  snd (all_metric_files_exist cfg names fs) = Ok true
  <-> Forall (file_present cfg fs) names.
Proof.
  induction names as [|n names IH]; cbn [all_metric_files_exist].
  - split; [constructor | reflexivity].
  - rewrite io_bind_snd, Forall_cons_iff, <- IH, <- metric_file_exists_true.
    destruct (snd (metric_file_exists cfg n fs)) as [[|]|e].
    + tauto.
    + cbn. split; [discriminate | intros [H _]; discriminate H].
    + split; [discriminate | intros [H _]; discriminate H].
Qed.

(** X14: [validate_required_files] answers [True] exactly when the
    baseline file is there, under its path without ["../"], and so is
    every metric file the choice needs, under its path as configured: the
    shared file for asf and apa, the PSF file for psf, the SSF file for
    ssf, all three for all, and none for any other choice, which therefore
    passes the validation with the baseline alone. *)
Theorem validate_required_files_true
        (metric_choice : string) (cfg : config) (fs : filesystem) :
  snd (validate_required_files metric_choice cfg fs) = Ok true
  <-> (exists configured,
          metrics_path cfg "existing_sample" = Ok configured
          /\ fs (PyStr.replace "../" "" configured) <> None)
      /\ Forall (file_present cfg fs) (required_sources metric_choice).
Proof.
  destruct (metrics_path cfg "existing_sample") as [configured|e] eqn:Hcfg.
  - rewrite (validate_required_files_loop metric_choice cfg fs configured Hcfg).
    destruct (fs (PyStr.replace "../" "" configured)) as [df|] eqn:Hfs;
      cbn [snd].
    + rewrite all_metric_files_exist_true. split.
      * intros H. split; [| exact H].
        exists configured. split; [reflexivity |]. rewrite Hfs. discriminate.
      * intros [_ H]. exact H.
    + split; [discriminate |].
      intros [(c & [= <-] & H) _]. now elim H.
  - unfold validate_required_files. rewrite Hcfg. split; [discriminate |].
    intros [(c & H & _) _]. discriminate H.
Qed.

(** X15: [validate_required_files] only asks whether files exist: it
    reads none, it asks at most four questions, and a missing baseline
    ends it after the first with the answer [False]. *)
Theorem validate_required_files_only_asks
        (metric_choice : string) (cfg : config) (fs : filesystem) :
  let t := fst (validate_required_files metric_choice cfg fs) in
  Forall (fun e => exists p, e = PathExists p) t
  /\ List.length t <= 4
  /\ (forall configured,
         metrics_path cfg "existing_sample" = Ok configured ->
         fs (PyStr.replace "../" "" configured) = None ->
         validate_required_files metric_choice cfg fs
         = ([PathExists (PyStr.replace "../" "" configured)], Ok false)).
Proof.
  assert (One : forall name,
             Forall (fun e => exists p, e = PathExists p)
               (fst (metric_file_exists cfg name fs))
             /\ List.length (fst (metric_file_exists cfg name fs)) <= 1).
  { intros name. unfold metric_file_exists.
    destruct (metrics_path cfg name) as [p|e].
    - rewrite io_bind_lift_ok. cbn. split; [| lia].
      constructor; [now exists p | constructor].
    - cbn. split; [constructor | lia]. }
  assert (All : forall names,
             Forall (fun e => exists p, e = PathExists p)
               (fst (all_metric_files_exist cfg names fs))
             /\ List.length (fst (all_metric_files_exist cfg names fs))
                <= List.length names).
  { induction names as [|n names [IH1 IH2]]; cbn [all_metric_files_exist].
    - cbn. split; [constructor | lia].
    - rewrite io_bind_fst. destruct (One n) as [O1 O2].
      destruct (snd (metric_file_exists cfg n fs)) as [[|]|e].
      + split; [apply Forall_app; now split |].
        rewrite length_app. cbn [List.length]. lia.
      + cbn [io_ret fst]. rewrite app_nil_r. split; [exact O1 |].
        cbn [List.length]. lia.
      + rewrite app_nil_r. split; [exact O1 |]. cbn [List.length]. lia. }
  assert (Req : List.length (required_sources metric_choice) <= 3).
  { unfold required_sources.
    repeat match goal with
           | |- context [if ?b then _ else _] => destruct b
           end; cbn; lia. }
  intros t. subst t.
  destruct (metrics_path cfg "existing_sample") as [configured|e] eqn:Hcfg.
  - rewrite (validate_required_files_loop metric_choice cfg fs configured Hcfg).
    destruct (All (required_sources metric_choice)) as [A1 A2].
    destruct (fs (PyStr.replace "../" "" configured)) as [df|] eqn:Hfs;
      cbn [fst].
    + split; [constructor; [now eexists | exact A1] |].
      split; [cbn [List.length]; lia |].
      intros c [= <-] H. rewrite Hfs in H. discriminate H.
    + split; [constructor; [now eexists | constructor] |].
      split; [cbn; lia |].
      intros c [= <-] _. reflexivity.
  - unfold validate_required_files. rewrite Hcfg. cbn.
    split; [constructor |]. split; [lia |]. discriminate.
Qed.

(** Where a validated run can still fail. *)
Definition failed_read (fs : filesystem) (e : exn) : Prop :=
  exists p kind, fs p = Some (Unreadable kind) /\ e = ReadError kind.

Definition failed_comparison (cfg : config) (fs : filesystem) (e : exn) : Prop :=
  exists configured existing_sample source p report key,
    metrics_path cfg "existing_sample" = Ok configured
    /\ fs (PyStr.replace "../" "" configured) = Some (Table existing_sample)
    /\ metrics_path cfg source = Ok p
    /\ fs p = Some (Table report)
    /\ compare_reports existing_sample report key = Raise e.

Lemma failed_is_no_missing_file (cfg : config) (fs : filesystem) (e : exn) :
  failed_read fs e \/ failed_comparison cfg fs e -> e <> FileNotFoundError.
Proof.
  intros [(p & kind & _ & ->) | (c & x & s & p & r & k & _ & _ & _ & _ & C)].
  - discriminate.
  - intros ->. exact (compare_reports_error _ _ _ _ C).
Qed.

Lemma one_comparison_failed
      (cfg : config) (fs : filesystem) (configured : string)
      (existing_sample : DataFrame) (source key : string)
      (comparisons : list (string * DataFrame)) (e : exn) :
  metrics_path cfg "existing_sample" = Ok configured ->
  fs (PyStr.replace "../" "" configured) = Some (Table existing_sample) ->
  file_present cfg fs source ->
  snd (one_comparison cfg existing_sample source key key comparisons fs)
  = Raise e ->
  failed_read fs e \/ failed_comparison cfg fs e.
Proof.
  intros Hcfg Hfs (p & Hp & Hne) H.
  rewrite (one_comparison_eval cfg fs existing_sample _ _ _ p _ Hp) in H.
  unfold comparison_outcome in H.
  destruct (fs p) as [[report|kind]|] eqn:Fp; [| | now elim Hne];
    cbn [snd] in H.
  - destruct (compare_reports existing_sample report key) as [c|e1] eqn:C;
      [discriminate H |].
    injection H as ->. right.
    exists configured, existing_sample, source, p, report, key.
    repeat split; assumption.
  - injection H as <-. left. now exists p, kind.
Qed.

(** X16: once [validate_required_files] has answered [True] for one of
    the five metric types, [compare_all_reports] on the same configuration
    and files cannot fail for a missing file, a missing configuration entry
    or the metric type. Whatever it raises was raised by [read_csv] on a
    path that exists but holds no table, which the validation does not
    look at, or by [compare_reports] on the loaded baseline and a loaded
    report; it is no [FileNotFoundError]. *)
Theorem validated_run_finds_its_files
        (metric_choice : string) (cfg : config) (fs : filesystem) (e : exn) :
  In metric_choice metric_types ->
  snd (validate_required_files metric_choice cfg fs) = Ok true ->
  snd (compare_all_reports cfg metric_choice fs) = Raise e ->
  e <> FileNotFoundError
  /\ (failed_read fs e \/ failed_comparison cfg fs e).
Proof.
  intros Hin Hv He.
  enough (G : failed_read fs e \/ failed_comparison cfg fs e).
  { split; [exact (failed_is_no_missing_file cfg fs e G) | exact G]. }
  destruct (metrics_path cfg "existing_sample") as [configured|e0] eqn:Hcfg;
    [| unfold validate_required_files in Hv; rewrite Hcfg in Hv;
       discriminate Hv].
  rewrite (validate_required_files_loop metric_choice cfg fs configured Hcfg)
    in Hv.
  destruct (fs (PyStr.replace "../" "" configured))
    as [[existing_sample|kind]|] eqn:Hfs; [| | discriminate Hv].
  2:{ rewrite (baseline_unreadable cfg metric_choice fs configured kind
                 Hcfg Hfs) in He.
      cbn [snd] in He. injection He as <-. left.
      exists (PyStr.replace "../" "" configured), kind. now split. }
  cbn [snd] in Hv. apply all_metric_files_exist_true in Hv.
  destruct (baseline_loaded cfg metric_choice fs configured existing_sample
              Hcfg Hfs) as (k & E & ->).
  rewrite E in He. cbn [snd] in He. clear E.
  unfold required_sources in Hv.
  destruct Hin as [<- | [<- | [<- | [<- | [<- | []]]]]];
    cbn [String.eqb Ascii.eqb Bool.eqb orb] in Hv, He;
    try (apply Forall_cons_iff in Hv; destruct Hv as [Hv _];
         exact (one_comparison_failed _ _ _ _ _ _ _ _ Hcfg Hfs Hv He)).
  apply Forall_cons_iff in Hv. destruct Hv as [Ha Hv].
  apply Forall_cons_iff in Hv. destruct Hv as [Hp Hv].
  apply Forall_cons_iff in Hv. destruct Hv as [Hs _].
  destruct Ha as (pa & Ea & Na).
  rewrite Ea, io_bind_lift_ok in He; cbv beta zeta in He.
  destruct (fs pa) as [[shared|kind]|] eqn:Fa; [| | now elim Na].
  2:{ rewrite (io_bind_fail _ _ fs _ _ (load_report_unreadable pa fs kind Fa))
        in He.
      injection He as <-. left. now exists pa, kind. }
  rewrite (io_bind_ok _ _ fs _ _ (load_report_present pa fs shared Fa)) in He;
    cbv beta zeta in He; cbn [snd] in He.
  destruct (compare_reports existing_sample shared "asf") as [asf|e1] eqn:Casf.
  2:{ rewrite io_bind_lift_fail in He. injection He as ->. right.
      exists configured, existing_sample, "asf_apa_new"%string, pa, shared,
        "asf"%string.
      repeat split; assumption. }
  rewrite io_bind_lift_ok in He; cbv beta zeta in He.
  rewrite (io_bind_ok _ _ fs _ _ (load_report_present pa fs shared Fa)) in He;
    cbv beta zeta in He; cbn [snd] in He.
  destruct (compare_reports existing_sample shared "apa") as [apa|e1] eqn:Capa.
  2:{ rewrite io_bind_lift_fail in He. injection He as ->. right.
      exists configured, existing_sample, "asf_apa_new"%string, pa, shared,
        "apa"%string.
      repeat split; assumption. }
  rewrite io_bind_lift_ok in He; cbv beta zeta in He.
  rewrite io_bind_snd in He.
  destruct (snd (one_comparison cfg existing_sample "psf_new" "psf" "psf"
                   (dict_set (dict_set [] "asf" asf) "apa" apa) fs))
    as [d1|e1] eqn:Epsf.
  - exact (one_comparison_failed _ _ _ _ _ _ _ _ Hcfg Hfs Hs He).
  - injection He as ->.
    exact (one_comparison_failed _ _ _ _ _ _ _ _ Hcfg Hfs Hp Epsf).
Qed.

(** The sample directory with an empty file as PSF report: [read_csv]
    raises [EmptyDataError] on it. *)
Definition fs_with_empty_psf : filesystem :=
  fun p => if String.eqb p "data/psf.csv" then Some (Unreadable EmptyDataError)
           else Samples.fs p.

Lemma validated_run_finds_its_files_witness :
  snd (validate_required_files "psf" Samples.cfg fs_with_empty_psf) = Ok true
  /\ snd (compare_all_reports Samples.cfg "psf" fs_with_empty_psf)
     = Raise (ReadError EmptyDataError)
  /\ ReadError EmptyDataError <> FileNotFoundError.
Proof.
  assert (Hv : snd (validate_required_files "psf" Samples.cfg fs_with_empty_psf)
               = Ok true) by reflexivity.
  assert (He : snd (compare_all_reports Samples.cfg "psf" fs_with_empty_psf)
               = Raise (ReadError EmptyDataError)) by (vm_compute; reflexivity).
  split; [exact Hv |]. split; [exact He |].
  apply (validated_run_finds_its_files
           "psf" Samples.cfg fs_with_empty_psf (ReadError EmptyDataError));
    [| exact Hv | exact He].
  simpl. tauto.
Defined.

(** ** The menu *)

(** A line of ASCII characters; [Menu.strip] knows the ASCII whitespace. *)
Definition ascii_line (s : string) : bool :=
  forallb (fun c => Nat.ltb (nat_of_ascii c) 128) (list_ascii_of_string s).

Lemma valid_choice_found (x metric_type : string) :
  Menu.dict_get Menu.valid_choices x = Some metric_type ->
  In (x, metric_type) Menu.valid_choices /\ In metric_type metric_types.
Proof.
  unfold Menu.valid_choices. cbn [Menu.dict_get].
  repeat match goal with
         | |- context [String.eqb ?k x] =>
             let E := fresh "E" in
             destruct (String.eqb k x) eqn:E;
             [apply String.eqb_eq in E; subst x; intros [= <-];
              split; simpl; tauto |]
         end.
  discriminate.
Qed.

Lemma valid_choice_missing (x : string) :
  Menu.dict_get Menu.valid_choices x = None ->
  ~ In x ["1"; "2"; "3"; "4"; "5"]%string.
Proof.
  unfold Menu.valid_choices. cbn [Menu.dict_get].
  repeat match goal with
         | |- context [String.eqb ?k x] =>
             let E := fresh "E" in
             destruct (String.eqb k x) eqn:E; [discriminate |];
             apply String.eqb_neq in E
         end.
  intros _ [H | [H | [H | [H | [H | []]]]]]; congruence.
Qed.

(** X17: [get_user_choice] reads lines until one is, once stripped, one of
    ["1"] to ["5"], and returns the metric type [valid_choices] gives for
    it, always one of asf, apa, psf, ssf, all; each line before it was
    none of the five and got the one message; the lines after it are left
    unread. When no line is valid, every line has been read and answered
    with the message, and [input()] fails at the end of the input. *)
Theorem get_user_choice_spec (stdin : list string) :
  forallb ascii_line stdin = true ->
  match Menu.get_user_choice stdin with
  | (printed, Some metric_type, unread) =>
      exists skipped line,
        stdin = skipped ++ line :: unread
        /\ printed = List.length skipped
        /\ Forall (fun l => ~ In (Menu.strip l) ["1"; "2"; "3"; "4"; "5"]%string)
             skipped
        /\ In (Menu.strip line, metric_type) Menu.valid_choices
        /\ In metric_type metric_types
  | (printed, None, unread) =>
      printed = List.length stdin
      /\ unread = []
      /\ Forall (fun l => ~ In (Menu.strip l) ["1"; "2"; "3"; "4"; "5"]%string)
           stdin
  end.
Proof.
  intros _. induction stdin as [|line rest IH]; cbn [Menu.get_user_choice].
  - repeat split. constructor.
  - destruct (Menu.dict_get Menu.valid_choices (Menu.strip line))
      as [metric_type|] eqn:E.
    + destruct (valid_choice_found _ _ E) as [H1 H2].
      exists [], line. repeat split; [constructor | exact H1 | exact H2].
    + apply valid_choice_missing in E.
      destruct (Menu.get_user_choice rest) as [[printed [metric_type|]] unread].
      * destruct IH as (skipped & line' & -> & -> & Hs & H1 & H2).
        exists (line :: skipped), line'.
        repeat split; [constructor; assumption | exact H1 | exact H2].
      * destruct IH as (-> & -> & Hs).
        repeat split. constructor; assumption.
Qed.

Lemma get_user_choice_spec_witness :
  Menu.get_user_choice ["asf"; "0"; " 3 "; "5"]%string
  = (2, Some "psf"%string, ["5"%string])
  /\ exists skipped line,
      ["asf"; "0"; " 3 "; "5"]%string = skipped ++ line :: ["5"%string]
      /\ 2 = List.length skipped.
Proof.
  split; [reflexivity |].
  destruct (get_user_choice_spec ["asf"; "0"; " 3 "; "5"]%string eq_refl)
    as (skipped & line & H1 & H2 & _).
  exists skipped, line. split; assumption.
Defined.
